(** * Text recovery and normalisation pipeline of the PDF converter

    A shallow embedding of the text-processing core of the repository:
    - [src/app.py]: [ContentExporters.clean_text], [decode_indic_text],
      [normalize_text], [translate_to_english] and the per-page loop of
      [research_converter_page];
    - [src/whitepaper/exporters.py]: [ContentExporters.clean_text];
    - [src/whitepaper/encoding_detector.py]: [process_for_research].

    A Python [str] is a list of Unicode code points and a [bytes] object a
    list of octets, both carried as [Z].  Library facilities the code calls
    but does not define ([str.isprintable], the regex class [\w],
    [chardet.detect], the codec registry, the generative model) are
    parameters of the development. *)

From Stdlib Require Import ZArith List String Ascii Bool Lia QArith Decimal.
Import ListNotations.

Local Open Scope Z_scope.

(** ** Python values and built-in string operations *)

Module Py.

Definition str := list Z.
Definition bytes := list Z.

(** A value of the two dynamic types the code distinguishes with
    [isinstance]. *)
Inductive object :=
| Str (s : str)
| Bytes (b : bytes).

Inductive exn :=
| TypeError
| AttributeError
| LookupError
| UnicodeDecodeError
| ZeroDivisionError
| IndexError
| UnboundLocalError
| External (is_exception : bool) (message : str).

(** [isinstance(e, Exception)]: the built-in errors above all derive from
    [Exception]; an error of a collaborator says so itself. *)
(** [str(e)] *)
Definition exn_str (e : exn) : str :=
  match e with
  | External _ message => message
  | _ => []
  end.

Definition is_Exception (e : exn) : bool :=
  match e with
  | External is_exception _ => is_exception
  | _ => true
  end.

Inductive result (A : Type) :=
| Return (a : A)
| Raise (e : exn).
Arguments Return {A} a.
Arguments Raise {A} e.

(** A dict literal evaluated left to right: a repeated key keeps the place
    of its first occurrence and takes the last value. *)
Fixpoint str_eqb (a b : str) : bool :=
  match a, b with
  | [], [] => true
  | x :: a', y :: b' => (x =? y) && str_eqb a' b'
  | _, _ => false
  end.

Fixpoint dict_set (d : list (str * str)) (k v : str) : list (str * str) :=
  match d with
  | [] => [(k, v)]
  | (k', v') :: d' =>
      if str_eqb k' k then (k', v) :: d' else (k', v') :: dict_set d' k v
  end.

Definition dict (literal : list (str * str)) : list (str * str) :=
  fold_left (fun d kv => dict_set d (fst kv) (snd kv)) literal [].

Definition bind {A B} (m : result A) (k : A -> result B) : result B :=
  match m with
  | Return a => k a
  | Raise e => Raise e
  end.

(** [try: body except: handler] with a bare [except]. *)
Definition try_except {A} (body : result A) (handler : result A) : result A :=
  match body with
  | Return a => Return a
  | Raise _ => handler
  end.

(** An ASCII literal as a [str]. *)
Definition lit (s : string) : str :=
  map (fun a => Z.of_N (N_of_ascii a)) (list_ascii_of_string s).

Definition NL : Z := 10.
Definition TAB : Z := 9.
Definition SP : Z := 32.

Fixpoint starts_with (prefix s : str) : bool :=
  match prefix, s with
  | [], _ => true
  | p :: prefix', c :: s' => (p =? c) && starts_with prefix' s'
  | _ :: _, [] => false
  end.

(** [needle in hay] for two [str]. *)
Fixpoint str_in (needle hay : str) : bool :=
  starts_with needle hay ||
  match hay with
  | [] => false
  | _ :: hay' => str_in needle hay'
  end.

(** The scan of [str.replace] for a non-empty [old]: left to right, each
    occurrence replaced and skipped, so occurrences never overlap. [skip]
    counts the characters of the current occurrence still to be passed. *)
Fixpoint replace_from (old new : str) (skip : nat) (s : str) : str :=
  match s with
  | [] => []
  | c :: s' =>
      match skip with
      | S k => replace_from old new k s'
      | O => if starts_with old s
             then new ++ replace_from old new (Nat.pred (List.length old)) s'
             else c :: replace_from old new 0 s'
      end
  end.

(** [text.replace(old, new)]; an empty [old] matches between characters. *)
Definition replace (text old new : str) : str :=
  match old with
  | [] => new ++ flat_map (fun c => c :: new) text
  | _ :: _ => replace_from old new 0 text
  end.

(** The code points for which [str.isspace] holds, which are also the ones
    the regex class [\s] matches in a [str] pattern. *)
Definition whitespace : list Z :=
  [0x9; 0xA; 0xB; 0xC; 0xD; 0x1C; 0x1D; 0x1E; 0x1F; 0x20; 0x85; 0xA0;
   0x1680; 0x2000; 0x2001; 0x2002; 0x2003; 0x2004; 0x2005; 0x2006; 0x2007;
   0x2008; 0x2009; 0x200A; 0x2028; 0x2029; 0x202F; 0x205F; 0x3000].

Definition isspace (c : Z) : bool := existsb (Z.eqb c) whitespace.

(** [re.sub(r'\s+', ' ', text)]: [in_run] tells that the scan is inside a
    run of whitespace whose single space has been written already. *)
Fixpoint sub_ws_from (in_run : bool) (s : str) : str :=
  match s with
  | [] => []
  | c :: s' =>
      if isspace c
      then if in_run then sub_ws_from true s' else SP :: sub_ws_from true s'
      else c :: sub_ws_from false s'
  end.

Definition re_sub_ws (text : str) : str := sub_ws_from false text.

(** For the text after a newline: the length of the longest prefix made of
    whitespace only that ends in a newline, when there is one. This is what
    the greedy [\s*\n] matches after backtracking. *)
Fixpoint ws_to_last_nl (s : str) (i : nat) (best : option nat) : option nat :=
  match s with
  | [] => best
  | c :: s' =>
      if isspace c
      then ws_to_last_nl s' (S i) (if c =? NL then Some (S i) else best)
      else best
  end.

(** [re.sub(r'\n\s*\n', '\n\n', text)]. *)
Fixpoint sub_blank_from (skip : nat) (s : str) : str :=
  match s with
  | [] => []
  | c :: s' =>
      match skip with
      | S k => sub_blank_from k s'
      | O =>
          if c =? NL
          then match ws_to_last_nl s' 0 None with
               | Some n => NL :: NL :: sub_blank_from n s'
               | None => c :: sub_blank_from 0 s'
               end
          else c :: sub_blank_from 0 s'
      end
  end.

Definition re_sub_blank_lines (text : str) : str := sub_blank_from 0 text.

Fixpoint lstrip (s : str) : str :=
  match s with
  | [] => []
  | c :: s' => if isspace c then lstrip s' else s
  end.

Fixpoint rstrip (s : str) : str :=
  match s with
  | [] => []
  | c :: s' =>
      match rstrip s' with
      | [] => if isspace c then [] else [c]
      | r => c :: r
      end
  end.

(** [text.strip()]. *)
Definition strip (text : str) : str := rstrip (lstrip text).

(** [str(n)] for a non-negative integer. *)
Fixpoint digits (d : Decimal.uint) : str :=
  match d with
  | Nil => []
  | D0 d => 48 :: digits d
  | D1 d => 49 :: digits d
  | D2 d => 50 :: digits d
  | D3 d => 51 :: digits d
  | D4 d => 52 :: digits d
  | D5 d => 53 :: digits d
  | D6 d => 54 :: digits d
  | D7 d => 55 :: digits d
  | D8 d => 56 :: digits d
  | D9 d => 57 :: digits d
  end.

Definition str_of_nat (n : nat) : str := digits (Nat.to_uint n).

(** [sum(c.isprintable() for c in decoded) / len(decoded) > 0.8]. The
    quotient of the two integers is compared as an exact fraction, which is
    what the float comparison computes for every text shorter than 10^15
    characters; an empty text divides by zero. *)
Definition printable_ratio_ok (isprintable : Z -> bool) (decoded : str)
  : result bool :=
  match decoded with
  | [] => Raise ZeroDivisionError
  | _ :: _ =>
      let printable := Z.of_nat (List.length (filter isprintable decoded)) in
      Return (4 * Z.of_nat (List.length decoded) <? 5 * printable)
  end.

(** ** The UTF-8 codec, as the code uses it

    [text.encode('utf-8', errors='ignore')] drops the surrogate code points,
    the only ones the codec cannot encode. *)
Definition utf8_encode_char (c : Z) : bytes :=
  if c <? 0x80 then [c]
  else if c <? 0x800 then [0xC0 + c / 64; 0x80 + c mod 64]
  else if (0xD800 <=? c) && (c <=? 0xDFFF) then []
  else if c <? 0x10000
       then [0xE0 + c / 4096; 0x80 + (c / 64) mod 64; 0x80 + c mod 64]
       else [0xF0 + c / 262144; 0x80 + (c / 4096) mod 64;
             0x80 + (c / 64) mod 64; 0x80 + c mod 64].

Definition utf8_encode_ignore (text : str) : bytes :=
  flat_map utf8_encode_char text.

Definition continuation (b : Z) : bool := (0x80 <=? b) && (b <=? 0xBF).

(** The second byte of a three- or four-byte sequence is further
    restricted after the lead bytes E0, ED, F0 and F4 (no overlong forms,
    no surrogates, nothing above U+10FFFF). *)
Definition second_ok (lead b : Z) : bool :=
  continuation b &&
  negb ((lead =? 0xE0) && (b <? 0xA0)) &&
  negb ((lead =? 0xED) && (0xA0 <=? b)) &&
  negb ((lead =? 0xF0) && (b <? 0x90)) &&
  negb ((lead =? 0xF4) && (0x90 <=? b)).

(** One item per decoded character or per ill-formed byte run; the decoder
    reports a lead byte together with the valid continuation bytes that
    follow it as one error, and any other offending byte alone. *)
Fixpoint utf8_scan (b : bytes) : list (option Z) :=
  match b with
  | [] => []
  | b0 :: r0 =>
      if b0 <? 0x80 then Some b0 :: utf8_scan r0
      else if (0xC2 <=? b0) && (b0 <=? 0xDF) then
        match r0 with
        | b1 :: r1 =>
            if continuation b1
            then Some ((b0 - 0xC0) * 64 + (b1 - 0x80)) :: utf8_scan r1
            else None :: utf8_scan r0
        | [] => [None]
        end
      else if (0xE0 <=? b0) && (b0 <=? 0xEF) then
        match r0 with
        | b1 :: r1 =>
            if second_ok b0 b1 then
              match r1 with
              | b2 :: r2 =>
                  if continuation b2
                  then Some ((b0 - 0xE0) * 4096 + (b1 - 0x80) * 64
                             + (b2 - 0x80)) :: utf8_scan r2
                  else None :: utf8_scan r1
              | [] => [None]
              end
            else None :: utf8_scan r0
        | [] => [None]
        end
      else if (0xF0 <=? b0) && (b0 <=? 0xF4) then
        match r0 with
        | b1 :: r1 =>
            if second_ok b0 b1 then
              match r1 with
              | b2 :: r2 =>
                  if continuation b2 then
                    match r2 with
                    | b3 :: r3 =>
                        if continuation b3
                        then Some ((b0 - 0xF0) * 262144 + (b1 - 0x80) * 4096
                                   + (b2 - 0x80) * 64 + (b3 - 0x80))
                               :: utf8_scan r3
                        else None :: utf8_scan r2
                    | [] => [None]
                    end
                  else None :: utf8_scan r1
              | [] => [None]
              end
            else None :: utf8_scan r0
        | [] => [None]
        end
      else None :: utf8_scan r0
  end.

(** [text.decode('utf-8', errors='replace')]: U+FFFD for each error. *)
Definition utf8_decode_replace (text : bytes) : str :=
  map (fun item => match item with Some c => c | None => 0xFFFD end)
      (utf8_scan text).

(** [text.decode('utf-8')]. *)
Definition utf8_decode (text : bytes) : result str :=
  if forallb (fun item => match item with Some _ => true | None => false end)
             (utf8_scan text)
  then Return (utf8_decode_replace text)
  else Raise UnicodeDecodeError.

(** ** Splitting and joining

    [text.split(sep)] for a non-empty [sep]: the pieces between the
    occurrences of [sep], found left to right without overlap. The head of
    the result is the piece that the scan is in; [skip] counts the
    characters of the current occurrence still to be passed. *)
Fixpoint split_from (sep : str) (skip : nat) (s : str) : list str :=
  match s with
  | [] => [[]]
  | c :: s' =>
      match skip with
      | S k => split_from sep k s'
      | O =>
          if starts_with sep s
          then [] :: split_from sep (Nat.pred (List.length sep)) s'
          else match split_from sep 0 s' with
               | piece :: pieces => (c :: piece) :: pieces
               | [] => [[c]]
               end
      end
  end.

Definition str_split (text sep : str) : list str := split_from sep 0 text.

(** [sep.join(pieces)]. *)
Fixpoint str_join (sep : str) (pieces : list str) : str :=
  match pieces with
  | [] => []
  | [piece] => piece
  | piece :: rest => piece ++ sep ++ str_join sep rest
  end.

(** [text.startswith(prefixes)] for a tuple of prefixes. *)
Definition startswith_any (text : str) (prefixes : list str) : bool :=
  existsb (fun prefix => starts_with prefix text) prefixes.

(** ** The regular expressions of [clean_markdown]

    [re.sub(r'^#+\s*', '', text, flags=re.MULTILINE)]: at the start of
    the text or after a newline, a run of [#] and the whitespace after it
    are removed. The whitespace may end in a newline, after which a line
    starts again. *)
Inductive heading_scan :=
| AtText (line_start : bool)
| InHashes
| InSpace (after_newline : bool).

Fixpoint strip_headings_from (st : heading_scan) (s : str) : str :=
  match s with
  | [] => []
  | c :: s' =>
      let line_start :=
        match st with
        | AtText line_start => line_start
        | InHashes => false
        | InSpace after_newline => after_newline
        end in
      let in_match :=
        match st with
        | AtText _ => false
        | _ => true
        end in
      if (c =? 35) && (line_start || match st with InHashes => true
                                                 | _ => false end)
      then strip_headings_from InHashes s'
      else if in_match && isspace c
      then strip_headings_from (InSpace (c =? NL)) s'
      else c :: strip_headings_from (AtText (c =? NL)) s'
  end.

Definition strip_headings (text : str) : str :=
  strip_headings_from (AtText true) text.

(** For [delim(.*?)delim], the length of the shortest group: the
    characters before the next [delim], none of them a newline. *)
Fixpoint find_close (delim : str) (s : str) : option nat :=
  match s with
  | [] => if starts_with delim s then Some 0%nat else None
  | c :: s' =>
      if starts_with delim s then Some 0%nat
      else if c =? NL then None
      else match find_close delim s' with
           | Some n => Some (S n)
           | None => None
           end
  end.

(** [re.sub(delim + '(.*?)' + delim, r'\1', text)] for a literal [delim]:
    [drop] characters of the opening [delim] are still to be passed, then
    [copy] characters of the group are kept, then the [close] characters
    of the closing [delim] passed. *)
Fixpoint unwrap_from (delim : str) (drop copy close : nat) (s : str) : str :=
  match s with
  | [] => []
  | c :: s' =>
      match drop, copy, close with
      | S k, _, _ => unwrap_from delim k copy close s'
      | O, S k, _ => c :: unwrap_from delim 0 k close s'
      | O, O, S k => unwrap_from delim 0 0 k s'
      | O, O, O =>
          if starts_with delim s
          then match find_close delim (skipn (List.length delim) s) with
               | Some n =>
                   unwrap_from delim (Nat.pred (List.length delim)) n
                               (List.length delim) s'
               | None => c :: unwrap_from delim 0 0 0 s'
               end
          else c :: unwrap_from delim 0 0 0 s'
      end
  end.

Definition unwrap (delim text : str) : str := unwrap_from delim 0 0 0 text.

End Py.

Import Py.

Notation "x <- m ;; k" := (Py.bind m (fun x => k))
  (at level 61, m at next level, right associativity).

(** ** src/app.py *)

Module App.

Module ContentExporters.

Section CleanText.

(** The regex class [\w] on [str]: alphanumeric code points and the
    underscore. *)
Variable isword : Z -> bool.

(** The characters named one by one in the class
    [[^\w\s\.\,\;\:\!\?\-\(\)\[\]\{\}]]. *)
Definition kept_punctuation : str := lit ".,;:!?-()[]{}".

Definition kept (c : Z) : bool :=
  isword c || isspace c || existsb (Z.eqb c) kept_punctuation.

Definition clean_text (text : str) : str :=
  let text := re_sub_ws text in
  let text := filter kept text in
  strip text.

End CleanText.

End ContentExporters.

Section Normalize.

Variable isprintable : Z -> bool.

Definition normalize_text (text : str) : str :=
  let text :=
    filter (fun char => isprintable char || str_in [char] [NL; TAB]) text in
  let text := re_sub_ws text in
  let text := replace text [0xE2; 0x20AC; 0x2122] (lit "'") in
  let text := replace text [0xE2; 0x20AC; 0x153] [34] in
  let text := replace text [0xE2; 0x20AC] [34] in
  let text := replace text [0xC2] [] in
  let text := replace text (lit "deg" ++ [0xFC]) (lit "deg") in
  let text := replace text (lit "(c)") [0xA9] in
  let text := re_sub_ws text in
  let text := re_sub_blank_lines text in
  strip text.

End Normalize.

(** *** [decode_indic_text] *)

(** The dict literal [replacements], as written. *)
Definition replacements_literal : list (str * str) :=
  [([0x28; 0x52; 0x29], [0x930]); ([0x2B; 0x2F; 0x2D], [0x932]);
   ([0xC9], [0x93E]); ([0xE8], [0x948]); ([0xFA], [0x930]);
   ([0xF9], [0x926]); ([0xFE], [0x939]); ([0xF2], [0x915]);
   ([0xE4], [0x947]); ([0xE6], [0x94B]); ([0xCE], [0x93F]);
   ([0xF5], [0x91F]); ([0xA8], [0x92E]); ([0xBD], [0x939]);
   ([0xCA], [0x93F]); ([0xBA], [0x938]); ([0xC6], [0x902]);
   ([0xC7], [0x91A]); ([0xAA], [0x92F]); ([0xA6], [0x92D]);
   ([0x50], [0x936]); ([0xFF], [0x939]); ([0xD2], [0x940]);
   ([0xD3], [0x940]); ([0xD4], [0x940]); ([0xD5], [0x940]);
   ([0xD6], [0x940]); ([0xD7], [0x940]); ([0xD8], [0x940]);
   ([0xD9], [0x940]); ([0xDA], [0x940]); ([0xDB], [0x940]);
   ([0xDC], [0x940]); ([0xDD], [0x940]); ([0xDE], [0x940]);
   ([0xDF], [0x940]); ([0xE0], [0x940]); ([0xE1], [0x940]);
   ([0xE2], [0x940]); ([0xE3], [0x940]); ([0xE4], [0x947]);
   ([0xE5], [0x947]); ([0xE6], [0x94B]); ([0xE7], [0x94B]);
   ([0xE8], [0x948]); ([0xE9], [0x948]); ([0xEA], [0x948]);
   ([0xEB], [0x948]); ([0xEC], [0x948]); ([0xED], [0x948]);
   ([0xEE], [0x948]); ([0xEF], [0x948]); ([0xF0], [0x948]);
   ([0xF1], [0x948]); ([0xF2], [0x915]); ([0xF3], [0x915]);
   ([0xF4], [0x915]); ([0xF5], [0x91F]); ([0xF6], [0x91F]);
   ([0xF7], [0x91F]); ([0xF8], [0x91F]); ([0xF9], [0x926]);
   ([0xFA], [0x930]); ([0xFB], [0x930]); ([0xFC], [0x930]);
   ([0xFD], [0x930]); ([0xFE], [0x939]); ([0xFF], [0x939])].

(** [replacements.items()]. *)
Definition replacements : list (str * str) :=
  Eval vm_compute in dict replacements_literal.

Definition indic_markers : list str :=
  [[0xC9]; [0xFA]; [0xF9]; [0xFE]; [0xF2]; [0xE4]; [0xE6]; [0xCE]; [0xF5]].

Definition encodings_to_try : list string :=
  ["utf-8"; "utf-16"; "utf-32"; "iso-8859-1"; "cp1252"; "ascii"; "latin1";
   "latin_1"; "iso-8859-15"; "windows-1252"; "mac_roman"]%string.

(** The pure reading of lines 862-869 on a [str]: the marker test and the
    substitution pass it guards. *)
Definition is_indic (text : str) : bool :=
  existsb (fun marker => str_in marker text) indic_markers.

Definition apply_replacements (text : str) : str :=
  fold_left (fun text kv => replace text (fst kv) (snd kv)) replacements text.

Definition repair (text : str) : str :=
  if is_indic text then apply_replacements text else text.

(** What the table makes of a single character: the value of its
    one-character key, or the character itself. *)
Definition table_char (c : Z) : Z :=
  match find (fun kv => str_eqb (fst kv) [c]) replacements with
  | Some (_, [v]) => v
  | _ => c
  end.

(** [marker in text]: a [str] cannot be looked for in a [bytes]. *)
Definition contains (marker : str) (text : object) : result bool :=
  match text with
  | Str s => Return (str_in marker s)
  | Bytes _ => Raise TypeError
  end.

(** [any(marker in text for marker in markers)]. *)
Fixpoint any_in (markers : list str) (text : object) : result bool :=
  match markers with
  | [] => Return false
  | marker :: rest =>
      found <- contains marker text ;;
      if found then Return true else any_in rest text
  end.

(** [for old, new in items: text = text.replace(old, new)]. *)
Fixpoint replace_items (items : list (str * str)) (text : object)
  : result object :=
  match items with
  | [] => Return text
  | (old, new) :: rest =>
      match text with
      | Str s => replace_items rest (Str (replace s old new))
      | Bytes _ => Raise TypeError
      end
  end.

(** Lines 863-869 on their own, the repair stage: the marker test and
    the substitution pass it guards, with which [decode_indic_text] below
    starts. *)
Definition repair_stage (text : object) : result object :=
  is_indic <- any_in indic_markers text ;;
  if is_indic then replace_items replacements text else Return text.

(** What [chardet.detect] returns. *)
Record detection := { encoding : option string; confidence : Q }.

(** The double nearest to 0.8, which the literal [0.8] denotes. *)
Definition float_0_8 : Q := 3602879701896397 # 4503599627370496.

(** [detected['confidence'] > 0.8]. *)
Definition confident (detected : detection) : bool :=
  negb (Qle_bool (confidence detected) float_0_8).

(** A [try] block that may [return]: [Some v] when it returned [v], [None]
    when control goes on after it, also through the bare [except]. *)
Definition attempt (body : result (option str)) : option str :=
  match body with
  | Return r => r
  | Raise _ => None
  end.

Section Decode.

Variable isprintable : Z -> bool.
Variable chardet_detect : bytes -> detection.

(** [text.decode(encoding)] and [text.decode(encoding, errors='replace')]
    through the codec registry. *)
Variable decode : string -> bytes -> result str.
Variable decode_replace : string -> bytes -> result str.

(** [return decoded] when the printable ratio exceeds 0.8. *)
Definition accept (decoded : str) : result (option str) :=
  ok <- printable_ratio_ok isprintable decoded ;;
  Return (if ok then Some decoded else None).

(** [if isinstance(text, str): text = text.encode('utf-8', errors='ignore')]. *)
Definition to_bytes (text : object) : bytes :=
  match text with
  | Str s => utf8_encode_ignore s
  | Bytes b => b
  end.

(** Lines 871-882: [text] is rebound to its bytes before the decode is
    tried, and stays so when the attempt is abandoned. *)
Definition iscii_attempt (text : object) : bytes * option str :=
  let text := to_bytes text in
  (text, attempt (decoded <- decode_replace "iscii" text ;; accept decoded)).

(** Lines 903-908: the detector's guess is returned as soon as it decodes. *)
Definition try_chardet (text : bytes) : option str :=
  let detected := chardet_detect text in
  if confident detected
  then attempt (match encoding detected with
                | Some name => decoded <- decode name text ;;
                               Return (Some decoded)
                | None => Raise TypeError
                end)
  else None.

(** Lines 911-917. *)
Fixpoint try_encodings (encodings : list string) (text : bytes)
  : option str :=
  match encodings with
  | [] => None
  | name :: rest =>
      match attempt (decoded <- decode name text ;; accept decoded) with
      | Some decoded => Some decoded
      | None => try_encodings rest text
      end
  end.

(** Lines 884-920, on the bytes line 901 leaves in [text]: the detector,
    then the fallback list, then the lossy UTF-8 decode. *)
Definition decode_chain (text : bytes) : str :=
  match try_chardet text with
  | Some decoded => decoded
  | None =>
      match try_encodings encodings_to_try text with
      | Some decoded => decoded
      | None => utf8_decode_replace text
      end
  end.

Definition decode_indic_text (text : object) : result str :=
  is_indic <- any_in indic_markers text ;;
  st <- (if is_indic
         then text <- replace_items replacements text ;;
              let (text, returned) := iscii_attempt text in
              Return (Bytes text, returned)
         else Return (text, None)) ;;
  match snd st with
  | Some decoded => Return decoded
  | None => Return (decode_chain (to_bytes (fst st)))
  end.

(** *** The page loop of [research_converter_page] *)

Variable isword : Z -> bool.

Definition page_marker (i : nat) : str :=
  lit "=== Page " ++ str_of_nat i ++ lit " ===".

(** One turn of the loop at lines 1028-1042 over [(processed_text,
    raw_text)]; [page_text] is what [page.extract_text()] gave. *)
Definition page_step (i : nat) (page_text : str) (acc : str * str)
  : result (str * str) :=
  match page_text with
  | [] => Return acc
  | _ :: _ =>
      let raw_text :=
        snd acc ++ [NL] ++ lit "=== Page " ++ str_of_nat i ++ lit " Raw ==="
                ++ [NL] ++ page_text ++ [NL] in
      decoded_text <- decode_indic_text (Str page_text) ;;
      let normalized_text := normalize_text isprintable decoded_text in
      let cleaned_text := ContentExporters.clean_text isword normalized_text in
      Return (fst acc ++ [NL] ++ page_marker i ++ [NL] ++ cleaned_text ++ [NL],
              raw_text)
  end.

(** [for i, page in enumerate(pdf_reader.pages, 1)], from index [i] on. *)
Fixpoint page_loop (i : nat) (pages : list str) (acc : str * str)
  : result (str * str) :=
  match pages with
  | [] => Return acc
  | page_text :: rest =>
      acc <- page_step i page_text acc ;;
      page_loop (S i) rest acc
  end.

Definition process_pages (pages : list str) : result (str * str) :=
  page_loop 1 pages ([], []).

End Decode.

(** *** [translate_to_english] *)

(** The reply of the model; reading its [text] may raise as well. *)
Record response := { response_text : result str }.

Record model := { generate_content : str -> result response }.

Definition translation_prompt (text : str) : str :=
  lit "Translate the following Hindi/Devanagari text to English. " ++ [NL]
  ++ lit "Keep technical terms as is, and maintain any numerical values or measurements exactly."
  ++ [NL] ++ lit "Preserve formatting and structure of the text." ++ [NL]
  ++ [NL] ++ lit "Text to translate:" ++ [NL] ++ text ++ [NL] ++ [NL]
  ++ lit "Please provide a clear and accurate translation while keeping technical terminology intact.".

(** The value returned or the error raised, with the lines printed. *)
Definition translate_to_english (text : str) (m : model)
  : list str * result str :=
  match (response <- generate_content m (translation_prompt text) ;;
         response_text response) with
  | Return translated => ([], Return translated)
  | Raise e =>
      if is_Exception e
      then ([lit "Translation error: " ++ exn_str e], Return text)
      else ([], Raise e)
  end.

(** *** [clean_markdown] *)

Definition clean_markdown (text : str) : str :=
  let text := strip_headings text in
  let text := unwrap (lit "**") text in
  let text := unwrap (lit "*") text in
  filter (fun c => negb (existsb (Z.eqb c) (lit "#*_~`"))) text.

(** *** [ContentExporters.export_as_pdf] and [export_as_html]

    What [export_as_pdf] hands to the document builder. *)
Inductive style := title_style | body_style.

Inductive flowable :=
| Paragraph (text : str) (s : style)
| Spacer (width height : Z).

(** [bool(paragraph.strip())]. *)
Definition nonblank (paragraph : str) : bool :=
  match strip paragraph with
  | [] => false
  | _ :: _ => true
  end.

(** The loop of lines 371-377 over the list [story]. *)
Fixpoint story_loop (paragraphs : list str) (story : list flowable)
  : list flowable :=
  match paragraphs with
  | [] => story
  | paragraph :: rest =>
      if nonblank paragraph
      then
        let story :=
          match story with
          | [] => story ++ [Paragraph paragraph title_style]
          | _ :: _ => story ++ [Paragraph paragraph body_style]
          end in
        story_loop rest (story ++ [Spacer 1 12])
      else story_loop rest story
  end.

Definition export_as_pdf_story (content : str) : list flowable :=
  story_loop (str_split content [NL; NL]) [].

(** The document that the PDF part of [blog_writer_page] builds, lines
    689-696: the topic as title, then the cleaned post. *)
Fixpoint blog_loop (paragraphs : list str) (content : list flowable)
  : list flowable :=
  match paragraphs with
  | [] => content
  | paragraph :: rest =>
      if nonblank paragraph
      then blog_loop rest (content ++ [Paragraph paragraph body_style]
                                   ++ [Spacer 1 12])
      else blog_loop rest content
  end.

Definition blog_pdf_content (topic blog_content : str) : list flowable :=
  let cleaned_content := clean_markdown blog_content in
  blog_loop (str_split cleaned_content [NL; NL])
            [Paragraph topic title_style; Spacer 1 12].

(** The page of the blog post, lines 648-654. *)
Definition blog_html_content (topic blog_content : str) : str :=
  let cleaned_content := clean_markdown blog_content in
  lit "<html><head></head><body><h1>" ++ topic ++ lit "</h1><div>"
    ++ replace cleaned_content [NL] (lit "<br>")
    ++ lit "</div></body></html>".

(** The pieces of the f-string [html_template] of [export_as_html]. *)
Definition html_part_1 : str :=
  [NL] ++ lit "            <!DOCTYPE html>" ++ [NL] ++
  lit "            <html>" ++ [NL] ++ lit "            <head>" ++ [NL] ++
  lit "                <meta charset=" ++ [34] ++ lit "utf-8" ++ [34] ++
  lit ">" ++ [NL] ++ lit "                <title>".

Definition html_part_2 : str :=
  lit "</title>" ++ [NL] ++ lit "                <style>" ++ [NL] ++
  lit "                    body { font-family: Arial, sans-serif; margin: 40px; line-height: 1.6; }" ++
  [NL] ++
  lit "                    h1 { color: #333; border-bottom: 2px solid #333; padding-bottom: 10px; }" ++
  [NL] ++ lit "                    p { margin-bottom: 15px; }" ++ [NL] ++
  lit "                </style>" ++ [NL] ++ lit "            </head>" ++
  [NL] ++ lit "            <body>" ++ [NL] ++ lit "                <h1>".

Definition html_part_3 : str :=
  lit "</h1>" ++ [NL] ++ lit "                <div>".

Definition html_part_4 : str :=
  lit "</div>" ++ [NL] ++ lit "            </body>" ++ [NL] ++
  lit "            </html>" ++ [NL] ++ lit "            ".

(** The text [export_as_html] writes to the file. *)
Definition html_template (isword : Z -> bool) (content filename_base : str)
  : str :=
  let cleaned_content := ContentExporters.clean_text isword content in
  html_part_1
    ++ filename_base
    ++ html_part_2
    ++ filename_base
    ++ html_part_3
    ++ replace cleaned_content [10] (lit "<br>")
    ++ html_part_4.

(** *** [show_encoding_details]

    The digits of [f'{b:02x}'] and [f'{b:08b}'] for an octet [b]. *)
Definition hex_digit (d : Z) : Z := if d <? 10 then 48 + d else 87 + d.

Definition format_02x (b : Z) : str := [hex_digit (b / 16); hex_digit (b mod 16)].

Definition format_08b (b : Z) : str :=
  map (fun i => 48 + (b / 2 ^ i) mod 2) [7; 6; 5; 4; 3; 2; 1; 0].

Definition hex_bytes (text_bytes : bytes) : str :=
  str_join (lit " ") (map format_02x (firstn 20 text_bytes)).

Definition binary_bytes (text_bytes : bytes) : str :=
  str_join (lit " ") (map format_08b (firstn 20 text_bytes)).

Definition ascii_bytes (text_bytes : bytes) : str :=
  map (fun b => if (32 <=? b) && (b <=? 126) then b else 46)
      (firstn 20 text_bytes).

(** The dict [patterns] the function returns, in the order of its keys. *)
Record patterns := {
  pattern_utf8 : bool;
  pattern_ascii : bool;
  pattern_utf16 : bool
}.

Definition show_encoding_details (text_bytes : bytes) : patterns :=
  {| pattern_utf8 :=
       existsb (fun b => negb (Z.land b 0x80 =? 0)) (firstn 100 text_bytes);
     pattern_ascii := forallb (fun b => b <? 128) (firstn 100 text_bytes);
     pattern_utf16 := existsb (fun b => b =? 0) (firstn 100 text_bytes) |}.

End App.

(** ** src/whitepaper *)

Module Whitepaper.

Import App.

(** [detected['encoding'] or 'utf-8'], [encodings[i] if encodings[i] else
    'utf-8']: [None] and the empty name both give way to the default. *)
Definition or_utf8 (name : option string) : string :=
  match name with
  | Some EmptyString | None => "utf-8"%string
  | Some name => name
  end.

(** *** exporters.py *)

Module ContentExporters.

(** The dict literal [replacements], as written; the two entries meant for
    the single quotation marks open and close a triple-quoted string, whose
    text is the key of one entry. *)
Definition replacements_literal : list (str * str) :=
  [
   ([0x2013], lit "-");
   ([0x2014], lit "--");
   ([0x22], [0x22]);
   ([0x22], [0x22]);
   (lit ": " ++ [0x22] ++ lit "'" ++ [0x22] ++ lit ",  # left single quote"
      ++ [NL] ++ lit "            ", lit "'");
   ([0x2026], lit "...");
   ([0x2022], lit "*");
   ([0x2192], lit "->");
   ([0x2190], lit "<-");
   ([0xB1], lit "+/-");
   ([0xD7], lit "x");
   ([0xF7], lit "/");
   ([0xB0], lit " deg");
   ([0x3A9], lit "Ohm");
   ([0x3B1], lit "alpha");
   ([0x3B2], lit "beta");
   ([0x3B3], lit "gamma");
   ([0x3B4], lit "delta");
   ([0x3BC], lit "mu");
   ([0x3C0], lit "pi");
   ([0x221E], lit "infinity");
   ([0xA9], lit "(c)");
   ([0xAE], lit "(R)");
   ([0x2122], lit "(TM)");
   ([0x20AC], lit "EUR");
   ([0xA3], lit "GBP");
   ([0xA5], lit "JPY");
   ([0xA7], lit "S");
   ([0xB6], lit "P");
   ([0x2020], lit "+");
   ([0x2021], lit "++");
   ([0x2022], lit "*");
   ([0x2026], lit "...");
   ([0x2032], lit "'");
   ([0x2033], [0x22]);
   ([0x2034], [0x22]);
   ([0x2035], lit "`");
   ([0x2036], lit "``");
   ([0x2037], lit "```");
   ([0x2038], lit "^");
   ([0x203B], lit "*");
   ([0x203C], lit "!!");
   ([0x2047], lit "??");
   ([0x2048], lit "?!");
   ([0x2049], lit "!?");
   ([0x204E], lit "*");
   ([0x204F], lit ";");
   ([0x2050], lit "P");
   ([0x2051], lit "**");
   ([0x2052], lit "%");
   ([0x2053], lit "~");
   ([0x2054], lit "_");
   ([0x2055], lit "*");
   ([0x2056], lit "...");
   ([0x2057], lit "....");
   ([0x2058], lit "-");
   ([0x2059], lit ".....");
   ([0x205A], lit "..");
   ([0x205B], lit "....");
   ([0x205C], lit "...");
   ([0x205D], lit "...");
   ([0x205E], lit "....")
  ].

Definition replacements : list (str * str) :=
  Eval vm_compute in dict replacements_literal.

Section CleanText.

Variable chardet_detect : bytes -> detection.
Variable decode_replace : string -> bytes -> result str.

Definition clean_text (text : object) : result str :=
  text <- match text with
          | Bytes b =>
              let detected := chardet_detect b in
              let encoding := or_utf8 (encoding detected) in
              decode_replace encoding b
          | Str s => Return s
          end ;;
  let text :=
    fold_left (fun text kv => replace text (fst kv) (snd kv))
              replacements text in
  Return (filter (fun char => char <? 256) text).

End CleanText.

(** The lines [export_as_pdf] hands to [pdf.multi_cell], lines 113-122:
    each line of the content is cleaned, and written unless it is blank or
    starts, once stripped, with one of three style markers. An error in a
    turn of the loop ends that turn only. *)
Section ExportAsPdf.

Variable chardet_detect : bytes -> detection.
Variable decode_replace : string -> bytes -> result str.

Definition pdf_cell (line : str) : list str :=
  match clean_text chardet_detect decode_replace (Str line) with
  | Return cleaned_line =>
      if nonblank cleaned_line
         && negb (startswith_any (strip cleaned_line)
                                 [lit "style"; lit "/*"; lit "*/"])
      then [cleaned_line]
      else []
  | Raise _ => []
  end.

Definition pdf_cells (content : str) : list str :=
  flat_map pdf_cell (str_split content [NL]).

End ExportAsPdf.

End ContentExporters.

(** *** encoding_detector.py *)

Module EncodingDetector.

Record chunk := {
  chunk_text : str;
  chunk_bytes : bytes;
  chunk_encoding : detection
}.

Section ProcessForResearch.

Variable decode_replace : string -> bytes -> result str.

Definition page_block (i : nat) (body : str) : str :=
  [NL] ++ lit "=== Page " ++ str_of_nat (i + 1) ++ lit " ===" ++ [NL]
       ++ body ++ [NL].

(** One turn of the loop over [(processed_text, encoding)]; the local
    [encoding] is unbound until a first turn assigns it, and the handler
    reads it for its warning. *)
Definition chunk_step (encodings : list (option string)) (i : nat)
  (c : chunk) (acc : str * option string) : result (str * option string) :=
  let fallback (encoding : option string) :=
    match encoding with
    | Some _ => Return (fst acc ++ page_block i (chunk_text c), encoding)
    | None => Raise UnboundLocalError
    end in
  match nth_error encodings i with
  | None => fallback (snd acc)
  | Some name =>
      let encoding := or_utf8 name in
      match decode_replace encoding (chunk_bytes c) with
      | Return decoded_text =>
          Return (fst acc ++ page_block i decoded_text, Some encoding)
      | Raise e =>
          if is_Exception e then fallback (Some encoding) else Raise e
      end
  end.

Fixpoint chunk_loop (encodings : list (option string)) (i : nat)
  (text_chunks : list chunk) (acc : str * option string)
  : result (str * option string) :=
  match text_chunks with
  | [] => Return acc
  | c :: rest =>
      acc <- chunk_step encodings i c acc ;;
      chunk_loop encodings (S i) rest acc
  end.

Definition process_for_research (text_chunks : list chunk)
  (encodings : list (option string)) : result str :=
  acc <- chunk_loop encodings 0 text_chunks ([], None) ;;
  Return (fst acc).

End ProcessForResearch.

(** [extract_text_from_pdf]: [pdf_reader] is what [PyPDF2.PdfReader] gave,
    the pages with what [extract_text] gives for each, or the error
    either raised. The function returns [(None, None)] after an error. *)
Section ExtractText.

Variable chardet_detect : bytes -> detection.

Fixpoint extract_loop (pages : list (result str))
  (acc : list chunk * list (option string))
  : result (list chunk * list (option string)) :=
  match pages with
  | [] => Return acc
  | page :: rest =>
      page_text <- page ;;
      match page_text with
      | [] => extract_loop rest acc
      | _ :: _ =>
          let text_bytes := utf8_encode_ignore page_text in
          let encoding_result := chardet_detect text_bytes in
          extract_loop rest
            (fst acc ++ [{| chunk_text := page_text;
                            chunk_bytes := text_bytes;
                            chunk_encoding := encoding_result |}],
             snd acc ++ [encoding encoding_result])
      end
  end.

Definition extract_text_from_pdf (pdf_reader : result (list (result str)))
  : result (option (list chunk * list (option string))) :=
  match (pages <- pdf_reader ;; extract_loop pages ([], [])) with
  | Return r => Return (Some r)
  | Raise e => if is_Exception e then Return None else Raise e
  end.

End ExtractText.

End EncodingDetector.

(** *** tools.py *)

Module ResearchTools.

(** A loaded page: [page.metadata.get('page')], when the key is there,
    and [page.page_content]. *)
Record page := { metadata_page : option nat; page_content : str }.

(** [page_texts[page_number] = text]. *)
Fixpoint page_texts_set (d : list (nat * str)) (k : nat) (v : str)
  : list (nat * str) :=
  match d with
  | [] => [(k, v)]
  | (k', v') :: d' =>
      if Nat.eqb k' k then (k', v) :: d' else (k', v') :: page_texts_set d' k v
  end.

(** Lines 29-37 of [create_pdf_search_tool]: [(full_text, page_texts)]. *)
Definition load_page (acc : str * list (nat * str)) (p : page)
  : str * list (nat * str) :=
  let page_number :=
    (match metadata_page p with Some n => n | None => 0 end + 1)%nat in
  let text := strip (page_content p) in
  match text with
  | [] => acc
  | _ :: _ =>
      (fst acc ++ [NL; NL] ++ lit "=== Page " ++ str_of_nat page_number
           ++ lit " ===" ++ [NL] ++ text,
       page_texts_set (snd acc) page_number text)
  end.

Definition load_pages (pages : list page) : str * list (nat * str) :=
  fold_left load_page pages ([], []).

Section Search.

(** [str.lower] and [chain.run(query=..., context=...)]. *)
Variable lower : str -> str.
Variable chain_run : str -> str -> result str.

Variable full_text : str.
Variable page_texts : list (nat * str).

(** [result and not result.lower().startswith((...))]. *)
Definition usable (result : str) : bool :=
  match result with
  | [] => false
  | _ :: _ =>
      negb (startswith_any (lower result)
                           [lit "not found"; lit "i cannot"; lit "i am unable"])
  end.

(** The loop of lines 90-97 over [page_texts.items()]. *)
Fixpoint search_pages (query : str) (items : list (nat * str))
  (results : list str) : result (list str) :=
  match items with
  | [] => Return results
  | (page_num, page_text) :: rest =>
      page_result <-
        chain_run (query ++ lit " (on page " ++ str_of_nat page_num ++ lit ")")
                  page_text ;;
      search_pages query rest
        (if usable page_result
         then results ++ [lit "[Page " ++ str_of_nat page_num ++ lit "]: "
                              ++ page_result]
         else results)
  end.

Definition search (query : str) : result str :=
  let body :=
    if startswith_any (lower query)
                      [lit "extract all"; lit "get all"; lit "find all"]
    then Return full_text
    else
      result <- chain_run query full_text ;;
      if usable result then Return result
      else
        results <- search_pages query page_texts [] ;;
        match results with
        | [] => Return (lit "The requested information was not found in the document.")
        | _ :: _ => Return (str_join [NL; NL] results)
        end in
  match body with
  | Return answer => Return answer
  | Raise e =>
      if is_Exception e
      then Return (lit "Error processing PDF: " ++ exn_str e)
      else Raise e
  end.

End Search.

End ResearchTools.

End Whitepaper.

(** ** A reference environment

    The library calls of the code, written out as CPython 3.11 (Unicode 14)
    answers them, for the worked examples below. *)

Module Reference.

Import App.

Definition in_ranges (c : Z) (ranges : list (Z * Z)) : bool :=
  existsb (fun r => (fst r <=? c) && (c <=? snd r)) ranges.

(** The code points for which [str.isprintable] holds, as ranges: those
    of Unicode 14.0, which CPython 3.11 carries, over the whole code space
    U+0000-10FFFF. *)
Definition printable_ranges : list (Z * Z) :=
  [(0x20, 0x7E); (0xA1, 0xAC); (0xAE, 0x377); (0x37A, 0x37F); (0x384, 0x38A);
   (0x38C, 0x38C); (0x38E, 0x3A1); (0x3A3, 0x52F); (0x531, 0x556);
   (0x559, 0x58A); (0x58D, 0x58F); (0x591, 0x5C7); (0x5D0, 0x5EA);
   (0x5EF, 0x5F4); (0x606, 0x61B); (0x61D, 0x6DC); (0x6DE, 0x70D);
   (0x710, 0x74A); (0x74D, 0x7B1); (0x7C0, 0x7FA); (0x7FD, 0x82D);
   (0x830, 0x83E); (0x840, 0x85B); (0x85E, 0x85E); (0x860, 0x86A);
   (0x870, 0x88E); (0x898, 0x8E1); (0x8E3, 0x983); (0x985, 0x98C);
   (0x98F, 0x990); (0x993, 0x9A8); (0x9AA, 0x9B0); (0x9B2, 0x9B2);
   (0x9B6, 0x9B9); (0x9BC, 0x9C4); (0x9C7, 0x9C8); (0x9CB, 0x9CE);
   (0x9D7, 0x9D7); (0x9DC, 0x9DD); (0x9DF, 0x9E3); (0x9E6, 0x9FE);
   (0xA01, 0xA03); (0xA05, 0xA0A); (0xA0F, 0xA10); (0xA13, 0xA28);
   (0xA2A, 0xA30); (0xA32, 0xA33); (0xA35, 0xA36); (0xA38, 0xA39);
   (0xA3C, 0xA3C); (0xA3E, 0xA42); (0xA47, 0xA48); (0xA4B, 0xA4D);
   (0xA51, 0xA51); (0xA59, 0xA5C); (0xA5E, 0xA5E); (0xA66, 0xA76);
   (0xA81, 0xA83); (0xA85, 0xA8D); (0xA8F, 0xA91); (0xA93, 0xAA8);
   (0xAAA, 0xAB0); (0xAB2, 0xAB3); (0xAB5, 0xAB9); (0xABC, 0xAC5);
   (0xAC7, 0xAC9); (0xACB, 0xACD); (0xAD0, 0xAD0); (0xAE0, 0xAE3);
   (0xAE6, 0xAF1); (0xAF9, 0xAFF); (0xB01, 0xB03); (0xB05, 0xB0C);
   (0xB0F, 0xB10); (0xB13, 0xB28); (0xB2A, 0xB30); (0xB32, 0xB33);
   (0xB35, 0xB39); (0xB3C, 0xB44); (0xB47, 0xB48); (0xB4B, 0xB4D);
   (0xB55, 0xB57); (0xB5C, 0xB5D); (0xB5F, 0xB63); (0xB66, 0xB77);
   (0xB82, 0xB83); (0xB85, 0xB8A); (0xB8E, 0xB90); (0xB92, 0xB95);
   (0xB99, 0xB9A); (0xB9C, 0xB9C); (0xB9E, 0xB9F); (0xBA3, 0xBA4);
   (0xBA8, 0xBAA); (0xBAE, 0xBB9); (0xBBE, 0xBC2); (0xBC6, 0xBC8);
   (0xBCA, 0xBCD); (0xBD0, 0xBD0); (0xBD7, 0xBD7); (0xBE6, 0xBFA);
   (0xC00, 0xC0C); (0xC0E, 0xC10); (0xC12, 0xC28); (0xC2A, 0xC39);
   (0xC3C, 0xC44); (0xC46, 0xC48); (0xC4A, 0xC4D); (0xC55, 0xC56);
   (0xC58, 0xC5A); (0xC5D, 0xC5D); (0xC60, 0xC63); (0xC66, 0xC6F);
   (0xC77, 0xC8C); (0xC8E, 0xC90); (0xC92, 0xCA8); (0xCAA, 0xCB3);
   (0xCB5, 0xCB9); (0xCBC, 0xCC4); (0xCC6, 0xCC8); (0xCCA, 0xCCD);
   (0xCD5, 0xCD6); (0xCDD, 0xCDE); (0xCE0, 0xCE3); (0xCE6, 0xCEF);
   (0xCF1, 0xCF2); (0xD00, 0xD0C); (0xD0E, 0xD10); (0xD12, 0xD44);
   (0xD46, 0xD48); (0xD4A, 0xD4F); (0xD54, 0xD63); (0xD66, 0xD7F);
   (0xD81, 0xD83); (0xD85, 0xD96); (0xD9A, 0xDB1); (0xDB3, 0xDBB);
   (0xDBD, 0xDBD); (0xDC0, 0xDC6); (0xDCA, 0xDCA); (0xDCF, 0xDD4);
   (0xDD6, 0xDD6); (0xDD8, 0xDDF); (0xDE6, 0xDEF); (0xDF2, 0xDF4);
   (0xE01, 0xE3A); (0xE3F, 0xE5B); (0xE81, 0xE82); (0xE84, 0xE84);
   (0xE86, 0xE8A); (0xE8C, 0xEA3); (0xEA5, 0xEA5); (0xEA7, 0xEBD);
   (0xEC0, 0xEC4); (0xEC6, 0xEC6); (0xEC8, 0xECD); (0xED0, 0xED9);
   (0xEDC, 0xEDF); (0xF00, 0xF47); (0xF49, 0xF6C); (0xF71, 0xF97);
   (0xF99, 0xFBC); (0xFBE, 0xFCC); (0xFCE, 0xFDA); (0x1000, 0x10C5);
   (0x10C7, 0x10C7); (0x10CD, 0x10CD); (0x10D0, 0x1248); (0x124A, 0x124D);
   (0x1250, 0x1256); (0x1258, 0x1258); (0x125A, 0x125D); (0x1260, 0x1288);
   (0x128A, 0x128D); (0x1290, 0x12B0); (0x12B2, 0x12B5); (0x12B8, 0x12BE);
   (0x12C0, 0x12C0); (0x12C2, 0x12C5); (0x12C8, 0x12D6); (0x12D8, 0x1310);
   (0x1312, 0x1315); (0x1318, 0x135A); (0x135D, 0x137C); (0x1380, 0x1399);
   (0x13A0, 0x13F5); (0x13F8, 0x13FD); (0x1400, 0x167F); (0x1681, 0x169C);
   (0x16A0, 0x16F8); (0x1700, 0x1715); (0x171F, 0x1736); (0x1740, 0x1753);
   (0x1760, 0x176C); (0x176E, 0x1770); (0x1772, 0x1773); (0x1780, 0x17DD);
   (0x17E0, 0x17E9); (0x17F0, 0x17F9); (0x1800, 0x180D); (0x180F, 0x1819);
   (0x1820, 0x1878); (0x1880, 0x18AA); (0x18B0, 0x18F5); (0x1900, 0x191E);
   (0x1920, 0x192B); (0x1930, 0x193B); (0x1940, 0x1940); (0x1944, 0x196D);
   (0x1970, 0x1974); (0x1980, 0x19AB); (0x19B0, 0x19C9); (0x19D0, 0x19DA);
   (0x19DE, 0x1A1B); (0x1A1E, 0x1A5E); (0x1A60, 0x1A7C); (0x1A7F, 0x1A89);
   (0x1A90, 0x1A99); (0x1AA0, 0x1AAD); (0x1AB0, 0x1ACE); (0x1B00, 0x1B4C);
   (0x1B50, 0x1B7E); (0x1B80, 0x1BF3); (0x1BFC, 0x1C37); (0x1C3B, 0x1C49);
   (0x1C4D, 0x1C88); (0x1C90, 0x1CBA); (0x1CBD, 0x1CC7); (0x1CD0, 0x1CFA);
   (0x1D00, 0x1F15); (0x1F18, 0x1F1D); (0x1F20, 0x1F45); (0x1F48, 0x1F4D);
   (0x1F50, 0x1F57); (0x1F59, 0x1F59); (0x1F5B, 0x1F5B); (0x1F5D, 0x1F5D);
   (0x1F5F, 0x1F7D); (0x1F80, 0x1FB4); (0x1FB6, 0x1FC4); (0x1FC6, 0x1FD3);
   (0x1FD6, 0x1FDB); (0x1FDD, 0x1FEF); (0x1FF2, 0x1FF4); (0x1FF6, 0x1FFE);
   (0x2010, 0x2027); (0x2030, 0x205E); (0x2070, 0x2071); (0x2074, 0x208E);
   (0x2090, 0x209C); (0x20A0, 0x20C0); (0x20D0, 0x20F0); (0x2100, 0x218B);
   (0x2190, 0x2426); (0x2440, 0x244A); (0x2460, 0x2B73); (0x2B76, 0x2B95);
   (0x2B97, 0x2CF3); (0x2CF9, 0x2D25); (0x2D27, 0x2D27); (0x2D2D, 0x2D2D);
   (0x2D30, 0x2D67); (0x2D6F, 0x2D70); (0x2D7F, 0x2D96); (0x2DA0, 0x2DA6);
   (0x2DA8, 0x2DAE); (0x2DB0, 0x2DB6); (0x2DB8, 0x2DBE); (0x2DC0, 0x2DC6);
   (0x2DC8, 0x2DCE); (0x2DD0, 0x2DD6); (0x2DD8, 0x2DDE); (0x2DE0, 0x2E5D);
   (0x2E80, 0x2E99); (0x2E9B, 0x2EF3); (0x2F00, 0x2FD5); (0x2FF0, 0x2FFB);
   (0x3001, 0x303F); (0x3041, 0x3096); (0x3099, 0x30FF); (0x3105, 0x312F);
   (0x3131, 0x318E); (0x3190, 0x31E3); (0x31F0, 0x321E); (0x3220, 0xA48C);
   (0xA490, 0xA4C6); (0xA4D0, 0xA62B); (0xA640, 0xA6F7); (0xA700, 0xA7CA);
   (0xA7D0, 0xA7D1); (0xA7D3, 0xA7D3); (0xA7D5, 0xA7D9); (0xA7F2, 0xA82C);
   (0xA830, 0xA839); (0xA840, 0xA877); (0xA880, 0xA8C5); (0xA8CE, 0xA8D9);
   (0xA8E0, 0xA953); (0xA95F, 0xA97C); (0xA980, 0xA9CD); (0xA9CF, 0xA9D9);
   (0xA9DE, 0xA9FE); (0xAA00, 0xAA36); (0xAA40, 0xAA4D); (0xAA50, 0xAA59);
   (0xAA5C, 0xAAC2); (0xAADB, 0xAAF6); (0xAB01, 0xAB06); (0xAB09, 0xAB0E);
   (0xAB11, 0xAB16); (0xAB20, 0xAB26); (0xAB28, 0xAB2E); (0xAB30, 0xAB6B);
   (0xAB70, 0xABED); (0xABF0, 0xABF9); (0xAC00, 0xD7A3); (0xD7B0, 0xD7C6);
   (0xD7CB, 0xD7FB); (0xF900, 0xFA6D); (0xFA70, 0xFAD9); (0xFB00, 0xFB06);
   (0xFB13, 0xFB17); (0xFB1D, 0xFB36); (0xFB38, 0xFB3C); (0xFB3E, 0xFB3E);
   (0xFB40, 0xFB41); (0xFB43, 0xFB44); (0xFB46, 0xFBC2); (0xFBD3, 0xFD8F);
   (0xFD92, 0xFDC7); (0xFDCF, 0xFDCF); (0xFDF0, 0xFE19); (0xFE20, 0xFE52);
   (0xFE54, 0xFE66); (0xFE68, 0xFE6B); (0xFE70, 0xFE74); (0xFE76, 0xFEFC);
   (0xFF01, 0xFFBE); (0xFFC2, 0xFFC7); (0xFFCA, 0xFFCF); (0xFFD2, 0xFFD7);
   (0xFFDA, 0xFFDC); (0xFFE0, 0xFFE6); (0xFFE8, 0xFFEE); (0xFFFC, 0xFFFD);
   (0x10000, 0x1000B); (0x1000D, 0x10026); (0x10028, 0x1003A);
   (0x1003C, 0x1003D); (0x1003F, 0x1004D); (0x10050, 0x1005D);
   (0x10080, 0x100FA); (0x10100, 0x10102); (0x10107, 0x10133);
   (0x10137, 0x1018E); (0x10190, 0x1019C); (0x101A0, 0x101A0);
   (0x101D0, 0x101FD); (0x10280, 0x1029C); (0x102A0, 0x102D0);
   (0x102E0, 0x102FB); (0x10300, 0x10323); (0x1032D, 0x1034A);
   (0x10350, 0x1037A); (0x10380, 0x1039D); (0x1039F, 0x103C3);
   (0x103C8, 0x103D5); (0x10400, 0x1049D); (0x104A0, 0x104A9);
   (0x104B0, 0x104D3); (0x104D8, 0x104FB); (0x10500, 0x10527);
   (0x10530, 0x10563); (0x1056F, 0x1057A); (0x1057C, 0x1058A);
   (0x1058C, 0x10592); (0x10594, 0x10595); (0x10597, 0x105A1);
   (0x105A3, 0x105B1); (0x105B3, 0x105B9); (0x105BB, 0x105BC);
   (0x10600, 0x10736); (0x10740, 0x10755); (0x10760, 0x10767);
   (0x10780, 0x10785); (0x10787, 0x107B0); (0x107B2, 0x107BA);
   (0x10800, 0x10805); (0x10808, 0x10808); (0x1080A, 0x10835);
   (0x10837, 0x10838); (0x1083C, 0x1083C); (0x1083F, 0x10855);
   (0x10857, 0x1089E); (0x108A7, 0x108AF); (0x108E0, 0x108F2);
   (0x108F4, 0x108F5); (0x108FB, 0x1091B); (0x1091F, 0x10939);
   (0x1093F, 0x1093F); (0x10980, 0x109B7); (0x109BC, 0x109CF);
   (0x109D2, 0x10A03); (0x10A05, 0x10A06); (0x10A0C, 0x10A13);
   (0x10A15, 0x10A17); (0x10A19, 0x10A35); (0x10A38, 0x10A3A);
   (0x10A3F, 0x10A48); (0x10A50, 0x10A58); (0x10A60, 0x10A9F);
   (0x10AC0, 0x10AE6); (0x10AEB, 0x10AF6); (0x10B00, 0x10B35);
   (0x10B39, 0x10B55); (0x10B58, 0x10B72); (0x10B78, 0x10B91);
   (0x10B99, 0x10B9C); (0x10BA9, 0x10BAF); (0x10C00, 0x10C48);
   (0x10C80, 0x10CB2); (0x10CC0, 0x10CF2); (0x10CFA, 0x10D27);
   (0x10D30, 0x10D39); (0x10E60, 0x10E7E); (0x10E80, 0x10EA9);
   (0x10EAB, 0x10EAD); (0x10EB0, 0x10EB1); (0x10F00, 0x10F27);
   (0x10F30, 0x10F59); (0x10F70, 0x10F89); (0x10FB0, 0x10FCB);
   (0x10FE0, 0x10FF6); (0x11000, 0x1104D); (0x11052, 0x11075);
   (0x1107F, 0x110BC); (0x110BE, 0x110C2); (0x110D0, 0x110E8);
   (0x110F0, 0x110F9); (0x11100, 0x11134); (0x11136, 0x11147);
   (0x11150, 0x11176); (0x11180, 0x111DF); (0x111E1, 0x111F4);
   (0x11200, 0x11211); (0x11213, 0x1123E); (0x11280, 0x11286);
   (0x11288, 0x11288); (0x1128A, 0x1128D); (0x1128F, 0x1129D);
   (0x1129F, 0x112A9); (0x112B0, 0x112EA); (0x112F0, 0x112F9);
   (0x11300, 0x11303); (0x11305, 0x1130C); (0x1130F, 0x11310);
   (0x11313, 0x11328); (0x1132A, 0x11330); (0x11332, 0x11333);
   (0x11335, 0x11339); (0x1133B, 0x11344); (0x11347, 0x11348);
   (0x1134B, 0x1134D); (0x11350, 0x11350); (0x11357, 0x11357);
   (0x1135D, 0x11363); (0x11366, 0x1136C); (0x11370, 0x11374);
   (0x11400, 0x1145B); (0x1145D, 0x11461); (0x11480, 0x114C7);
   (0x114D0, 0x114D9); (0x11580, 0x115B5); (0x115B8, 0x115DD);
   (0x11600, 0x11644); (0x11650, 0x11659); (0x11660, 0x1166C);
   (0x11680, 0x116B9); (0x116C0, 0x116C9); (0x11700, 0x1171A);
   (0x1171D, 0x1172B); (0x11730, 0x11746); (0x11800, 0x1183B);
   (0x118A0, 0x118F2); (0x118FF, 0x11906); (0x11909, 0x11909);
   (0x1190C, 0x11913); (0x11915, 0x11916); (0x11918, 0x11935);
   (0x11937, 0x11938); (0x1193B, 0x11946); (0x11950, 0x11959);
   (0x119A0, 0x119A7); (0x119AA, 0x119D7); (0x119DA, 0x119E4);
   (0x11A00, 0x11A47); (0x11A50, 0x11AA2); (0x11AB0, 0x11AF8);
   (0x11C00, 0x11C08); (0x11C0A, 0x11C36); (0x11C38, 0x11C45);
   (0x11C50, 0x11C6C); (0x11C70, 0x11C8F); (0x11C92, 0x11CA7);
   (0x11CA9, 0x11CB6); (0x11D00, 0x11D06); (0x11D08, 0x11D09);
   (0x11D0B, 0x11D36); (0x11D3A, 0x11D3A); (0x11D3C, 0x11D3D);
   (0x11D3F, 0x11D47); (0x11D50, 0x11D59); (0x11D60, 0x11D65);
   (0x11D67, 0x11D68); (0x11D6A, 0x11D8E); (0x11D90, 0x11D91);
   (0x11D93, 0x11D98); (0x11DA0, 0x11DA9); (0x11EE0, 0x11EF8);
   (0x11FB0, 0x11FB0); (0x11FC0, 0x11FF1); (0x11FFF, 0x12399);
   (0x12400, 0x1246E); (0x12470, 0x12474); (0x12480, 0x12543);
   (0x12F90, 0x12FF2); (0x13000, 0x1342E); (0x14400, 0x14646);
   (0x16800, 0x16A38); (0x16A40, 0x16A5E); (0x16A60, 0x16A69);
   (0x16A6E, 0x16ABE); (0x16AC0, 0x16AC9); (0x16AD0, 0x16AED);
   (0x16AF0, 0x16AF5); (0x16B00, 0x16B45); (0x16B50, 0x16B59);
   (0x16B5B, 0x16B61); (0x16B63, 0x16B77); (0x16B7D, 0x16B8F);
   (0x16E40, 0x16E9A); (0x16F00, 0x16F4A); (0x16F4F, 0x16F87);
   (0x16F8F, 0x16F9F); (0x16FE0, 0x16FE4); (0x16FF0, 0x16FF1);
   (0x17000, 0x187F7); (0x18800, 0x18CD5); (0x18D00, 0x18D08);
   (0x1AFF0, 0x1AFF3); (0x1AFF5, 0x1AFFB); (0x1AFFD, 0x1AFFE);
   (0x1B000, 0x1B122); (0x1B150, 0x1B152); (0x1B164, 0x1B167);
   (0x1B170, 0x1B2FB); (0x1BC00, 0x1BC6A); (0x1BC70, 0x1BC7C);
   (0x1BC80, 0x1BC88); (0x1BC90, 0x1BC99); (0x1BC9C, 0x1BC9F);
   (0x1CF00, 0x1CF2D); (0x1CF30, 0x1CF46); (0x1CF50, 0x1CFC3);
   (0x1D000, 0x1D0F5); (0x1D100, 0x1D126); (0x1D129, 0x1D172);
   (0x1D17B, 0x1D1EA); (0x1D200, 0x1D245); (0x1D2E0, 0x1D2F3);
   (0x1D300, 0x1D356); (0x1D360, 0x1D378); (0x1D400, 0x1D454);
   (0x1D456, 0x1D49C); (0x1D49E, 0x1D49F); (0x1D4A2, 0x1D4A2);
   (0x1D4A5, 0x1D4A6); (0x1D4A9, 0x1D4AC); (0x1D4AE, 0x1D4B9);
   (0x1D4BB, 0x1D4BB); (0x1D4BD, 0x1D4C3); (0x1D4C5, 0x1D505);
   (0x1D507, 0x1D50A); (0x1D50D, 0x1D514); (0x1D516, 0x1D51C);
   (0x1D51E, 0x1D539); (0x1D53B, 0x1D53E); (0x1D540, 0x1D544);
   (0x1D546, 0x1D546); (0x1D54A, 0x1D550); (0x1D552, 0x1D6A5);
   (0x1D6A8, 0x1D7CB); (0x1D7CE, 0x1DA8B); (0x1DA9B, 0x1DA9F);
   (0x1DAA1, 0x1DAAF); (0x1DF00, 0x1DF1E); (0x1E000, 0x1E006);
   (0x1E008, 0x1E018); (0x1E01B, 0x1E021); (0x1E023, 0x1E024);
   (0x1E026, 0x1E02A); (0x1E100, 0x1E12C); (0x1E130, 0x1E13D);
   (0x1E140, 0x1E149); (0x1E14E, 0x1E14F); (0x1E290, 0x1E2AE);
   (0x1E2C0, 0x1E2F9); (0x1E2FF, 0x1E2FF); (0x1E7E0, 0x1E7E6);
   (0x1E7E8, 0x1E7EB); (0x1E7ED, 0x1E7EE); (0x1E7F0, 0x1E7FE);
   (0x1E800, 0x1E8C4); (0x1E8C7, 0x1E8D6); (0x1E900, 0x1E94B);
   (0x1E950, 0x1E959); (0x1E95E, 0x1E95F); (0x1EC71, 0x1ECB4);
   (0x1ED01, 0x1ED3D); (0x1EE00, 0x1EE03); (0x1EE05, 0x1EE1F);
   (0x1EE21, 0x1EE22); (0x1EE24, 0x1EE24); (0x1EE27, 0x1EE27);
   (0x1EE29, 0x1EE32); (0x1EE34, 0x1EE37); (0x1EE39, 0x1EE39);
   (0x1EE3B, 0x1EE3B); (0x1EE42, 0x1EE42); (0x1EE47, 0x1EE47);
   (0x1EE49, 0x1EE49); (0x1EE4B, 0x1EE4B); (0x1EE4D, 0x1EE4F);
   (0x1EE51, 0x1EE52); (0x1EE54, 0x1EE54); (0x1EE57, 0x1EE57);
   (0x1EE59, 0x1EE59); (0x1EE5B, 0x1EE5B); (0x1EE5D, 0x1EE5D);
   (0x1EE5F, 0x1EE5F); (0x1EE61, 0x1EE62); (0x1EE64, 0x1EE64);
   (0x1EE67, 0x1EE6A); (0x1EE6C, 0x1EE72); (0x1EE74, 0x1EE77);
   (0x1EE79, 0x1EE7C); (0x1EE7E, 0x1EE7E); (0x1EE80, 0x1EE89);
   (0x1EE8B, 0x1EE9B); (0x1EEA1, 0x1EEA3); (0x1EEA5, 0x1EEA9);
   (0x1EEAB, 0x1EEBB); (0x1EEF0, 0x1EEF1); (0x1F000, 0x1F02B);
   (0x1F030, 0x1F093); (0x1F0A0, 0x1F0AE); (0x1F0B1, 0x1F0BF);
   (0x1F0C1, 0x1F0CF); (0x1F0D1, 0x1F0F5); (0x1F100, 0x1F1AD);
   (0x1F1E6, 0x1F202); (0x1F210, 0x1F23B); (0x1F240, 0x1F248);
   (0x1F250, 0x1F251); (0x1F260, 0x1F265); (0x1F300, 0x1F6D7);
   (0x1F6DD, 0x1F6EC); (0x1F6F0, 0x1F6FC); (0x1F700, 0x1F773);
   (0x1F780, 0x1F7D8); (0x1F7E0, 0x1F7EB); (0x1F7F0, 0x1F7F0);
   (0x1F800, 0x1F80B); (0x1F810, 0x1F847); (0x1F850, 0x1F859);
   (0x1F860, 0x1F887); (0x1F890, 0x1F8AD); (0x1F8B0, 0x1F8B1);
   (0x1F900, 0x1FA53); (0x1FA60, 0x1FA6D); (0x1FA70, 0x1FA74);
   (0x1FA78, 0x1FA7C); (0x1FA80, 0x1FA86); (0x1FA90, 0x1FAAC);
   (0x1FAB0, 0x1FABA); (0x1FAC0, 0x1FAC5); (0x1FAD0, 0x1FAD9);
   (0x1FAE0, 0x1FAE7); (0x1FAF0, 0x1FAF6); (0x1FB00, 0x1FB92);
   (0x1FB94, 0x1FBCA); (0x1FBF0, 0x1FBF9); (0x20000, 0x2A6DF);
   (0x2A700, 0x2B738); (0x2B740, 0x2B81D); (0x2B820, 0x2CEA1);
   (0x2CEB0, 0x2EBE0); (0x2F800, 0x2FA1D); (0x30000, 0x3134A);
   (0xE0100, 0xE01EF)].

(** [str.isprintable] on one character. *)
Definition isprintable (c : Z) : bool := in_ranges c printable_ranges.

(** The code points the class [\w] matches in a [str] pattern, over the
    same code space. *)
Definition word_ranges : list (Z * Z) :=
  [(0x30, 0x39); (0x41, 0x5A); (0x5F, 0x5F); (0x61, 0x7A); (0xAA, 0xAA);
   (0xB2, 0xB3); (0xB5, 0xB5); (0xB9, 0xBA); (0xBC, 0xBE); (0xC0, 0xD6);
   (0xD8, 0xF6); (0xF8, 0x2C1); (0x2C6, 0x2D1); (0x2E0, 0x2E4);
   (0x2EC, 0x2EC); (0x2EE, 0x2EE); (0x370, 0x374); (0x376, 0x377);
   (0x37A, 0x37D); (0x37F, 0x37F); (0x386, 0x386); (0x388, 0x38A);
   (0x38C, 0x38C); (0x38E, 0x3A1); (0x3A3, 0x3F5); (0x3F7, 0x481);
   (0x48A, 0x52F); (0x531, 0x556); (0x559, 0x559); (0x560, 0x588);
   (0x5D0, 0x5EA); (0x5EF, 0x5F2); (0x620, 0x64A); (0x660, 0x669);
   (0x66E, 0x66F); (0x671, 0x6D3); (0x6D5, 0x6D5); (0x6E5, 0x6E6);
   (0x6EE, 0x6FC); (0x6FF, 0x6FF); (0x710, 0x710); (0x712, 0x72F);
   (0x74D, 0x7A5); (0x7B1, 0x7B1); (0x7C0, 0x7EA); (0x7F4, 0x7F5);
   (0x7FA, 0x7FA); (0x800, 0x815); (0x81A, 0x81A); (0x824, 0x824);
   (0x828, 0x828); (0x840, 0x858); (0x860, 0x86A); (0x870, 0x887);
   (0x889, 0x88E); (0x8A0, 0x8C9); (0x904, 0x939); (0x93D, 0x93D);
   (0x950, 0x950); (0x958, 0x961); (0x966, 0x96F); (0x971, 0x980);
   (0x985, 0x98C); (0x98F, 0x990); (0x993, 0x9A8); (0x9AA, 0x9B0);
   (0x9B2, 0x9B2); (0x9B6, 0x9B9); (0x9BD, 0x9BD); (0x9CE, 0x9CE);
   (0x9DC, 0x9DD); (0x9DF, 0x9E1); (0x9E6, 0x9F1); (0x9F4, 0x9F9);
   (0x9FC, 0x9FC); (0xA05, 0xA0A); (0xA0F, 0xA10); (0xA13, 0xA28);
   (0xA2A, 0xA30); (0xA32, 0xA33); (0xA35, 0xA36); (0xA38, 0xA39);
   (0xA59, 0xA5C); (0xA5E, 0xA5E); (0xA66, 0xA6F); (0xA72, 0xA74);
   (0xA85, 0xA8D); (0xA8F, 0xA91); (0xA93, 0xAA8); (0xAAA, 0xAB0);
   (0xAB2, 0xAB3); (0xAB5, 0xAB9); (0xABD, 0xABD); (0xAD0, 0xAD0);
   (0xAE0, 0xAE1); (0xAE6, 0xAEF); (0xAF9, 0xAF9); (0xB05, 0xB0C);
   (0xB0F, 0xB10); (0xB13, 0xB28); (0xB2A, 0xB30); (0xB32, 0xB33);
   (0xB35, 0xB39); (0xB3D, 0xB3D); (0xB5C, 0xB5D); (0xB5F, 0xB61);
   (0xB66, 0xB6F); (0xB71, 0xB77); (0xB83, 0xB83); (0xB85, 0xB8A);
   (0xB8E, 0xB90); (0xB92, 0xB95); (0xB99, 0xB9A); (0xB9C, 0xB9C);
   (0xB9E, 0xB9F); (0xBA3, 0xBA4); (0xBA8, 0xBAA); (0xBAE, 0xBB9);
   (0xBD0, 0xBD0); (0xBE6, 0xBF2); (0xC05, 0xC0C); (0xC0E, 0xC10);
   (0xC12, 0xC28); (0xC2A, 0xC39); (0xC3D, 0xC3D); (0xC58, 0xC5A);
   (0xC5D, 0xC5D); (0xC60, 0xC61); (0xC66, 0xC6F); (0xC78, 0xC7E);
   (0xC80, 0xC80); (0xC85, 0xC8C); (0xC8E, 0xC90); (0xC92, 0xCA8);
   (0xCAA, 0xCB3); (0xCB5, 0xCB9); (0xCBD, 0xCBD); (0xCDD, 0xCDE);
   (0xCE0, 0xCE1); (0xCE6, 0xCEF); (0xCF1, 0xCF2); (0xD04, 0xD0C);
   (0xD0E, 0xD10); (0xD12, 0xD3A); (0xD3D, 0xD3D); (0xD4E, 0xD4E);
   (0xD54, 0xD56); (0xD58, 0xD61); (0xD66, 0xD78); (0xD7A, 0xD7F);
   (0xD85, 0xD96); (0xD9A, 0xDB1); (0xDB3, 0xDBB); (0xDBD, 0xDBD);
   (0xDC0, 0xDC6); (0xDE6, 0xDEF); (0xE01, 0xE30); (0xE32, 0xE33);
   (0xE40, 0xE46); (0xE50, 0xE59); (0xE81, 0xE82); (0xE84, 0xE84);
   (0xE86, 0xE8A); (0xE8C, 0xEA3); (0xEA5, 0xEA5); (0xEA7, 0xEB0);
   (0xEB2, 0xEB3); (0xEBD, 0xEBD); (0xEC0, 0xEC4); (0xEC6, 0xEC6);
   (0xED0, 0xED9); (0xEDC, 0xEDF); (0xF00, 0xF00); (0xF20, 0xF33);
   (0xF40, 0xF47); (0xF49, 0xF6C); (0xF88, 0xF8C); (0x1000, 0x102A);
   (0x103F, 0x1049); (0x1050, 0x1055); (0x105A, 0x105D); (0x1061, 0x1061);
   (0x1065, 0x1066); (0x106E, 0x1070); (0x1075, 0x1081); (0x108E, 0x108E);
   (0x1090, 0x1099); (0x10A0, 0x10C5); (0x10C7, 0x10C7); (0x10CD, 0x10CD);
   (0x10D0, 0x10FA); (0x10FC, 0x1248); (0x124A, 0x124D); (0x1250, 0x1256);
   (0x1258, 0x1258); (0x125A, 0x125D); (0x1260, 0x1288); (0x128A, 0x128D);
   (0x1290, 0x12B0); (0x12B2, 0x12B5); (0x12B8, 0x12BE); (0x12C0, 0x12C0);
   (0x12C2, 0x12C5); (0x12C8, 0x12D6); (0x12D8, 0x1310); (0x1312, 0x1315);
   (0x1318, 0x135A); (0x1369, 0x137C); (0x1380, 0x138F); (0x13A0, 0x13F5);
   (0x13F8, 0x13FD); (0x1401, 0x166C); (0x166F, 0x167F); (0x1681, 0x169A);
   (0x16A0, 0x16EA); (0x16EE, 0x16F8); (0x1700, 0x1711); (0x171F, 0x1731);
   (0x1740, 0x1751); (0x1760, 0x176C); (0x176E, 0x1770); (0x1780, 0x17B3);
   (0x17D7, 0x17D7); (0x17DC, 0x17DC); (0x17E0, 0x17E9); (0x17F0, 0x17F9);
   (0x1810, 0x1819); (0x1820, 0x1878); (0x1880, 0x1884); (0x1887, 0x18A8);
   (0x18AA, 0x18AA); (0x18B0, 0x18F5); (0x1900, 0x191E); (0x1946, 0x196D);
   (0x1970, 0x1974); (0x1980, 0x19AB); (0x19B0, 0x19C9); (0x19D0, 0x19DA);
   (0x1A00, 0x1A16); (0x1A20, 0x1A54); (0x1A80, 0x1A89); (0x1A90, 0x1A99);
   (0x1AA7, 0x1AA7); (0x1B05, 0x1B33); (0x1B45, 0x1B4C); (0x1B50, 0x1B59);
   (0x1B83, 0x1BA0); (0x1BAE, 0x1BE5); (0x1C00, 0x1C23); (0x1C40, 0x1C49);
   (0x1C4D, 0x1C7D); (0x1C80, 0x1C88); (0x1C90, 0x1CBA); (0x1CBD, 0x1CBF);
   (0x1CE9, 0x1CEC); (0x1CEE, 0x1CF3); (0x1CF5, 0x1CF6); (0x1CFA, 0x1CFA);
   (0x1D00, 0x1DBF); (0x1E00, 0x1F15); (0x1F18, 0x1F1D); (0x1F20, 0x1F45);
   (0x1F48, 0x1F4D); (0x1F50, 0x1F57); (0x1F59, 0x1F59); (0x1F5B, 0x1F5B);
   (0x1F5D, 0x1F5D); (0x1F5F, 0x1F7D); (0x1F80, 0x1FB4); (0x1FB6, 0x1FBC);
   (0x1FBE, 0x1FBE); (0x1FC2, 0x1FC4); (0x1FC6, 0x1FCC); (0x1FD0, 0x1FD3);
   (0x1FD6, 0x1FDB); (0x1FE0, 0x1FEC); (0x1FF2, 0x1FF4); (0x1FF6, 0x1FFC);
   (0x2070, 0x2071); (0x2074, 0x2079); (0x207F, 0x2089); (0x2090, 0x209C);
   (0x2102, 0x2102); (0x2107, 0x2107); (0x210A, 0x2113); (0x2115, 0x2115);
   (0x2119, 0x211D); (0x2124, 0x2124); (0x2126, 0x2126); (0x2128, 0x2128);
   (0x212A, 0x212D); (0x212F, 0x2139); (0x213C, 0x213F); (0x2145, 0x2149);
   (0x214E, 0x214E); (0x2150, 0x2189); (0x2460, 0x249B); (0x24EA, 0x24FF);
   (0x2776, 0x2793); (0x2C00, 0x2CE4); (0x2CEB, 0x2CEE); (0x2CF2, 0x2CF3);
   (0x2CFD, 0x2CFD); (0x2D00, 0x2D25); (0x2D27, 0x2D27); (0x2D2D, 0x2D2D);
   (0x2D30, 0x2D67); (0x2D6F, 0x2D6F); (0x2D80, 0x2D96); (0x2DA0, 0x2DA6);
   (0x2DA8, 0x2DAE); (0x2DB0, 0x2DB6); (0x2DB8, 0x2DBE); (0x2DC0, 0x2DC6);
   (0x2DC8, 0x2DCE); (0x2DD0, 0x2DD6); (0x2DD8, 0x2DDE); (0x2E2F, 0x2E2F);
   (0x3005, 0x3007); (0x3021, 0x3029); (0x3031, 0x3035); (0x3038, 0x303C);
   (0x3041, 0x3096); (0x309D, 0x309F); (0x30A1, 0x30FA); (0x30FC, 0x30FF);
   (0x3105, 0x312F); (0x3131, 0x318E); (0x3192, 0x3195); (0x31A0, 0x31BF);
   (0x31F0, 0x31FF); (0x3220, 0x3229); (0x3248, 0x324F); (0x3251, 0x325F);
   (0x3280, 0x3289); (0x32B1, 0x32BF); (0x3400, 0x4DBF); (0x4E00, 0xA48C);
   (0xA4D0, 0xA4FD); (0xA500, 0xA60C); (0xA610, 0xA62B); (0xA640, 0xA66E);
   (0xA67F, 0xA69D); (0xA6A0, 0xA6EF); (0xA717, 0xA71F); (0xA722, 0xA788);
   (0xA78B, 0xA7CA); (0xA7D0, 0xA7D1); (0xA7D3, 0xA7D3); (0xA7D5, 0xA7D9);
   (0xA7F2, 0xA801); (0xA803, 0xA805); (0xA807, 0xA80A); (0xA80C, 0xA822);
   (0xA830, 0xA835); (0xA840, 0xA873); (0xA882, 0xA8B3); (0xA8D0, 0xA8D9);
   (0xA8F2, 0xA8F7); (0xA8FB, 0xA8FB); (0xA8FD, 0xA8FE); (0xA900, 0xA925);
   (0xA930, 0xA946); (0xA960, 0xA97C); (0xA984, 0xA9B2); (0xA9CF, 0xA9D9);
   (0xA9E0, 0xA9E4); (0xA9E6, 0xA9FE); (0xAA00, 0xAA28); (0xAA40, 0xAA42);
   (0xAA44, 0xAA4B); (0xAA50, 0xAA59); (0xAA60, 0xAA76); (0xAA7A, 0xAA7A);
   (0xAA7E, 0xAAAF); (0xAAB1, 0xAAB1); (0xAAB5, 0xAAB6); (0xAAB9, 0xAABD);
   (0xAAC0, 0xAAC0); (0xAAC2, 0xAAC2); (0xAADB, 0xAADD); (0xAAE0, 0xAAEA);
   (0xAAF2, 0xAAF4); (0xAB01, 0xAB06); (0xAB09, 0xAB0E); (0xAB11, 0xAB16);
   (0xAB20, 0xAB26); (0xAB28, 0xAB2E); (0xAB30, 0xAB5A); (0xAB5C, 0xAB69);
   (0xAB70, 0xABE2); (0xABF0, 0xABF9); (0xAC00, 0xD7A3); (0xD7B0, 0xD7C6);
   (0xD7CB, 0xD7FB); (0xF900, 0xFA6D); (0xFA70, 0xFAD9); (0xFB00, 0xFB06);
   (0xFB13, 0xFB17); (0xFB1D, 0xFB1D); (0xFB1F, 0xFB28); (0xFB2A, 0xFB36);
   (0xFB38, 0xFB3C); (0xFB3E, 0xFB3E); (0xFB40, 0xFB41); (0xFB43, 0xFB44);
   (0xFB46, 0xFBB1); (0xFBD3, 0xFD3D); (0xFD50, 0xFD8F); (0xFD92, 0xFDC7);
   (0xFDF0, 0xFDFB); (0xFE70, 0xFE74); (0xFE76, 0xFEFC); (0xFF10, 0xFF19);
   (0xFF21, 0xFF3A); (0xFF41, 0xFF5A); (0xFF66, 0xFFBE); (0xFFC2, 0xFFC7);
   (0xFFCA, 0xFFCF); (0xFFD2, 0xFFD7); (0xFFDA, 0xFFDC); (0x10000, 0x1000B);
   (0x1000D, 0x10026); (0x10028, 0x1003A); (0x1003C, 0x1003D);
   (0x1003F, 0x1004D); (0x10050, 0x1005D); (0x10080, 0x100FA);
   (0x10107, 0x10133); (0x10140, 0x10178); (0x1018A, 0x1018B);
   (0x10280, 0x1029C); (0x102A0, 0x102D0); (0x102E1, 0x102FB);
   (0x10300, 0x10323); (0x1032D, 0x1034A); (0x10350, 0x10375);
   (0x10380, 0x1039D); (0x103A0, 0x103C3); (0x103C8, 0x103CF);
   (0x103D1, 0x103D5); (0x10400, 0x1049D); (0x104A0, 0x104A9);
   (0x104B0, 0x104D3); (0x104D8, 0x104FB); (0x10500, 0x10527);
   (0x10530, 0x10563); (0x10570, 0x1057A); (0x1057C, 0x1058A);
   (0x1058C, 0x10592); (0x10594, 0x10595); (0x10597, 0x105A1);
   (0x105A3, 0x105B1); (0x105B3, 0x105B9); (0x105BB, 0x105BC);
   (0x10600, 0x10736); (0x10740, 0x10755); (0x10760, 0x10767);
   (0x10780, 0x10785); (0x10787, 0x107B0); (0x107B2, 0x107BA);
   (0x10800, 0x10805); (0x10808, 0x10808); (0x1080A, 0x10835);
   (0x10837, 0x10838); (0x1083C, 0x1083C); (0x1083F, 0x10855);
   (0x10858, 0x10876); (0x10879, 0x1089E); (0x108A7, 0x108AF);
   (0x108E0, 0x108F2); (0x108F4, 0x108F5); (0x108FB, 0x1091B);
   (0x10920, 0x10939); (0x10980, 0x109B7); (0x109BC, 0x109CF);
   (0x109D2, 0x10A00); (0x10A10, 0x10A13); (0x10A15, 0x10A17);
   (0x10A19, 0x10A35); (0x10A40, 0x10A48); (0x10A60, 0x10A7E);
   (0x10A80, 0x10A9F); (0x10AC0, 0x10AC7); (0x10AC9, 0x10AE4);
   (0x10AEB, 0x10AEF); (0x10B00, 0x10B35); (0x10B40, 0x10B55);
   (0x10B58, 0x10B72); (0x10B78, 0x10B91); (0x10BA9, 0x10BAF);
   (0x10C00, 0x10C48); (0x10C80, 0x10CB2); (0x10CC0, 0x10CF2);
   (0x10CFA, 0x10D23); (0x10D30, 0x10D39); (0x10E60, 0x10E7E);
   (0x10E80, 0x10EA9); (0x10EB0, 0x10EB1); (0x10F00, 0x10F27);
   (0x10F30, 0x10F45); (0x10F51, 0x10F54); (0x10F70, 0x10F81);
   (0x10FB0, 0x10FCB); (0x10FE0, 0x10FF6); (0x11003, 0x11037);
   (0x11052, 0x1106F); (0x11071, 0x11072); (0x11075, 0x11075);
   (0x11083, 0x110AF); (0x110D0, 0x110E8); (0x110F0, 0x110F9);
   (0x11103, 0x11126); (0x11136, 0x1113F); (0x11144, 0x11144);
   (0x11147, 0x11147); (0x11150, 0x11172); (0x11176, 0x11176);
   (0x11183, 0x111B2); (0x111C1, 0x111C4); (0x111D0, 0x111DA);
   (0x111DC, 0x111DC); (0x111E1, 0x111F4); (0x11200, 0x11211);
   (0x11213, 0x1122B); (0x11280, 0x11286); (0x11288, 0x11288);
   (0x1128A, 0x1128D); (0x1128F, 0x1129D); (0x1129F, 0x112A8);
   (0x112B0, 0x112DE); (0x112F0, 0x112F9); (0x11305, 0x1130C);
   (0x1130F, 0x11310); (0x11313, 0x11328); (0x1132A, 0x11330);
   (0x11332, 0x11333); (0x11335, 0x11339); (0x1133D, 0x1133D);
   (0x11350, 0x11350); (0x1135D, 0x11361); (0x11400, 0x11434);
   (0x11447, 0x1144A); (0x11450, 0x11459); (0x1145F, 0x11461);
   (0x11480, 0x114AF); (0x114C4, 0x114C5); (0x114C7, 0x114C7);
   (0x114D0, 0x114D9); (0x11580, 0x115AE); (0x115D8, 0x115DB);
   (0x11600, 0x1162F); (0x11644, 0x11644); (0x11650, 0x11659);
   (0x11680, 0x116AA); (0x116B8, 0x116B8); (0x116C0, 0x116C9);
   (0x11700, 0x1171A); (0x11730, 0x1173B); (0x11740, 0x11746);
   (0x11800, 0x1182B); (0x118A0, 0x118F2); (0x118FF, 0x11906);
   (0x11909, 0x11909); (0x1190C, 0x11913); (0x11915, 0x11916);
   (0x11918, 0x1192F); (0x1193F, 0x1193F); (0x11941, 0x11941);
   (0x11950, 0x11959); (0x119A0, 0x119A7); (0x119AA, 0x119D0);
   (0x119E1, 0x119E1); (0x119E3, 0x119E3); (0x11A00, 0x11A00);
   (0x11A0B, 0x11A32); (0x11A3A, 0x11A3A); (0x11A50, 0x11A50);
   (0x11A5C, 0x11A89); (0x11A9D, 0x11A9D); (0x11AB0, 0x11AF8);
   (0x11C00, 0x11C08); (0x11C0A, 0x11C2E); (0x11C40, 0x11C40);
   (0x11C50, 0x11C6C); (0x11C72, 0x11C8F); (0x11D00, 0x11D06);
   (0x11D08, 0x11D09); (0x11D0B, 0x11D30); (0x11D46, 0x11D46);
   (0x11D50, 0x11D59); (0x11D60, 0x11D65); (0x11D67, 0x11D68);
   (0x11D6A, 0x11D89); (0x11D98, 0x11D98); (0x11DA0, 0x11DA9);
   (0x11EE0, 0x11EF2); (0x11FB0, 0x11FB0); (0x11FC0, 0x11FD4);
   (0x12000, 0x12399); (0x12400, 0x1246E); (0x12480, 0x12543);
   (0x12F90, 0x12FF0); (0x13000, 0x1342E); (0x14400, 0x14646);
   (0x16800, 0x16A38); (0x16A40, 0x16A5E); (0x16A60, 0x16A69);
   (0x16A70, 0x16ABE); (0x16AC0, 0x16AC9); (0x16AD0, 0x16AED);
   (0x16B00, 0x16B2F); (0x16B40, 0x16B43); (0x16B50, 0x16B59);
   (0x16B5B, 0x16B61); (0x16B63, 0x16B77); (0x16B7D, 0x16B8F);
   (0x16E40, 0x16E96); (0x16F00, 0x16F4A); (0x16F50, 0x16F50);
   (0x16F93, 0x16F9F); (0x16FE0, 0x16FE1); (0x16FE3, 0x16FE3);
   (0x17000, 0x187F7); (0x18800, 0x18CD5); (0x18D00, 0x18D08);
   (0x1AFF0, 0x1AFF3); (0x1AFF5, 0x1AFFB); (0x1AFFD, 0x1AFFE);
   (0x1B000, 0x1B122); (0x1B150, 0x1B152); (0x1B164, 0x1B167);
   (0x1B170, 0x1B2FB); (0x1BC00, 0x1BC6A); (0x1BC70, 0x1BC7C);
   (0x1BC80, 0x1BC88); (0x1BC90, 0x1BC99); (0x1D2E0, 0x1D2F3);
   (0x1D360, 0x1D378); (0x1D400, 0x1D454); (0x1D456, 0x1D49C);
   (0x1D49E, 0x1D49F); (0x1D4A2, 0x1D4A2); (0x1D4A5, 0x1D4A6);
   (0x1D4A9, 0x1D4AC); (0x1D4AE, 0x1D4B9); (0x1D4BB, 0x1D4BB);
   (0x1D4BD, 0x1D4C3); (0x1D4C5, 0x1D505); (0x1D507, 0x1D50A);
   (0x1D50D, 0x1D514); (0x1D516, 0x1D51C); (0x1D51E, 0x1D539);
   (0x1D53B, 0x1D53E); (0x1D540, 0x1D544); (0x1D546, 0x1D546);
   (0x1D54A, 0x1D550); (0x1D552, 0x1D6A5); (0x1D6A8, 0x1D6C0);
   (0x1D6C2, 0x1D6DA); (0x1D6DC, 0x1D6FA); (0x1D6FC, 0x1D714);
   (0x1D716, 0x1D734); (0x1D736, 0x1D74E); (0x1D750, 0x1D76E);
   (0x1D770, 0x1D788); (0x1D78A, 0x1D7A8); (0x1D7AA, 0x1D7C2);
   (0x1D7C4, 0x1D7CB); (0x1D7CE, 0x1D7FF); (0x1DF00, 0x1DF1E);
   (0x1E100, 0x1E12C); (0x1E137, 0x1E13D); (0x1E140, 0x1E149);
   (0x1E14E, 0x1E14E); (0x1E290, 0x1E2AD); (0x1E2C0, 0x1E2EB);
   (0x1E2F0, 0x1E2F9); (0x1E7E0, 0x1E7E6); (0x1E7E8, 0x1E7EB);
   (0x1E7ED, 0x1E7EE); (0x1E7F0, 0x1E7FE); (0x1E800, 0x1E8C4);
   (0x1E8C7, 0x1E8CF); (0x1E900, 0x1E943); (0x1E94B, 0x1E94B);
   (0x1E950, 0x1E959); (0x1EC71, 0x1ECAB); (0x1ECAD, 0x1ECAF);
   (0x1ECB1, 0x1ECB4); (0x1ED01, 0x1ED2D); (0x1ED2F, 0x1ED3D);
   (0x1EE00, 0x1EE03); (0x1EE05, 0x1EE1F); (0x1EE21, 0x1EE22);
   (0x1EE24, 0x1EE24); (0x1EE27, 0x1EE27); (0x1EE29, 0x1EE32);
   (0x1EE34, 0x1EE37); (0x1EE39, 0x1EE39); (0x1EE3B, 0x1EE3B);
   (0x1EE42, 0x1EE42); (0x1EE47, 0x1EE47); (0x1EE49, 0x1EE49);
   (0x1EE4B, 0x1EE4B); (0x1EE4D, 0x1EE4F); (0x1EE51, 0x1EE52);
   (0x1EE54, 0x1EE54); (0x1EE57, 0x1EE57); (0x1EE59, 0x1EE59);
   (0x1EE5B, 0x1EE5B); (0x1EE5D, 0x1EE5D); (0x1EE5F, 0x1EE5F);
   (0x1EE61, 0x1EE62); (0x1EE64, 0x1EE64); (0x1EE67, 0x1EE6A);
   (0x1EE6C, 0x1EE72); (0x1EE74, 0x1EE77); (0x1EE79, 0x1EE7C);
   (0x1EE7E, 0x1EE7E); (0x1EE80, 0x1EE89); (0x1EE8B, 0x1EE9B);
   (0x1EEA1, 0x1EEA3); (0x1EEA5, 0x1EEA9); (0x1EEAB, 0x1EEBB);
   (0x1F100, 0x1F10C); (0x1FBF0, 0x1FBF9); (0x20000, 0x2A6DF);
   (0x2A700, 0x2B738); (0x2B740, 0x2B81D); (0x2B820, 0x2CEA1);
   (0x2CEB0, 0x2EBE0); (0x2F800, 0x2FA1D); (0x30000, 0x3134A)].

Definition isword (c : Z) : bool := in_ranges c word_ranges.

(** [chardet.detect] on plain ASCII: no input gives no guess; bytes below
    0x80 with no NUL, no escape character and no [~{] sequence are reported
    as ASCII with confidence 1.0. On any other input this instance makes no
    guess, where the detector would weigh its probers. *)
Definition plain_ascii (text : bytes) : bool :=
  forallb (fun b => (0 <? b) && (b <? 0x80) && negb (b =? 0x1B)) text
  && negb (str_in (lit "~{") text).

Definition chardet_detect (text : bytes) : detection :=
  match text with
  | [] => {| encoding := None; confidence := 0 |}
  | _ :: _ =>
      if plain_ascii text
      then {| encoding := Some "ascii"%string; confidence := 1 |}
      else {| encoding := None; confidence := 0 |}
  end.

(** Bytes 0x80-0x9F in code page 1252, [-1] where it defines nothing. *)
Definition cp1252_high : list Z :=
  [0x20AC; -1; 0x201A; 0x192; 0x201E; 0x2026; 0x2020; 0x2021; 0x2C6; 0x2030;
   0x160; 0x2039; 0x152; -1; 0x17D; -1; -1; 0x2018; 0x2019; 0x201C; 0x201D;
   0x2022; 0x2013; 0x2014; 0x2DC; 0x2122; 0x161; 0x203A; 0x153; -1; 0x17E;
   0x178].

(** Bytes 0x80-0xFF in Mac OS Roman. *)
Definition mac_roman_high : list Z :=
  [0xC4; 0xC5; 0xC7; 0xC9; 0xD1; 0xD6; 0xDC; 0xE1; 0xE0; 0xE2; 0xE4; 0xE3;
   0xE5; 0xE7; 0xE9; 0xE8; 0xEA; 0xEB; 0xED; 0xEC; 0xEE; 0xEF; 0xF1; 0xF3;
   0xF2; 0xF4; 0xF6; 0xF5; 0xFA; 0xF9; 0xFB; 0xFC; 0x2020; 0xB0; 0xA2; 0xA3;
   0xA7; 0x2022; 0xB6; 0xDF; 0xAE; 0xA9; 0x2122; 0xB4; 0xA8; 0x2260; 0xC6;
   0xD8; 0x221E; 0xB1; 0x2264; 0x2265; 0xA5; 0xB5; 0x2202; 0x2211; 0x220F;
   0x3C0; 0x222B; 0xAA; 0xBA; 0x3A9; 0xE6; 0xF8; 0xBF; 0xA1; 0xAC; 0x221A;
   0x192; 0x2248; 0x2206; 0xAB; 0xBB; 0x2026; 0xA0; 0xC0; 0xC3; 0xD5; 0x152;
   0x153; 0x2013; 0x2014; 0x201C; 0x201D; 0x2018; 0x2019; 0xF7; 0x25CA; 0xFF;
   0x178; 0x2044; 0x20AC; 0x2039; 0x203A; 0xFB01; 0xFB02; 0x2021; 0xB7;
   0x201A; 0x201E; 0x2030; 0xC2; 0xCA; 0xC1; 0xCB; 0xC8; 0xCD; 0xCE; 0xCF;
   0xCC; 0xD3; 0xD4; 0xF8FF; 0xD2; 0xDA; 0xDB; 0xD9; 0x131; 0x2C6; 0x2DC;
   0xAF; 0x2D8; 0x2D9; 0x2DA; 0xB8; 0x2DD; 0x2DB; 0x2C7].

(** The bytes ISO 8859-15 reads differently from ISO 8859-1. *)
Definition iso8859_15_changes : list (Z * Z) :=
  [(0xA4, 0x20AC); (0xA6, 0x160); (0xA8, 0x161); (0xB4, 0x17D);
   (0xB8, 0x17E); (0xBC, 0x152); (0xBD, 0x153); (0xBE, 0x178)].

(** A single-byte codec given by its table: [None] for a byte the code
    page leaves undefined. *)
Definition cp1252_char (b : Z) : option Z :=
  if (0x80 <=? b) && (b <=? 0x9F)
  then match nth_error cp1252_high (Z.to_nat (b - 0x80)) with
       | Some c => if c <? 0 then None else Some c
       | None => None
       end
  else Some b.

Definition mac_roman_char (b : Z) : option Z :=
  if 0x80 <=? b then nth_error mac_roman_high (Z.to_nat (b - 0x80))
  else Some b.

Definition iso8859_15_char (b : Z) : option Z :=
  match find (fun kv => fst kv =? b) iso8859_15_changes with
  | Some kv => Some (snd kv)
  | None => Some b
  end.

Definition ascii_char (b : Z) : option Z :=
  if b <? 0x80 then Some b else None.

Fixpoint decode_table (char : Z -> option Z) (replace_errors : bool)
  (text : bytes) : result str :=
  match text with
  | [] => Return []
  | b :: rest =>
      match char b with
      | Some c => s <- decode_table char replace_errors rest ;; Return (c :: s)
      | None =>
          if replace_errors
          then s <- decode_table char replace_errors rest ;;
               Return (0xFFFD :: s)
          else Raise UnicodeDecodeError
      end
  end.

(** UTF-16 code units, least significant byte first unless [big]. *)
Definition unit16 (big : bool) (b0 b1 : Z) : Z :=
  if big then b0 * 256 + b1 else b1 * 256 + b0.

Fixpoint utf16_units (big : bool) (text : bytes) : result str :=
  match text with
  | [] => Return []
  | [_] => Raise UnicodeDecodeError
  | b0 :: b1 :: rest =>
      let u := unit16 big b0 b1 in
      if (0xD800 <=? u) && (u <=? 0xDBFF) then
        match rest with
        | b2 :: b3 :: rest' =>
            let v := unit16 big b2 b3 in
            if (0xDC00 <=? v) && (v <=? 0xDFFF)
            then s <- utf16_units big rest' ;;
                 Return (0x10000 + (u - 0xD800) * 1024 + (v - 0xDC00) :: s)
            else Raise UnicodeDecodeError
        | _ => Raise UnicodeDecodeError
        end
      else if (0xDC00 <=? u) && (u <=? 0xDFFF) then Raise UnicodeDecodeError
      else s <- utf16_units big rest ;; Return (u :: s)
  end.

(** [text.decode('utf-16')]: a byte order mark selects the order and is
    dropped; without one the order is little-endian. *)
Definition utf16_decode (text : bytes) : result str :=
  match text with
  | 0xFF :: 0xFE :: rest => utf16_units false rest
  | 0xFE :: 0xFF :: rest => utf16_units true rest
  | _ => utf16_units false text
  end.

Definition unit32 (big : bool) (b0 b1 b2 b3 : Z) : Z :=
  if big then ((b0 * 256 + b1) * 256 + b2) * 256 + b3
  else ((b3 * 256 + b2) * 256 + b1) * 256 + b0.

Fixpoint utf32_units (big : bool) (text : bytes) : result str :=
  match text with
  | [] => Return []
  | b0 :: b1 :: b2 :: b3 :: rest =>
      let u := unit32 big b0 b1 b2 b3 in
      if (0x10FFFF <? u) || ((0xD800 <=? u) && (u <=? 0xDFFF))
      then Raise UnicodeDecodeError
      else s <- utf32_units big rest ;; Return (u :: s)
  | _ => Raise UnicodeDecodeError
  end.

Definition utf32_decode (text : bytes) : result str :=
  match text with
  | 0xFF :: 0xFE :: 0 :: 0 :: rest => utf32_units false rest
  | 0 :: 0 :: 0xFE :: 0xFF :: rest => utf32_units true rest
  | _ => utf32_units false text
  end.

Definition name_in (name : string) (names : list string) : bool :=
  existsb (String.eqb name) names.

(** [text.decode(name)] for the names of [encodings_to_try]; any other
    name is unknown to this registry, as [iscii] is to CPython's. *)
Definition decode (name : string) (text : bytes) : result str :=
  if name_in name ["utf-8"]%string then utf8_decode text
  else if name_in name ["utf-16"]%string then utf16_decode text
  else if name_in name ["utf-32"]%string then utf32_decode text
  else if name_in name ["iso-8859-1"; "latin1"; "latin_1"]%string
       then Return text
  else if name_in name ["cp1252"; "windows-1252"]%string
       then decode_table cp1252_char false text
  else if name_in name ["ascii"]%string then decode_table ascii_char false text
  else if name_in name ["iso-8859-15"]%string
       then decode_table iso8859_15_char false text
  else if name_in name ["mac_roman"]%string
       then decode_table mac_roman_char false text
  else Raise LookupError.

(** [text.decode(name, errors='replace')] for UTF-8 and the single-byte
    codecs; any other name is unknown to this registry. *)
Definition decode_replace (name : string) (text : bytes) : result str :=
  if name_in name ["utf-8"]%string then Return (utf8_decode_replace text)
  else if name_in name ["iso-8859-1"; "latin1"; "latin_1"]%string
       then Return text
  else if name_in name ["cp1252"; "windows-1252"]%string
       then decode_table cp1252_char true text
  else if name_in name ["ascii"]%string then decode_table ascii_char true text
  else if name_in name ["iso-8859-15"]%string
       then decode_table iso8859_15_char true text
  else if name_in name ["mac_roman"]%string
       then decode_table mac_roman_char true text
  else Raise LookupError.

Definition decode_indic_text : object -> result str :=
  App.decode_indic_text isprintable chardet_detect decode decode_replace.

Definition normalize_text : str -> str := App.normalize_text isprintable.

Definition clean_text : str -> str := App.ContentExporters.clean_text isword.

Definition process_pages : list str -> result (str * str) :=
  App.process_pages isprintable chardet_detect decode decode_replace isword.

End Reference.

(** ** Vocabulary of the statements *)

(** Whitespace is well placed in [s]: spaces only, never two in a row;
    [prev] tells that a space comes just before [s]. *)
Fixpoint ws_ok (prev : bool) (s : str) : Prop :=
  match s with
  | [] => True
  | c :: s' =>
      if isspace c then c = SP /\ prev = false /\ ws_ok true s'
      else ws_ok false s'
  end.

(** What the statements on [normalize_text] need of [str.isprintable]:
    the space and the three marks the artifact table writes are printable,
    and no other whitespace is. *)
Definition printable_agrees (isprintable : Z -> bool) : Prop :=
  (forall c, In c [SP; 39; 34; 0xA9] -> isprintable c = true) /\
  (forall c, isprintable c = true -> isspace c = true -> c = SP).

(** The texts the artifact table of [normalize_text] rewrites; the first
    is a prefix of its two longer keys. *)
Definition artifact_patterns : list str :=
  [[0xE2; 0x20AC]; [0xC2]; lit "deg" ++ [0xFC]; lit "(c)"].

Definition artifact_free (text : str) : Prop :=
  forall p, In p artifact_patterns -> str_in p text = false.

(** The character is a key of the repair table and occurs in none of its
    values. *)
Definition mapped_away (c : Z) : bool :=
  existsb (fun kv => str_eqb (fst kv) [c]) App.replacements &&
  forallb (fun kv => negb (existsb (Z.eqb c) (snd kv))) App.replacements.

(** The one-character entries of the repair table, as pairs of code
    points. *)
Definition single_entries : list (Z * Z) :=
  Eval vm_compute in
    flat_map (fun kv => match kv with
                        | ([k], [v]) => [(k, v)]
                        | _ => []
                        end) App.replacements.

(** [5 * printable <= 4 * len]: the printable ratio of the text is not
    greater than 0.8; the empty text, for which the code divides by zero,
    is counted here too. *)
Definition low_ratio (isprintable : Z -> bool) (decoded : str) : Prop :=
  5 * Z.of_nat (List.length (filter isprintable decoded))
  <= 4 * Z.of_nat (List.length decoded).

(** The printable ratio of the text is [p / n] exactly. *)
Definition has_ratio (isprintable : Z -> bool) (decoded : str) (p n : Z)
  : Prop :=
  (decoded <> []) /\
  (n * Z.of_nat (List.length (filter isprintable decoded))
   = p * Z.of_nat (List.length decoded)).

(** The candidate does not make the loop return: its decode raises, or
    gives a text whose ratio is not greater than 0.8. *)
Definition rejected (isprintable : Z -> bool)
  (decode : string -> bytes -> result str) (name : string) (text : bytes)
  : Prop :=
  forall decoded, decode name text = Return decoded ->
                  low_ratio isprintable decoded.

(** The text a page adds to [processed_text]: its marker line, then the
    body. *)
Definition marked_block (i : nat) (body : str) : str :=
  [NL] ++ App.page_marker i ++ [NL] ++ body ++ [NL].

(** The pages with their positions, counted from one. *)
Definition numbered {A} (pages : list A) : list (nat * A) :=
  combine (seq 1 (List.length pages)) pages.

(** What the loop of [research_converter_page] makes of the text of one
    page: decode, normalise, clean. *)
Definition page_result (isprintable : Z -> bool)
  (chardet_detect : bytes -> App.detection)
  (decode decode_replace : string -> bytes -> result str)
  (isword : Z -> bool) (page_text : str) : str :=
  match App.decode_indic_text isprintable chardet_detect decode decode_replace
          (Str page_text) with
  | Return decoded =>
      App.ContentExporters.clean_text isword
        (App.normalize_text isprintable decoded)
  | Raise _ => []
  end.

(** What [process_for_research] writes under the marker of a chunk: its
    bytes decoded under the listed encoding, or its text when that decode
    raises. *)
Definition chunk_body (decode_replace : string -> bytes -> result str)
  (c : Whitepaper.EncodingDetector.chunk) (name : option string) : str :=
  match decode_replace (Whitepaper.or_utf8 name)
          (Whitepaper.EncodingDetector.chunk_bytes c) with
  | Return decoded_text => decoded_text
  | Raise _ => Whitepaper.EncodingDetector.chunk_text c
  end.

(** Two sample texts of twenty ASCII characters, six of them printable.
    Read as UTF-16 their bytes are ten characters, nine of them printable.
    The first holds an escape character, so that the reference detector
    makes no guess; the second is plain, and detected as ASCII. *)
Definition escaped_sample : str :=
  [13; 13; 27; 1] ++ repeat 1 10%nat ++ repeat 97 6%nat.

Definition plain_sample : str :=
  [13; 13] ++ repeat 1 12%nat ++ repeat 97 6%nat.

(** A model whose call fails with an error derived from [Exception], and
    one that answers. *)
Definition failing_model : App.model :=
  {| App.generate_content :=
       fun _ => Raise (External true (lit "503 service unavailable")) |}.

Definition answering_model (answer : str) : App.model :=
  {| App.generate_content :=
       fun _ => Return {| App.response_text := Return answer |} |}.

(** A chunk as [extract_text_from_pdf] builds it from the text of a page. *)
Definition chunk_of (page_text : str) : Whitepaper.EncodingDetector.chunk :=
  {| Whitepaper.EncodingDetector.chunk_text := page_text;
     Whitepaper.EncodingDetector.chunk_bytes := utf8_encode_ignore page_text;
     Whitepaper.EncodingDetector.chunk_encoding :=
       Reference.chardet_detect (utf8_encode_ignore page_text) |}.

(** A Unicode code point, and the surrogates among them, which UTF-8
    does not encode. *)
Definition code_point (c : Z) : Prop := 0 <= c <= 0x10FFFF.

Definition surrogate (c : Z) : bool := (0xD800 <=? c) && (c <=? 0xDFFF).

(** The keys of the sanitizer table that a Latin-1 text can hold and that
    the table rewrites to something else: ten signs and the long key. *)
Definition latin1_keys : list str :=
  Eval vm_compute in
    map fst
        (filter (fun kv : str * str =>
                   forallb (fun c => c <? 256) (fst kv)
                   && negb (str_eqb (fst kv) (snd kv)))
                Whitepaper.ContentExporters.replacements).

(** An octet, the items of a [bytes] object. *)
Definition octet (b : Z) : Prop := 0 <= b < 256.

(** [bool(page_text)] *)
Definition has_text (page_text : str) : bool :=
  match page_text with
  | [] => false
  | _ :: _ => true
  end.

(** The chunk [extract_text_from_pdf] makes of the text of a page, and the
    name it lists for it. *)
Definition extracted_chunk (chardet_detect : bytes -> App.detection)
  (page_text : str) : Whitepaper.EncodingDetector.chunk :=
  {| Whitepaper.EncodingDetector.chunk_text := page_text;
     Whitepaper.EncodingDetector.chunk_bytes := utf8_encode_ignore page_text;
     Whitepaper.EncodingDetector.chunk_encoding :=
       chardet_detect (utf8_encode_ignore page_text) |}.

Definition extracted_encoding (chardet_detect : bytes -> App.detection)
  (page_text : str) : option string :=
  App.encoding (chardet_detect (utf8_encode_ignore page_text)).

(** The characters [clean_markdown] deletes wherever they stand. *)
Definition markdown_markers : str := lit "#*_~`".

Definition marker_free (text : str) : Prop :=
  forall c, In c text -> ~ In c markdown_markers.

(** A body paragraph of a document and the space after it. *)
Definition body_paragraph (paragraph : str) : list App.flowable :=
  [App.Paragraph paragraph App.body_style; App.Spacer 1 12].

(** The number [create_pdf_search_tool] gives a loaded page, and what the
    page adds to [full_text]. *)
Definition page_number (p : Whitepaper.ResearchTools.page) : nat :=
  match Whitepaper.ResearchTools.metadata_page p with
  | Some n => n
  | None => 0
  end + 1.

Definition page_section (p : Whitepaper.ResearchTools.page) : str :=
  [NL; NL] ++ lit "=== Page " ++ str_of_nat (page_number p) ++ lit " ==="
           ++ [NL] ++ strip (Whitepaper.ResearchTools.page_content p).

(** * Properties *)

(** ** Facts about the string operations *)

Section StringFacts.

Local Arguments isspace : simpl never.

Lemma starts_with_single c s :
  starts_with [c] s = match s with [] => false | x :: _ => c =? x end.
Proof.
  destruct s as [|x s]; simpl; [reflexivity | apply andb_true_r].
Qed.

Lemma str_in_single c s : str_in [c] s = true <-> In c s.
Proof.
  induction s as [|x s IH].
  - simpl. split; [discriminate | tauto].
  - cbn [str_in]. rewrite starts_with_single, orb_true_iff, IH, Z.eqb_eq.
    simpl. split; intros [H|H]; auto.
Qed.

Lemma str_in_single_false c s : str_in [c] s = false <-> ~ In c s.
Proof.
  rewrite <- str_in_single. destruct (str_in [c] s); split; intros H;
    try reflexivity; try discriminate; exfalso; auto.
Qed.

Lemma starts_with_app p q s :
  starts_with (p ++ q) s = true -> starts_with p s = true.
Proof.
  revert s. induction p as [|a p IH]; intros s H; [reflexivity|].
  destruct s as [|x s]; simpl in *; [discriminate|].
  apply andb_true_iff in H as [H1 H2]. rewrite H1. simpl. auto.
Qed.

Lemma str_in_app_false p q s :
  str_in p s = false -> str_in (p ++ q) s = false.
Proof.
  induction s as [|x s IH]; cbn [str_in]; intros H;
    apply orb_false_iff in H as [H1 H2]; apply orb_false_iff; split; auto;
    destruct (starts_with (p ++ q) _) eqn:E; auto;
    apply starts_with_app in E; congruence.
Qed.

(** Every character [replace] writes comes from the text or from [new]. *)
Lemma replace_from_In old new k s x :
  In x (replace_from old new k s) -> In x s \/ In x new.
Proof.
  revert k. induction s as [|c s IH]; intros k H; simpl in H; [tauto|].
  destruct k as [|k].
  - destruct (starts_with old (c :: s)).
    + apply in_app_or in H as [H|H]; [tauto|].
      apply IH in H. simpl. tauto.
    + destruct H as [H|H]; [simpl; tauto|]. apply IH in H. simpl. tauto.
  - apply IH in H. simpl. tauto.
Qed.

Lemma replace_In text old new x :
  In x (replace text old new) -> In x text \/ In x new.
Proof.
  destruct old as [|o old]; simpl.
  - intros H. apply in_app_or in H as [H|H]; [tauto|].
    apply in_flat_map in H as (c & Hc & [H|H]); subst; tauto.
  - apply replace_from_In.
Qed.

Lemma replace_Forall (P : Z -> Prop) text old new :
  Forall P text -> Forall P new -> Forall P (replace text old new).
Proof.
  rewrite !Forall_forall. intros Ht Hn x Hx.
  apply replace_In in Hx as [Hx|Hx]; auto.
Qed.

(** Replacing a single character leaves none of it behind. *)
Lemma replace_single_gone c new text :
  ~ In c new -> ~ In c (replace text [c] new).
Proof.
  intros Hn. unfold replace.
  induction text as [|x s IH]; simpl; [tauto|].
  destruct (c =? x) eqn:E; simpl.
  - intros H. apply in_app_or in H as [H|H]; auto.
  - apply Z.eqb_neq in E. intros [H|H]; auto.
Qed.

(** A pattern that does not occur leaves the text as it is. *)
Lemma replace_absent text old new :
  old <> [] -> str_in old text = false -> replace text old new = text.
Proof.
  intros Ho. destruct old as [|o old]; [congruence|]. unfold replace.
  induction text as [|x s IH]; intros H; [reflexivity|].
  cbn [str_in] in H. apply orb_false_iff in H as [H1 H2].
  cbn [replace_from]. rewrite H1. f_equal. auto.
Qed.

Lemma sub_ws_from_In b s x :
  In x (sub_ws_from b s) -> x = SP \/ (In x s /\ isspace x = false).
Proof.
  revert b. induction s as [|c s IH]; intros b H; simpl in H; [tauto|].
  destruct (isspace c) eqn:E.
  - destruct b; [|destruct H as [H|H]; [auto|]];
      apply IH in H as [H|[H1 H2]]; simpl; auto.
  - destruct H as [H|H]; [subst; simpl; auto|].
    apply IH in H as [H|[H1 H2]]; simpl; auto.
Qed.

(** No newline is left by [re.sub(r'\s+', ' ', text)]. *)
Lemma re_sub_ws_no_newline text : ~ In NL (re_sub_ws text).
Proof.
  intros H. apply sub_ws_from_In in H as [H|[_ H]]; discriminate.
Qed.

Lemma sub_ws_from_fixed b s : ws_ok b s -> sub_ws_from b s = s.
Proof.
  revert b. induction s as [|c s IH]; intros b H; simpl in *; [reflexivity|].
  destruct (isspace c).
  - destruct H as (-> & -> & H). f_equal. auto.
  - f_equal. auto.
Qed.

Lemma sub_ws_from_ok b s : ws_ok b (sub_ws_from b s).
Proof.
  revert b. induction s as [|c s IH]; intros b; simpl; [exact I|].
  destruct (isspace c) eqn:E.
  - destruct b; [apply IH|]. simpl.
    change (isspace SP) with true. cbv iota. auto.
  - simpl. rewrite E. apply IH.
Qed.

Lemma lstrip_ok b s : ws_ok b s -> ws_ok false (lstrip s).
Proof.
  revert b. induction s as [|c s IH]; intros b H; simpl in *; [exact I|].
  destruct (isspace c) eqn:E.
  - destruct H as (_ & _ & H). eauto.
  - simpl. rewrite E. exact H.
Qed.

Lemma rstrip_ok b s : ws_ok b s -> ws_ok b (rstrip s).
Proof.
  revert b. induction s as [|c s IH]; intros b H; simpl in *; [exact I|].
  destruct (isspace c) eqn:E.
  - destruct H as (Hc & Hb & H). apply IH in H.
    destruct (rstrip s) as [|r rs]; [exact I|].
    cbn [ws_ok]. rewrite E. auto.
  - apply IH in H. destruct (rstrip s) as [|r rs]; cbn [ws_ok]; rewrite E; auto.
Qed.

Lemma rstrip_idempotent s : rstrip (rstrip s) = rstrip s.
Proof.
  induction s as [|c s IH]; [reflexivity|]. simpl.
  destruct (rstrip s) as [|r rs] eqn:R.
  - destruct (isspace c) eqn:E; simpl; [reflexivity | now rewrite E].
  - cbn [rstrip]. cbn [rstrip] in IH. rewrite IH. reflexivity.
Qed.

Lemma lstrip_rstrip_lstrip s : lstrip (rstrip (lstrip s)) = rstrip (lstrip s).
Proof.
  induction s as [|c s IH]; [reflexivity|]. cbn [lstrip].
  destruct (isspace c) eqn:E; [exact IH|]. cbn [rstrip].
  destruct (rstrip s); rewrite ?E; cbn [lstrip]; now rewrite E.
Qed.

Lemma strip_idempotent text : strip (strip text) = strip text.
Proof.
  unfold strip. now rewrite lstrip_rstrip_lstrip, rstrip_idempotent.
Qed.

Lemma lstrip_In s x : In x (lstrip s) -> In x s.
Proof.
  induction s as [|c s IH]; simpl; [tauto|].
  destruct (isspace c); simpl; auto.
Qed.

Lemma rstrip_In s x : In x (rstrip s) -> In x s.
Proof.
  induction s as [|c s IH]; simpl; [tauto|].
  destruct (rstrip s) as [|r rs].
  - destruct (isspace c); simpl; tauto.
  - intros [H|H]; auto.
Qed.

Lemma strip_In text x : In x (strip text) -> In x text.
Proof.
  intros H. apply lstrip_In, rstrip_In, H.
Qed.

(** A stripped text neither starts nor ends with whitespace. *)
Lemma lstrip_head s : isspace (hd 0 (lstrip s)) = false.
Proof.
  induction s as [|c s IH]; simpl; [reflexivity|].
  destruct (isspace c) eqn:E; [exact IH | exact E].
Qed.

Lemma rstrip_head s c s' : s = c :: s' -> isspace c = false ->
  hd 0 (rstrip s) = c.
Proof.
  intros -> E. simpl. destruct (rstrip s'); [now rewrite E | reflexivity].
Qed.

Lemma strip_head text : isspace (hd 0 (strip text)) = false.
Proof.
  unfold strip. pose proof (lstrip_head text) as H.
  destruct (lstrip text) as [|c s] eqn:L; [reflexivity|].
  simpl in H. rewrite (rstrip_head (c :: s) c s eq_refl H). exact H.
Qed.

Lemma rstrip_last s : isspace (last (rstrip s) 0) = false.
Proof.
  induction s as [|c s IH]; [reflexivity|]. cbn [rstrip].
  destruct (rstrip s) as [|r rs] eqn:R.
  - destruct (isspace c) eqn:E; [reflexivity | exact E].
  - exact IH.
Qed.

Lemma strip_last text : isspace (last (strip text) 0) = false.
Proof.
  apply rstrip_last.
Qed.

Lemma sub_blank_from_no_newline s :
  ~ In NL s -> sub_blank_from 0 s = s.
Proof.
  induction s as [|c s IH]; intros H; [reflexivity|]. cbn [sub_blank_from].
  destruct (c =? NL) eqn:E.
  - apply Z.eqb_eq in E. subst. exfalso. apply H. now left.
  - f_equal. apply IH. intros Hin. apply H. now right.
Qed.

Lemma filter_fixed (f : Z -> bool) s :
  Forall (fun c => f c = true) s -> filter f s = s.
Proof.
  induction 1 as [|c s Hc _ IH]; simpl; [reflexivity|].
  now rewrite Hc, IH.
Qed.

End StringFacts.

(** ** [normalize_text] *)

Section NormalizeFacts.

Variable isprintable : Z -> bool.

Let normalize := App.normalize_text isprintable.
Let printable (c : Z) : Prop := isprintable c = true.

Lemma ws_ok_In b s x : ws_ok b s -> In x s -> isspace x = true -> x = SP.
Proof.
  revert b. induction s as [|c s IH]; intros b H Hin Hx; [destruct Hin|].
  simpl in H. destruct Hin as [->|Hin].
  - rewrite Hx in H. tauto.
  - destruct (isspace c); [destruct H as (_ & _ & H)|]; eauto.
Qed.

Lemma ws_ok_no_newline b s : ws_ok b s -> ~ In NL s.
Proof.
  intros H Hin. pose proof (ws_ok_In b s NL H Hin eq_refl). discriminate.
Qed.

Lemma starts_with_incl p s : starts_with p s = true -> incl p s.
Proof.
  revert s. induction p as [|a p IH]; intros s H x Hx; [destruct Hx|].
  destruct s as [|c s]; simpl in H; [discriminate|].
  apply andb_true_iff in H as [E H]. apply Z.eqb_eq in E. subst c.
  destruct Hx as [->|Hx]; [now left | right; eapply IH; eauto].
Qed.

(** A replacement spelled with characters of its own pattern brings no
    new character into the text. *)
Lemma replace_from_In_text old new k s x :
  incl new old -> In x (replace_from old new k s) -> In x s.
Proof.
  intros Hincl. revert k. induction s as [|c s IH]; intros k H; simpl in H;
    [tauto|].
  destruct k as [|k]; [|right; eauto].
  destruct (starts_with old (c :: s)) eqn:E.
  - apply in_app_or in H as [H|H]; [|right; eauto].
    eapply starts_with_incl; eauto.
  - destruct H as [H|H]; [now left | right; eauto].
Qed.

Lemma replace_In_text text old new x :
  old <> [] -> incl new old -> In x (replace text old new) -> In x text.
Proof.
  destruct old as [|o old]; [congruence|]. intros _. apply replace_from_In_text.
Qed.

(** The artifact table of lines 931-938. *)
Let fix_artifacts (t : str) : str :=
  replace (replace (replace (replace (replace (replace t
    [0xE2; 0x20AC; 0x2122] (lit "'")) [0xE2; 0x20AC; 0x153] [34])
    [0xE2; 0x20AC] [34]) [0xC2] []) (lit "deg" ++ [0xFC]) (lit "deg"))
    (lit "(c)") [0xA9].

Let keep (char : Z) : bool := isprintable char || str_in [char] [NL; TAB].

Lemma normalize_text_unfold x :
  normalize x =
  strip (re_sub_blank_lines (re_sub_ws (fix_artifacts (re_sub_ws (filter keep x))))).
Proof. reflexivity. Qed.

(** Line 940 finds no newline to work on: after its last whitespace pass
    the normaliser only trims. *)
Lemma normalize_text_trims x :
  normalize x = strip (re_sub_ws (fix_artifacts (re_sub_ws (filter keep x)))).
Proof.
  rewrite normalize_text_unfold. unfold re_sub_blank_lines.
  now rewrite (sub_blank_from_no_newline _ (re_sub_ws_no_newline _)).
Qed.

Lemma normalize_text_no_newline x : ~ In NL (normalize x).
Proof.
  rewrite normalize_text_trims. intros H.
  apply strip_In in H. exact (re_sub_ws_no_newline _ H).
Qed.

Lemma normalize_text_ws_ok x : ws_ok false (normalize x).
Proof.
  rewrite normalize_text_trims. unfold strip.
  apply rstrip_ok, (lstrip_ok false), sub_ws_from_ok.
Qed.

Lemma normalize_text_stripped x : strip (normalize x) = normalize x.
Proof.
  rewrite normalize_text_trims. apply strip_idempotent.
Qed.

Lemma re_sub_ws_printable t :
  printable SP ->
  Forall (fun c => printable c \/ isspace c = true) t ->
  Forall printable (re_sub_ws t).
Proof.
  intros Hsp H. rewrite Forall_forall in *. intros x Hx.
  apply sub_ws_from_In in Hx as [->|[Hx E]]; [exact Hsp|].
  destruct (H x Hx) as [?|?]; [assumption | congruence].
Qed.

Lemma fix_artifacts_printable t :
  printable 39 -> printable 34 -> printable 0xA9 ->
  Forall printable t -> Forall printable (fix_artifacts t).
Proof.
  intros H39 H34 Ha9 Ht. unfold fix_artifacts.
  apply replace_Forall; [|repeat constructor; assumption].
  apply Forall_forall. intros x Hx.
  apply replace_In_text in Hx;
    [|discriminate | intros y Hy; apply in_or_app; now left].
  revert x Hx. apply Forall_forall.
  repeat (apply replace_Forall; [|repeat constructor; assumption]).
  exact Ht.
Qed.

Hypothesis agrees : printable_agrees isprintable.

Lemma normalize_text_printable x : Forall printable (normalize x).
Proof.
  destruct agrees as [Hp _].
  assert (Hsp : printable SP) by (apply Hp; simpl; auto).
  rewrite normalize_text_trims. apply Forall_forall. intros c Hc.
  apply strip_In in Hc. revert c Hc. apply Forall_forall.
  apply re_sub_ws_printable; [exact Hsp|].
  eapply Forall_impl; [intros a Ha; left; exact Ha|].
  apply fix_artifacts_printable; try (apply Hp; simpl; tauto).
  apply re_sub_ws_printable; [exact Hsp|].
  apply Forall_forall. intros c Hc. apply filter_In in Hc as [_ Hc].
  unfold keep in Hc. apply orb_true_iff in Hc as [Hc|Hc]; [now left|].
  right. apply str_in_single in Hc.
  destruct Hc as [<-|[<-|[]]]; reflexivity.
Qed.

Lemma fix_artifacts_absent y : artifact_free y -> fix_artifacts y = y.
Proof.
  intros H. unfold fix_artifacts.
  assert (H1 : str_in [0xE2; 0x20AC] y = false) by (apply H; simpl; auto).
  assert (H2 : str_in [0xC2] y = false) by (apply H; simpl; auto).
  assert (H3 : str_in (lit "deg" ++ [0xFC]) y = false)
    by (apply H; simpl; auto).
  assert (H4 : str_in (lit "(c)") y = false) by (apply H; simpl; tauto).
  rewrite (replace_absent y [0xE2; 0x20AC; 0x2122]);
    [|discriminate | exact (str_in_app_false [0xE2; 0x20AC] [0x2122] y H1)].
  rewrite (replace_absent y [0xE2; 0x20AC; 0x153]);
    [|discriminate | exact (str_in_app_false [0xE2; 0x20AC] [0x153] y H1)].
  rewrite (replace_absent y [0xE2; 0x20AC]); [|discriminate | exact H1].
  rewrite (replace_absent y [0xC2]); [|discriminate | exact H2].
  rewrite (replace_absent y (lit "deg" ++ [0xFC])); [|discriminate | exact H3].
  apply replace_absent; [discriminate | exact H4].
Qed.

(** A text in the form the normaliser produces, and free of the artifact
    patterns, is left as it is. *)
Lemma normalize_text_fixed y :
  Forall printable y -> ws_ok false y -> strip y = y -> artifact_free y ->
  normalize y = y.
Proof.
  intros Hp Hw Hs Hf. rewrite normalize_text_trims.
  rewrite (filter_fixed keep y).
  - unfold re_sub_ws. rewrite (sub_ws_from_fixed false y Hw).
    rewrite (fix_artifacts_absent y Hf).
    rewrite (sub_ws_from_fixed false y Hw). exact Hs.
  - eapply Forall_impl; [|exact Hp]. intros c Hc. unfold keep.
    unfold printable in Hc. now rewrite Hc.
Qed.

Lemma normalize_text_idempotent_if_artifact_free x :
  artifact_free (normalize x) -> normalize (normalize x) = normalize x.
Proof.
  intros Hf. apply normalize_text_fixed; auto using normalize_text_printable,
    normalize_text_ws_ok, normalize_text_stripped.
Qed.

(** *** The converse: a pattern left in the text is rewritten *)

Lemma starts_with_length p s :
  starts_with p s = true -> (List.length p <= List.length s)%nat.
Proof.
  revert s. induction p as [|a p IH]; intros s H; simpl; [lia|].
  destruct s as [|c s]; simpl in H; [discriminate|].
  apply andb_true_iff in H as [_ H]. apply IH in H. simpl. lia.
Qed.

(** A replacement no longer than its pattern does not lengthen the
    text. *)
Lemma replace_from_length old new k s :
  (List.length new <= List.length old)%nat -> (k <= List.length s)%nat ->
  (List.length (replace_from old new k s) + k <= List.length s)%nat.
Proof.
  intros Hn. revert k. induction s as [|c s IH]; intros k Hk; simpl in *;
    [lia|].
  destruct k as [|k]; [|specialize (IH k); lia].
  destruct (starts_with old (c :: s)) eqn:E.
  - apply starts_with_length in E. simpl in E. rewrite length_app.
    specialize (IH (Nat.pred (List.length old))). lia.
  - simpl. specialize (IH 0%nat). lia.
Qed.

(** A shorter replacement shortens a text in which the pattern occurs. *)
Lemma replace_from_shorter old new k s :
  (List.length new < List.length old)%nat -> (k <= List.length s)%nat ->
  str_in old (skipn k s) = true ->
  (List.length (replace_from old new k s) + k < List.length s)%nat.
Proof.
  intros Hn. revert k. induction s as [|c s IH]; intros k Hk Hin.
  - destruct k; simpl in Hin; destruct old; simpl in *; try discriminate; lia.
  - simpl in Hk. destruct k as [|k].
    + cbn [skipn] in Hin. cbn [replace_from].
      destruct (starts_with old (c :: s)) eqn:E.
      * pose proof (starts_with_length _ _ E) as Hl. simpl in Hl.
        rewrite length_app.
        pose proof (replace_from_length old new (Nat.pred (List.length old)) s)
          as Hle.
        simpl. lia.
      * cbn [str_in] in Hin. rewrite E in Hin. cbn [orb] in Hin.
        pose proof (IH 0%nat (Nat.le_0_l _) Hin) as Hs.
        cbn [List.length]. lia.
    + cbn [skipn] in Hin. cbn [replace_from].
      assert (Hk' : (k <= List.length s)%nat) by lia.
      pose proof (IH k Hk' Hin) as Hs. cbn [List.length]. lia.
Qed.

Lemma replace_length text old new :
  old <> [] -> (List.length new <= List.length old)%nat ->
  (List.length (replace text old new) <= List.length text)%nat.
Proof.
  destruct old as [|o old]; [congruence|]. intros _ Hn. unfold replace.
  pose proof (replace_from_length (o :: old) new 0 text Hn (Nat.le_0_l _)).
  lia.
Qed.

Lemma replace_shorter text old new :
  (List.length new < List.length old)%nat -> str_in old text = true ->
  (List.length (replace text old new) < List.length text)%nat.
Proof.
  destruct old as [|o old]; [simpl; lia|]. intros Hn Hin. unfold replace.
  pose proof (replace_from_shorter (o :: old) new 0 text Hn (Nat.le_0_l _) Hin).
  lia.
Qed.

(** One entry of the table either leaves the text alone or shortens it. *)
Lemma replace_same_or_shorter text old new :
  old <> [] -> (List.length new < List.length old)%nat ->
  (str_in old text = false /\ replace text old new = text) \/
  (List.length (replace text old new) < List.length text)%nat.
Proof.
  intros Ho Hn. destruct (str_in old text) eqn:E.
  - right. now apply replace_shorter.
  - left. split; [reflexivity | now apply replace_absent].
Qed.

Lemma sub_ws_from_length b s :
  (List.length (sub_ws_from b s) <= List.length s)%nat.
Proof.
  revert b. induction s as [|c s IH]; intros b; simpl; [lia|].
  pose proof (IH true). pose proof (IH false).
  destruct (isspace c); [destruct b|]; simpl; lia.
Qed.

Lemma lstrip_length s : (List.length (lstrip s) <= List.length s)%nat.
Proof.
  induction s as [|c s IH]; simpl; [lia|].
  destruct (isspace c); simpl; lia.
Qed.

Lemma rstrip_length s : (List.length (rstrip s) <= List.length s)%nat.
Proof.
  induction s as [|c s IH]; simpl; [lia|].
  destruct (rstrip s); [destruct (isspace c)|]; simpl in *; lia.
Qed.

Lemma strip_length text : (List.length (strip text) <= List.length text)%nat.
Proof.
  unfold strip. pose proof (rstrip_length (lstrip text)).
  pose proof (lstrip_length text). lia.
Qed.

Lemma fix_artifacts_shorter y :
  ~ artifact_free y ->
  (List.length (fix_artifacts y) < List.length y)%nat.
Proof.
  intros Hnf. unfold fix_artifacts.
  set (r1 := replace y [0xE2; 0x20AC; 0x2122] (lit "'")).
  set (r2 := replace r1 [0xE2; 0x20AC; 0x153] [34]).
  set (r3 := replace r2 [0xE2; 0x20AC] [34]).
  set (r4 := replace r3 [0xC2] []).
  set (r5 := replace r4 (lit "deg" ++ [0xFC]) (lit "deg")).
  assert (L1 : (List.length r1 <= List.length y)%nat)
    by (apply replace_length; [discriminate | simpl; lia]).
  assert (L2 : (List.length r2 <= List.length r1)%nat)
    by (apply replace_length; [discriminate | simpl; lia]).
  assert (L3 : (List.length r3 <= List.length r2)%nat)
    by (apply replace_length; [discriminate | simpl; lia]).
  assert (L4 : (List.length r4 <= List.length r3)%nat)
    by (apply replace_length; [discriminate | simpl; lia]).
  assert (L5 : (List.length r5 <= List.length r4)%nat)
    by (apply replace_length; [discriminate | simpl; lia]).
  set (r6 := replace r5 (lit "(c)") [0xA9]).
  assert (L6 : (List.length r6 <= List.length r5)%nat)
    by (apply replace_length; [discriminate | simpl; lia]).
  destruct (replace_same_or_shorter y [0xE2; 0x20AC; 0x2122] (lit "'"))
    as [[_ E1]|S1]; [discriminate | simpl; lia | | fold r1 in S1; lia].
  destruct (replace_same_or_shorter r1 [0xE2; 0x20AC; 0x153] [34])
    as [[_ E2]|S2]; [discriminate | simpl; lia | | fold r2 in S2; lia].
  destruct (replace_same_or_shorter r2 [0xE2; 0x20AC] [34])
    as [[A3 E3]|S3]; [discriminate | simpl; lia | | fold r3 in S3; lia].
  destruct (replace_same_or_shorter r3 [0xC2] [])
    as [[A4 E4]|S4]; [discriminate | simpl; lia | | fold r4 in S4; lia].
  destruct (replace_same_or_shorter r4 (lit "deg" ++ [0xFC]) (lit "deg"))
    as [[A5 E5]|S5]; [discriminate | simpl; lia | | fold r5 in S5; lia].
  destruct (replace_same_or_shorter r5 (lit "(c)") [0xA9])
    as [[A6 E6]|S6]; [discriminate | simpl; lia | | fold r6 in S6; lia].
  exfalso. apply Hnf.
  fold r1 in E1. fold r2 in E2. fold r3 in E3. fold r4 in E4. fold r5 in E5.
  assert (Q5 : r5 = y) by congruence. assert (Q4 : r4 = y) by congruence.
  assert (Q3 : r3 = y) by congruence. assert (Q2 : r2 = y) by congruence.
  rewrite Q2 in A3. rewrite Q3 in A4. rewrite Q4 in A5. rewrite Q5 in A6.
  intros p Hp. simpl in Hp.
  destruct Hp as [<-|[<-|[<-|[<-|[]]]]]; assumption.
Qed.

(** A normalised text that still holds a pattern is changed, since it is
    shortened, by a second call. *)
Lemma normalize_text_changes_if_artifact x :
  ~ artifact_free (normalize x) -> normalize (normalize x) <> normalize x.
Proof.
  intros Hnf Heq. set (y := normalize x) in *.
  assert (Hy : normalize y
               = strip (re_sub_ws (fix_artifacts y))).
  { rewrite normalize_text_trims. rewrite (filter_fixed keep y).
    - unfold re_sub_ws at 2.
      rewrite (sub_ws_from_fixed false y (normalize_text_ws_ok x)).
      reflexivity.
    - eapply Forall_impl; [|exact (normalize_text_printable x)].
      intros c Hc. unfold keep. unfold printable in Hc. now rewrite Hc. }
  pose proof (fix_artifacts_shorter y Hnf) as Hs.
  pose proof (strip_length (re_sub_ws (fix_artifacts y))) as H1.
  pose proof (sub_ws_from_length false (fix_artifacts y)) as H2.
  fold (re_sub_ws (fix_artifacts y)) in H2.
  rewrite <- Hy, Heq in H1. lia.
Qed.

End NormalizeFacts.

(** The reference [str.isprintable] meets [printable_agrees]. *)
Lemma reference_printable_agrees : printable_agrees Reference.isprintable.
Proof.
  split.
  - intros c Hc. simpl in Hc.
    destruct Hc as [<-|[<-|[<-|[<-|[]]]]]; reflexivity.
  - intros c Hp Hs. unfold isspace in Hs.
    apply existsb_exists in Hs as (w & Hw & E). apply Z.eqb_eq in E. subst w.
    unfold whitespace in Hw. simpl in Hw.
    repeat (destruct Hw as [<-|Hw]; [try discriminate Hp; try reflexivity|]).
    destruct Hw.
Qed.

Lemma artifact_free_decidable y : artifact_free y \/ ~ artifact_free y.
Proof.
  destruct (forallb (fun p => negb (str_in p y)) artifact_patterns) eqn:E.
  - left. intros p Hp. rewrite forallb_forall in E.
    apply E in Hp. now apply negb_true_iff in Hp.
  - right. intros H.
    assert (E' : forallb (fun p => negb (str_in p y)) artifact_patterns = true)
      by (apply forallb_forall; intros p Hp; apply negb_true_iff; auto).
    congruence.
Qed.

(** C2, as amended. [normalize_text] applied to its own output changes
    nothing exactly when that output holds none of the patterns its
    artifact table rewrites (the two-character prefix of the mis-decoded
    quotes, the stray U+00C2, [deg] followed by U+00FC, and [(c)]):
    [normalize(normalize(x)) == normalize(x)] for every such [x], and for
    no other. *)
Theorem normalize_text_idempotent_when_artifact_free :
  forall isprintable, printable_agrees isprintable ->
  forall x,
    App.normalize_text isprintable (App.normalize_text isprintable x)
    = App.normalize_text isprintable x
    <-> artifact_free (App.normalize_text isprintable x).
Proof.
  intros isprintable Ha x. split.
  - intros Heq.
    destruct (artifact_free_decidable (App.normalize_text isprintable x))
      as [Hf|Hnf]; [exact Hf|].
    exfalso. exact (normalize_text_changes_if_artifact isprintable Ha x Hnf Heq).
  - intros Hf. now apply normalize_text_idempotent_if_artifact_free.
Qed.

Lemma normalize_text_idempotent_witness :
  printable_agrees Reference.isprintable /\
  artifact_free (Reference.normalize_text (lit "  Hello   World (c) ")) /\
  Reference.normalize_text (Reference.normalize_text (lit "  Hello   World (c) "))
  = Reference.normalize_text (lit "  Hello   World (c) ").
Proof.
  assert (Hf : artifact_free
                 (Reference.normalize_text (lit "  Hello   World (c) "))).
  { intros p Hp. simpl in Hp.
    destruct Hp as [<-|[<-|[<-|[<-|[]]]]]; vm_compute; reflexivity. }
  split; [exact reference_printable_agrees|]. split; [exact Hf|].
  exact (proj2 (normalize_text_idempotent_when_artifact_free
                  Reference.isprintable reference_printable_agrees
                  (lit "  Hello   World (c) ")) Hf).
Defined.

(** C2, as stated, fails: the table rewrites [deg] followed by U+00FC to
    [deg] in one pass over the text, so of two U+00FC the second is only
    removed by a second call. *)
Lemma normalize_text_not_idempotent :
  let x := lit "deg" ++ [0xFC; 0xFC] in
  Reference.normalize_text x = lit "deg" ++ [0xFC] /\
  Reference.normalize_text (Reference.normalize_text x) = lit "deg" /\
  Reference.normalize_text (Reference.normalize_text x)
  <> Reference.normalize_text x.
Proof.
  vm_compute. repeat split; discriminate.
Qed.

(** C6. The code does not keep a blank line: every newline is turned into
    a space by the whitespace pass before line 940 looks for blank lines,
    so no output of [normalize_text] holds a newline. Two blank lines
    between [a] and [b] come out as one space. Leading whitespace is
    removed, as the claim says. *)
Theorem normalize_text_flattens_blank_lines :
  (forall isprintable x, ~ In NL (App.normalize_text isprintable x)) /\
  (forall isprintable x,
     isspace (hd 0 (App.normalize_text isprintable x)) = false) /\
  Reference.normalize_text [97; NL; NL; NL; 98] = lit "a b" /\
  Reference.normalize_text (lit "   abc") = lit "abc".
Proof.
  split; [exact normalize_text_no_newline|].
  split; [|split; vm_compute; reflexivity].
  intros isprintable x. rewrite <- normalize_text_stripped. apply strip_head.
Qed.

(** ** [ContentExporters.clean_text] of app.py *)

Section CleanTextFacts.

Variable isword : Z -> bool.

Let clean := App.ContentExporters.clean_text isword.
Let kept := App.ContentExporters.kept isword.

Lemma clean_text_In text c : In c (clean text) -> kept c = true.
Proof.
  intros H. apply strip_In in H. apply filter_In in H. tauto.
Qed.

Lemma clean_text_from_text text c : In c (clean text) -> c = SP \/ In c text.
Proof.
  intros H. apply strip_In in H. apply filter_In in H as [H _].
  apply sub_ws_from_In in H. tauto.
Qed.

Lemma clean_text_stripped text : strip (clean text) = clean text.
Proof.
  apply strip_idempotent.
Qed.

End CleanTextFacts.

(** C10. The cleaner returns a trimmed text made of word characters,
    whitespace and the thirteen punctuation marks of its class; a character
    of any other kind is absent from the output, and nothing is written in
    its place: apart from the space that stands for a run of whitespace,
    every character of the output is one of the input. The copyright sign
    that [normalize_text] writes for [(c)], quotation marks and currency
    signs are deleted in this way. *)
Theorem clean_text_keeps_word_space_punctuation :
  forall isword text,
    let out := App.ContentExporters.clean_text isword text in
    Forall (fun c => isword c = true \/ isspace c = true \/
                     In c (lit ".,;:!?-()[]{}")) out /\
    strip out = out /\
    isspace (hd 0 out) = false /\ isspace (last out 0) = false /\
    (forall c, isword c = false -> isspace c = false ->
               ~ In c (lit ".,;:!?-()[]{}") -> ~ In c out) /\
    (forall c, In c out -> c = SP \/ In c text) /\
    Reference.normalize_text (lit "(c) Acme") = 0xA9 :: lit " Acme" /\
    Reference.clean_text (0xA9 :: lit " Acme") = lit "Acme" /\
    Reference.clean_text [34; 0x201C; 0x201D; 39; 0xA9; 36; 0x20AC; 0xA3] = [].
Proof.
  intros isword text out.
  assert (Hkept : forall c, In c out ->
            isword c = true \/ isspace c = true \/ In c (lit ".,;:!?-()[]{}")).
  { intros c Hc. apply clean_text_In in Hc.
    unfold App.ContentExporters.kept in Hc.
    apply orb_true_iff in Hc as [Hc|Hc];
      [apply orb_true_iff in Hc as [Hc|Hc]; auto|].
    right; right. apply existsb_exists in Hc as (p & Hp & E).
    apply Z.eqb_eq in E. now subst p. }
  split; [apply Forall_forall; exact Hkept|].
  split; [apply clean_text_stripped|].
  split; [apply strip_head|]. split; [apply strip_last|].
  split.
  - intros c Hw Hs Hp Hc. destruct (Hkept c Hc) as [?|[?|?]]; congruence || auto.
  - split; [intros c; apply clean_text_from_text|].
    repeat split; vm_compute; reflexivity.
Qed.

Lemma clean_text_keeps_word_space_punctuation_witness :
  Reference.isword 0xA9 = false /\ isspace 0xA9 = false /\
  ~ In 0xA9 (lit ".,;:!?-()[]{}") /\
  ~ In 0xA9 (Reference.clean_text (lit "Acme " ++ [0xA9] ++ lit " 2024.")).
Proof.
  assert (Hw : Reference.isword 0xA9 = false) by reflexivity.
  assert (Hs : isspace 0xA9 = false) by reflexivity.
  assert (Hp : ~ In 0xA9 (lit ".,;:!?-()[]{}")).
  { intros H. simpl in H.
    repeat (destruct H as [H|H]; [discriminate H|]). exact H. }
  refine (conj Hw (conj Hs (conj Hp _))).
  exact (proj1 (proj2 (proj2 (proj2 (proj2
           (clean_text_keeps_word_space_punctuation Reference.isword
              (lit "Acme " ++ [0xA9] ++ lit " 2024."))))))
           0xA9 Hw Hs Hp).
Defined.

(** ** The repair stage of [decode_indic_text] *)

Section RepairFacts.

Import App.

Let step (text : str) (kv : str * str) : str := replace text (fst kv) (snd kv).

Lemma any_in_str markers s :
  any_in markers (Str s) = Return (existsb (fun m => str_in m s) markers).
Proof.
  induction markers as [|m ms IH]; simpl; [reflexivity|].
  destruct (str_in m s); simpl; [reflexivity | exact IH].
Qed.

Lemma replace_items_str items s :
  replace_items items (Str s) = Return (Str (fold_left step items s)).
Proof.
  revert s. induction items as [|[old new] rest IH]; intros s; simpl;
    [reflexivity | apply IH].
Qed.

(** A character that no value of the table holds stays absent. *)
Lemma fold_replace_keeps_absent c items text :
  (forall kv, In kv items -> ~ In c (snd kv)) ->
  ~ In c text -> ~ In c (fold_left step items text).
Proof.
  revert text. induction items as [|kv rest IH]; intros text Hv Ht;
    [exact Ht|].
  simpl. apply IH; [intros; apply Hv; now right|].
  unfold step. intros H. apply replace_In in H as [H|H]; [auto|].
  apply (Hv kv); [now left | exact H].
Qed.

(** A character that is a key of the table, and in no value, is gone. *)
Lemma fold_replace_gone c items text :
  (exists v, In ([c], v) items) ->
  (forall kv, In kv items -> ~ In c (snd kv)) ->
  ~ In c (fold_left step items text).
Proof.
  revert text. induction items as [|kv rest IH]; intros text [v Hk] Hv;
    [destruct Hk|].
  simpl. destruct Hk as [->|Hk].
  - apply fold_replace_keeps_absent; [intros; apply Hv; now right|].
    unfold step. simpl fst. simpl snd. apply replace_single_gone.
    apply (Hv ([c], v)). now left.
  - apply IH; [eauto | intros; apply Hv; now right].
Qed.

Lemma str_eqb_eq a b : str_eqb a b = true -> a = b.
Proof.
  revert b. induction a as [|x a IH]; intros [|y b] H; simpl in H;
    try discriminate; [reflexivity|].
  apply andb_true_iff in H as [E H]. apply Z.eqb_eq in E. f_equal; auto.
Qed.

Lemma mapped_away_gone c text :
  mapped_away c = true -> ~ In c (apply_replacements text).
Proof.
  intros H. apply andb_true_iff in H as [Hk Hv].
  apply fold_replace_gone.
  - apply existsb_exists in Hk as ([k v] & Hin & E). apply str_eqb_eq in E.
    simpl in E. subst k. eauto.
  - intros [k v] Hin Hc. rewrite forallb_forall in Hv.
    specialize (Hv (k, v) Hin). simpl in Hv, Hc. apply negb_true_iff in Hv.
    assert (E : existsb (Z.eqb c) v = true)
      by (apply existsb_exists; exists c; split; [exact Hc | apply Z.eqb_refl]).
    rewrite E in Hv. discriminate.
Qed.

Lemma markers_mapped_away :
  forall m, In m indic_markers -> exists c, m = [c] /\ mapped_away c = true.
Proof.
  intros m Hm. unfold indic_markers in Hm. simpl in Hm.
  repeat (destruct Hm as [<-|Hm]; [eexists; split; [reflexivity|];
                                   vm_compute; reflexivity|]).
  destruct Hm.
Qed.

(** No marker is left by the substitution pass. *)
Lemma apply_replacements_not_indic text :
  is_indic (apply_replacements text) = false.
Proof.
  destruct (is_indic (apply_replacements text)) eqn:E; [|reflexivity].
  exfalso. unfold is_indic in E.
  apply existsb_exists in E as (m & Hm & Hin).
  destruct (markers_mapped_away m Hm) as (c & Hmc & Hc). subst m.
  apply str_in_single in Hin.
  exact (mapped_away_gone c text Hc Hin).
Qed.

Lemma repair_not_indic text : is_indic (repair text) = false.
Proof.
  unfold repair. destruct (is_indic text) eqn:E;
    [apply apply_replacements_not_indic | exact E].
Qed.

Lemma repair_twice text : repair (repair text) = repair text.
Proof.
  unfold repair at 1. now rewrite repair_not_indic.
Qed.

(** On a [str] the repair stage of the code is [repair]. *)
Lemma repair_stage_str s : repair_stage (Str s) = Return (Str (repair s)).
Proof.
  unfold repair_stage, repair. rewrite any_in_str. fold (is_indic s).
  cbn [bind]. destruct (is_indic s); [|reflexivity].
  rewrite replace_items_str. reflexivity.
Qed.

(** Replacing one character by another is a character-wise map. *)
Lemma replace_single_map k v text :
  replace text [k] [v] = map (fun x => if x =? k then v else x) text.
Proof.
  unfold replace. induction text as [|x s IH]; [reflexivity|].
  cbn [replace_from map]. rewrite starts_with_single.
  rewrite (Z.eqb_sym x k). destruct (k =? x); simpl; now rewrite IH.
Qed.

(** The table is its two three-character entries followed by the
    one-character ones. *)
Lemma replacements_split :
  replacements =
  (lit "(R)", [0x930]) :: (lit "+/-", [0x932])
    :: map (fun kv => ([fst kv], [snd kv])) single_entries.
Proof. reflexivity. Qed.

Let char_step (x : Z) (kv : Z * Z) : Z := if x =? fst kv then snd kv else x.

Lemma fold_single_map cs text :
  fold_left step (map (fun kv => ([fst kv], [snd kv])) cs) text
  = map (fun x => fold_left char_step cs x) text.
Proof.
  revert text. induction cs as [|[k v] cs IH]; intros text; simpl.
  - symmetry. apply map_id.
  - rewrite IH. unfold step. simpl fst. simpl snd.
    rewrite replace_single_map, map_map. reflexivity.
Qed.

Lemma fold_char_step_not_key cs x :
  (forall kv, In kv cs -> fst kv <> x) -> fold_left char_step cs x = x.
Proof.
  induction cs as [|[k v] cs IH]; intros H; simpl; [reflexivity|].
  unfold char_step at 2. simpl fst.
  destruct (x =? k) eqn:E.
  - apply Z.eqb_eq in E. exfalso. apply (H (k, v)); [now left | now symmetry].
  - apply IH. intros kv Hin. apply H. now right.
Qed.

(** Applied in sequence, the one-character entries act as one lookup,
    because no value of the table is a key of it. *)
Lemma fold_char_step_find cs x :
  (forall kv kv', In kv cs -> In kv' cs -> fst kv' <> snd kv) ->
  fold_left char_step cs x
  = match find (fun kv => fst kv =? x) cs with
    | Some kv => snd kv
    | None => x
    end.
Proof.
  induction cs as [|[k v] cs IH]; intros H; simpl; [reflexivity|].
  unfold char_step at 2. simpl fst. simpl snd. rewrite (Z.eqb_sym k x).
  destruct (x =? k) eqn:E.
  - apply fold_char_step_not_key. intros kv Hin.
    apply (H (k, v) kv); [now left | now right].
  - apply IH. intros kv kv' Hin Hin'. apply H; now right.
Qed.

Lemma single_entries_values_not_keys :
  forall kv kv', In kv single_entries -> In kv' single_entries ->
                 fst kv' <> snd kv.
Proof.
  assert (H : forallb (fun kv => forallb (fun kv' => negb (fst kv' =? snd kv))
                                         single_entries) single_entries = true)
    by (vm_compute; reflexivity).
  intros kv kv' Hin Hin'. rewrite forallb_forall in H.
  specialize (H kv Hin). cbv beta in H. rewrite forallb_forall in H.
  specialize (H kv' Hin'). cbv beta in H. apply negb_true_iff in H.
  apply Z.eqb_neq in H. exact H.
Qed.

Lemma find_map_single cs x :
  find (fun kv : str * str => str_eqb (fst kv) [x])
       (map (fun kv : Z * Z => ([fst kv], [snd kv])) cs)
  = option_map (fun kv : Z * Z => ([fst kv], [snd kv]))
               (find (fun kv => fst kv =? x) cs).
Proof.
  induction cs as [|[k v] cs IH]; simpl; [reflexivity|].
  rewrite andb_true_r. destruct (k =? x); [reflexivity | exact IH].
Qed.

Lemma table_char_find x :
  table_char x = match find (fun kv => fst kv =? x) single_entries with
                 | Some kv => snd kv
                 | None => x
                 end.
Proof.
  unfold table_char. rewrite replacements_split.
  cbn [find fst str_eqb lit map list_ascii_of_string].
  rewrite !andb_false_r. rewrite find_map_single.
  destruct (find (fun kv => fst kv =? x) single_entries) as [[k v]|];
    reflexivity.
Qed.

(** Where neither three-character key occurs, the substitution pass is
    the character-wise map of the table. *)
Lemma apply_replacements_map text :
  str_in (lit "(R)") text = false -> str_in (lit "+/-") text = false ->
  apply_replacements text = map table_char text.
Proof.
  intros H1 H2. unfold apply_replacements. rewrite replacements_split.
  cbn [fold_left fst snd].
  rewrite (replace_absent text (lit "(R)")); [|discriminate | exact H1].
  rewrite (replace_absent text (lit "+/-")); [|discriminate | exact H2].
  change (fold_left step (map (fun kv => ([fst kv], [snd kv])) single_entries)
                    text = map table_char text).
  rewrite fold_single_map. apply map_ext. intros x.
  rewrite table_char_find.
  apply fold_char_step_find, single_entries_values_not_keys.
Qed.

(** The keys of the table are Latin-1 characters: a Devanagari code point
    is none of them. *)
Lemma table_char_outside_latin1 c : 256 <= c -> table_char c = c.
Proof.
  intros Hc. rewrite table_char_find.
  destruct (find (fun kv => fst kv =? c) single_entries) as [[k v]|] eqn:F;
    [|reflexivity].
  exfalso. apply find_some in F as [Hin E]. simpl in E.
  apply Z.eqb_eq in E. subst k.
  assert (H : forallb (fun kv => fst kv <? 256) single_entries = true)
    by (vm_compute; reflexivity).
  rewrite forallb_forall in H. specialize (H (c, v) Hin). simpl in H.
  apply Z.ltb_lt in H. lia.
Qed.

End RepairFacts.

(** ** [decode_indic_text] *)

Section DecodeFacts.

Import App.

Variable isprintable : Z -> bool.
Variable chardet_detect : bytes -> detection.
Variable decode : string -> bytes -> result str.
Variable decode_replace : string -> bytes -> result str.

Let dec := decode_indic_text isprintable chardet_detect decode decode_replace.
Let chain := decode_chain isprintable chardet_detect decode.
Let iscii := iscii_attempt isprintable decode_replace.

(** On a [str] no step raises: the function returns what the ISCII
    attempt returned, if the repair was engaged and the attempt returned,
    and else what the chain makes of the bytes of the repaired text. *)
Lemma decode_indic_text_str s :
  dec (Str s) =
  Return (match (if is_indic s then snd (iscii (Str (repair s))) else None)
          with
          | Some decoded => decoded
          | None => chain (utf8_encode_ignore (repair s))
          end).
Proof.
  unfold dec, decode_indic_text. rewrite any_in_str.
  fold (is_indic s). unfold repair. cbn [bind].
  destruct (is_indic s) eqn:E.
  - rewrite replace_items_str. cbn [bind].
    fold (apply_replacements s). unfold iscii, iscii_attempt.
    cbn [to_bytes fst snd bind].
    destruct (attempt _); reflexivity.
  - cbn [bind fst snd to_bytes]. reflexivity.
Qed.

(** A [bytes] argument is refused by the marker test of line 864. *)
Lemma decode_indic_text_bytes b : dec (Bytes b) = Raise TypeError.
Proof. reflexivity. Qed.

(** One turn of the fallback loop. *)
Lemma attempt_rejected name text :
  rejected isprintable decode name text ->
  attempt (decoded <- decode name text ;; accept isprintable decoded) = None.
Proof.
  unfold rejected, low_ratio. intros H.
  destruct (decode name text) as [decoded|e]; [|reflexivity].
  specialize (H decoded eq_refl). cbn [bind]. unfold accept, printable_ratio_ok.
  destruct decoded as [|c s]; [reflexivity|]. cbn [bind].
  destruct (_ <? _) eqn:E; [|reflexivity].
  apply Z.ltb_lt in E. lia.
Qed.

Lemma attempt_accepted name text decoded :
  decode name text = Return decoded ->
  printable_ratio_ok isprintable decoded = Return true ->
  attempt (d <- decode name text ;; accept isprintable d) = Some decoded.
Proof.
  intros Hd Hr. rewrite Hd. cbn [bind]. unfold accept. rewrite Hr. reflexivity.
Qed.

Lemma try_encodings_cons name rest text :
  try_encodings isprintable decode (name :: rest) text
  = match attempt (decoded <- decode name text ;; accept isprintable decoded)
    with
    | Some decoded => Some decoded
    | None => try_encodings isprintable decode rest text
    end.
Proof. reflexivity. Qed.

Lemma try_encodings_skip name rest text :
  rejected isprintable decode name text ->
  try_encodings isprintable decode (name :: rest) text
  = try_encodings isprintable decode rest text.
Proof.
  intros H. rewrite try_encodings_cons.
  rewrite (attempt_rejected name text H). reflexivity.
Qed.

(** The loop returns the first candidate that decodes with a ratio above
    0.8. *)
Lemma try_encodings_first before name after text decoded :
  (forall B, In B before -> rejected isprintable decode B text) ->
  decode name text = Return decoded ->
  printable_ratio_ok isprintable decoded = Return true ->
  try_encodings isprintable decode (before ++ name :: after) text
  = Some decoded.
Proof.
  intros Hb Hd Hr. induction before as [|B before IH].
  - rewrite app_nil_l, try_encodings_cons.
    rewrite (attempt_accepted name text decoded Hd Hr). reflexivity.
  - rewrite <- app_comm_cons, try_encodings_skip; [|apply Hb; now left].
    apply IH. intros B' HB'. apply Hb. now right.
Qed.

Lemma try_encodings_none encodings text :
  (forall B, In B encodings -> rejected isprintable decode B text) ->
  try_encodings isprintable decode encodings text = None.
Proof.
  induction encodings as [|B rest IH]; intros H; [reflexivity|].
  rewrite try_encodings_skip; [|apply H; now left].
  apply IH. intros B' HB'. apply H. now right.
Qed.

Lemma is_indic_false text :
  (forall marker, In marker indic_markers -> str_in marker text = false) ->
  is_indic text = false.
Proof.
  intros H. unfold is_indic.
  destruct (existsb _ indic_markers) eqn:E; [|reflexivity].
  apply existsb_exists in E as (m & Hm & Hin). rewrite (H m Hm) in Hin.
  discriminate.
Qed.

(** *** The page loop *)

Variable isword : Z -> bool.

Let result_of :=
  page_result isprintable chardet_detect decode decode_replace isword.
Let loop :=
  page_loop isprintable chardet_detect decode decode_replace isword.

Let contribution (ip : nat * str) : str :=
  match snd ip with
  | [] => []
  | _ :: _ => marked_block (fst ip) (result_of (snd ip))
  end.

Lemma page_step_text i page_text acc :
  exists raw_text,
    page_step isprintable chardet_detect decode decode_replace isword
              i page_text acc
    = Return (fst acc ++ contribution (i, page_text), raw_text).
Proof.
  unfold page_step, contribution. cbn [fst snd].
  destruct page_text as [|c s].
  - exists (snd acc). rewrite app_nil_r. now destruct acc.
  - unfold result_of, page_result. fold dec.
    rewrite (decode_indic_text_str (c :: s)). cbn [bind].
    eexists. reflexivity.
Qed.

Lemma page_loop_text pages : forall i acc,
  exists raw_text,
    loop i pages acc
    = Return (fst acc
                ++ List.concat (map contribution
                               (combine (seq i (List.length pages)) pages)),
              raw_text).
Proof.
  induction pages as [|page_text rest IH]; intros i acc.
  - exists (snd acc). simpl. rewrite app_nil_r. now destruct acc.
  - unfold loop. cbn [page_loop].
    destruct (page_step_text i page_text acc) as [raw Hstep].
    rewrite Hstep. cbn [bind]. fold loop.
    destruct (IH (S i) (fst acc ++ contribution (i, page_text), raw))
      as [raw' Hloop].
    exists raw'. rewrite Hloop. cbn [fst List.length seq combine map List.concat].
    now rewrite <- app_assoc.
Qed.

End DecodeFacts.

(** ** [process_for_research] *)

Section ResearchFacts.

Import Whitepaper.EncodingDetector.

Variable decode_replace : string -> bytes -> result str.

Hypothesis only_exceptions :
  forall name text e, decode_replace name text = Raise e ->
                      is_Exception e = true.

Variable encodings : list (option string).

Let body (ic : nat * chunk) : str :=
  marked_block (fst ic)
    (chunk_body decode_replace (snd ic) (nth (fst ic - 1) encodings None)).

Lemma page_block_marked i text : page_block i text = marked_block (S i) text.
Proof.
  unfold page_block, marked_block, App.page_marker.
  rewrite Nat.add_1_r, <- !app_assoc. reflexivity.
Qed.

Lemma chunk_step_text i c acc :
  (i < List.length encodings)%nat ->
  exists encoding,
    chunk_step decode_replace encodings i c acc
    = Return (fst acc ++ body (S i, c), encoding).
Proof.
  intros Hi. unfold chunk_step, body, chunk_body. cbn [fst snd].
  replace (S i - 1)%nat with i by lia.
  destruct (nth_error encodings i) as [name|] eqn:E.
  - rewrite (nth_error_nth _ _ None E).
    destruct (decode_replace _ _) as [decoded_text|e] eqn:D.
    + eexists. rewrite page_block_marked. reflexivity.
    + rewrite (only_exceptions _ _ _ D). eexists.
      rewrite page_block_marked. reflexivity.
  - apply nth_error_None in E. lia.
Qed.

Lemma chunk_loop_text text_chunks : forall i acc,
  (i + List.length text_chunks <= List.length encodings)%nat ->
  exists encoding,
    chunk_loop decode_replace encodings i text_chunks acc
    = Return (fst acc
                ++ List.concat
                     (map body (combine (seq (S i) (List.length text_chunks))
                                        text_chunks)),
              encoding).
Proof.
  induction text_chunks as [|c rest IH]; intros i acc Hlen.
  - exists (snd acc). simpl. rewrite app_nil_r. now destruct acc.
  - cbn [List.length] in Hlen. cbn [chunk_loop].
    destruct (chunk_step_text i c acc) as [enc Hstep]; [lia|].
    rewrite Hstep. cbn [bind].
    destruct (IH (S i) (fst acc ++ body (S i, c), enc)) as [enc' Hloop];
      [lia|].
    exists enc'. rewrite Hloop.
    cbn [fst List.length seq combine map List.concat].
    now rewrite <- app_assoc.
Qed.

End ResearchFacts.

(** ** The decode chain and the repair stage *)

(** C1, as amended. For every [str], [decode_indic_text] returns a string
    and raises nothing, the empty string included (for which CPython's
    codecs and detector give the empty string); when the ISCII attempt
    and the detector return nothing and every candidate of the fallback
    list is rejected, the result is the UTF-8 decode, with replacement, of
    the UTF-8 bytes of the (repaired) text. *)
Theorem decode_indic_text_returns_on_str :
  forall isprintable chardet_detect decode decode_replace text,
    let dec :=
      App.decode_indic_text isprintable chardet_detect decode decode_replace in
    let encoded := utf8_encode_ignore (App.repair text) in
    (exists out, dec (Str text) = Return out) /\
    (exists out, dec (Str []) = Return out) /\
    Reference.decode_indic_text (Str []) = Return [] /\
    ((App.is_indic text = true ->
      snd (App.iscii_attempt isprintable decode_replace
                             (Str (App.repair text))) = None) ->
     App.try_chardet chardet_detect decode encoded = None ->
     (forall B, In B App.encodings_to_try ->
                rejected isprintable decode B encoded) ->
     dec (Str text) = Return (utf8_decode_replace encoded)).
Proof.
  intros isprintable chardet_detect decode decode_replace text dec encoded.
  unfold dec. split; [|split; [|split]].
  - rewrite decode_indic_text_str. eexists. reflexivity.
  - rewrite decode_indic_text_str. eexists. reflexivity.
  - vm_compute. reflexivity.
  - intros Hiscii Hdet Hrej. rewrite decode_indic_text_str.
    fold encoded. unfold App.decode_chain. rewrite Hdet.
    rewrite (try_encodings_none _ _ _ _ Hrej).
    destruct (App.is_indic text); [rewrite Hiscii|]; reflexivity.
Qed.

Lemma decode_indic_text_returns_on_str_witness :
  (App.is_indic [0] = true ->
   snd (App.iscii_attempt Reference.isprintable Reference.decode_replace
                          (Str (App.repair [0]))) = None) /\
  App.try_chardet Reference.chardet_detect Reference.decode
                  (utf8_encode_ignore (App.repair [0])) = None /\
  (forall B, In B App.encodings_to_try ->
             rejected Reference.isprintable Reference.decode B
                      (utf8_encode_ignore (App.repair [0]))) /\
  Reference.decode_indic_text (Str [0])
  = Return (utf8_decode_replace (utf8_encode_ignore (App.repair [0]))).
Proof.
  assert (H1 : App.is_indic [0] = true ->
               snd (App.iscii_attempt Reference.isprintable
                      Reference.decode_replace (Str (App.repair [0]))) = None)
    by (intros _; vm_compute; reflexivity).
  assert (H2 : App.try_chardet Reference.chardet_detect Reference.decode
                 (utf8_encode_ignore (App.repair [0])) = None)
    by (vm_compute; reflexivity).
  assert (H3 : forall B, In B App.encodings_to_try ->
                 rejected Reference.isprintable Reference.decode B
                          (utf8_encode_ignore (App.repair [0]))).
  { intros B HB decoded Hd. unfold App.encodings_to_try in HB. simpl in HB.
    repeat (destruct HB as [<-|HB];
            [vm_compute in Hd; try discriminate Hd;
             injection Hd as <-; vm_compute; discriminate|]).
    destruct HB. }
  refine (conj H1 (conj H2 (conj H3 _))).
  exact (proj2 (proj2 (proj2 (decode_indic_text_returns_on_str
                  Reference.isprintable Reference.chardet_detect
                  Reference.decode Reference.decode_replace [0]))) H1 H2 H3).
Defined.

(** C1, as stated, fails on a byte sequence: the marker test of line 864
    looks for a [str] in the argument, which a [bytes] object refuses with
    [TypeError], whatever its length. *)
Lemma decode_indic_text_raises_on_bytes :
  Reference.decode_indic_text (Bytes []) = Raise TypeError /\
  Reference.decode_indic_text (Bytes (lit "Hello World")) = Raise TypeError /\
  ~ (forall text, exists out, Reference.decode_indic_text text = Return out).
Proof.
  split; [reflexivity|]. split; [reflexivity|].
  intros H. destruct (H (Bytes [])) as [out Hout]. discriminate Hout.
Qed.

(** C3. A text that holds none of the marker characters leaves the repair
    stage as it came, and the chain then works on the bytes of the text
    itself: the table is applied under the marker test only. *)
Theorem repair_identity_without_markers :
  forall text,
    (forall marker, In marker App.indic_markers ->
                    str_in marker text = false) ->
    App.repair text = text /\
    forall isprintable chardet_detect decode decode_replace,
      App.decode_indic_text isprintable chardet_detect decode decode_replace
                            (Str text)
      = Return (App.decode_chain isprintable chardet_detect decode
                                 (utf8_encode_ignore text)).
Proof.
  intros text H. apply is_indic_false in H.
  assert (Hr : App.repair text = text) by (unfold App.repair; now rewrite H).
  split; [exact Hr|]. intros. rewrite decode_indic_text_str.
  now rewrite H, Hr.
Qed.

Lemma repair_identity_without_markers_witness :
  (forall marker, In marker App.indic_markers ->
                  str_in marker (lit "Page (R) +/- 1" ++ [0xE9]) = false) /\
  App.repair (lit "Page (R) +/- 1" ++ [0xE9]) = lit "Page (R) +/- 1" ++ [0xE9].
Proof.
  assert (H : forall marker, In marker App.indic_markers ->
                str_in marker (lit "Page (R) +/- 1" ++ [0xE9]) = false).
  { intros marker Hm. unfold App.indic_markers in Hm. simpl in Hm.
    repeat (destruct Hm as [<-|Hm]; [vm_compute; reflexivity|]).
    destruct Hm. }
  split; [exact H|].
  exact (proj1 (repair_identity_without_markers _ H)).
Defined.




Lemma ratio_ok_of_not_low isprintable decoded :
  ~ low_ratio isprintable decoded ->
  printable_ratio_ok isprintable decoded = Return true.
Proof.
  unfold low_ratio, printable_ratio_ok. intros H.
  destruct decoded as [|c s]; [exfalso; apply H; simpl; lia|].
  f_equal. apply Z.ltb_lt. lia.
Qed.

Lemma has_ratio_low isprintable decoded :
  has_ratio isprintable decoded 3 10 -> low_ratio isprintable decoded.
Proof.
  unfold has_ratio, low_ratio. intros [_ H]. lia.
Qed.

Lemma has_ratio_high isprintable decoded :
  has_ratio isprintable decoded 9 10 -> ~ low_ratio isprintable decoded.
Proof.
  unfold has_ratio, low_ratio. intros [Hne H] Hlow.
  destruct decoded as [|c s]; [congruence|]. cbn [List.length] in *. lia.
Qed.

(** C5, as amended. In the fallback list a candidate whose decode raises
    or has a printable ratio not greater than 0.8 is passed over, and the
    function returns the result of the first candidate whose ratio is
    greater: with B of ratio 0.3 among the rejected candidates before A of
    ratio 0.9, it returns A's result. This holds when the list is reached.
    Before it, the guess of the detector, taken when its confidence exceeds
    0.8, is returned as soon as it decodes, with no test of its ratio. *)
Theorem fallback_returns_first_accepted :
  forall isprintable chardet_detect decode decode_replace text,
    let dec :=
      App.decode_indic_text isprintable chardet_detect decode decode_replace in
    let encoded := utf8_encode_ignore (App.repair text) in
    (App.is_indic text = true ->
     snd (App.iscii_attempt isprintable decode_replace
                            (Str (App.repair text))) = None) ->
    (forall B rest,
       rejected isprintable decode B encoded ->
       App.try_encodings isprintable decode (B :: rest) encoded
       = App.try_encodings isprintable decode rest encoded) /\
    (forall before A after decoded_A,
       App.try_chardet chardet_detect decode encoded = None ->
       App.encodings_to_try = before ++ A :: after ->
       (forall B, In B before -> rejected isprintable decode B encoded) ->
       decode A encoded = Return decoded_A ->
       ~ low_ratio isprintable decoded_A ->
       dec (Str text) = Return decoded_A) /\
    (forall name guessed,
       App.confident (chardet_detect encoded) = true ->
       App.encoding (chardet_detect encoded) = Some name ->
       decode name encoded = Return guessed ->
       dec (Str text) = Return guessed).
Proof.
  intros isprintable chardet_detect decode decode_replace text dec encoded
         Hiscii.
  assert (Hdec : dec (Str text)
                 = Return (App.decode_chain isprintable chardet_detect decode
                                            encoded)).
  { unfold dec. rewrite decode_indic_text_str. fold encoded.
    destruct (App.is_indic text); [rewrite Hiscii|]; reflexivity. }
  split; [|split].
  - intros B rest HB. now apply try_encodings_skip.
  - intros before A after decoded_A Hdet Hlist Hbefore HA Hhigh.
    rewrite Hdec. unfold App.decode_chain. rewrite Hdet, Hlist.
    rewrite (try_encodings_first isprintable decode before A after encoded
               decoded_A Hbefore HA (ratio_ok_of_not_low _ _ Hhigh)).
    reflexivity.
  - intros name guessed Hconf Hname Hguess.
    rewrite Hdec. unfold App.decode_chain, App.try_chardet.
    rewrite Hconf, Hname, Hguess. reflexivity.
Qed.

Lemma fallback_returns_first_accepted_witness :
  let encoded := utf8_encode_ignore (App.repair escaped_sample) in
  let decoded_A := [0xD0D; 0x11B] ++ repeat 0x101 5%nat ++ repeat 0x6161 3%nat in
  (App.is_indic escaped_sample = true ->
   snd (App.iscii_attempt Reference.isprintable Reference.decode_replace
                          (Str (App.repair escaped_sample))) = None) /\
  App.try_chardet Reference.chardet_detect Reference.decode encoded = None /\
  App.encodings_to_try
  = ["utf-8"%string] ++ "utf-16"%string :: skipn 2 App.encodings_to_try /\
  Reference.decode "utf-8" encoded = Return escaped_sample /\
  has_ratio Reference.isprintable escaped_sample 3 10 /\
  (forall B, In B ["utf-8"%string] ->
             rejected Reference.isprintable Reference.decode B encoded) /\
  Reference.decode "utf-16" encoded = Return decoded_A /\
  has_ratio Reference.isprintable decoded_A 9 10 /\
  ~ low_ratio Reference.isprintable decoded_A /\
  Reference.decode_indic_text (Str escaped_sample) = Return decoded_A.
Proof.
  intros encoded decoded_A.
  assert (H1 : App.is_indic escaped_sample = true ->
               snd (App.iscii_attempt Reference.isprintable
                      Reference.decode_replace
                      (Str (App.repair escaped_sample))) = None)
    by (intros _; vm_compute; reflexivity).
  assert (H2 : App.try_chardet Reference.chardet_detect Reference.decode
                               encoded = None) by (vm_compute; reflexivity).
  assert (H3 : App.encodings_to_try
               = ["utf-8"%string] ++ "utf-16"%string
                   :: skipn 2 App.encodings_to_try) by reflexivity.
  assert (H4 : Reference.decode "utf-8" encoded = Return escaped_sample)
    by (vm_compute; reflexivity).
  assert (H5 : has_ratio Reference.isprintable escaped_sample 3 10)
    by (split; [discriminate | vm_compute; reflexivity]).
  assert (H6 : forall B, In B ["utf-8"%string] ->
                 rejected Reference.isprintable Reference.decode B encoded).
  { intros B [<-|[]] decoded Hd. rewrite H4 in Hd. injection Hd as <-.
    exact (has_ratio_low _ _ H5). }
  assert (H7 : Reference.decode "utf-16" encoded = Return decoded_A)
    by (vm_compute; reflexivity).
  assert (H8 : has_ratio Reference.isprintable decoded_A 9 10)
    by (split; [discriminate | vm_compute; reflexivity]).
  assert (H9 : ~ low_ratio Reference.isprintable decoded_A)
    by exact (has_ratio_high _ _ H8).
  refine (conj H1 (conj H2 (conj H3 (conj H4 (conj H5 (conj H6 (conj H7
            (conj H8 (conj H9 _))))))))).
  exact (proj1 (proj2 (fallback_returns_first_accepted
                  Reference.isprintable Reference.chardet_detect
                  Reference.decode Reference.decode_replace escaped_sample H1))
           ["utf-8"%string] "utf-16"%string (skipn 2 App.encodings_to_try)
           decoded_A H2 H3 H6 H7 H9).
Defined.

(** C5, as stated, fails: the bytes of [plain_sample] decode under UTF-8,
    the first fallback encoding, with ratio 0.3 and under UTF-16, a later
    one, with ratio 0.9, and the function returns the first text: the
    detector reports ASCII with confidence 1.0, and its decode is returned
    before the fallback list is looked at. *)
Lemma detector_guess_returned_despite_low_ratio :
  let encoded := utf8_encode_ignore plain_sample in
  let decoded_A := [0xD0D] ++ repeat 0x101 6%nat ++ repeat 0x6161 3%nat in
  App.encodings_to_try
  = ["utf-8"%string] ++ "utf-16"%string :: skipn 2 App.encodings_to_try /\
  Reference.decode "utf-8" encoded = Return plain_sample /\
  has_ratio Reference.isprintable plain_sample 3 10 /\
  Reference.decode "utf-16" encoded = Return decoded_A /\
  has_ratio Reference.isprintable decoded_A 9 10 /\
  Reference.decode_indic_text (Str plain_sample) = Return plain_sample /\
  Reference.decode_indic_text (Str plain_sample) <> Return decoded_A.
Proof.
  intros encoded decoded_A.
  split; [reflexivity|]. split; [vm_compute; reflexivity|].
  split; [split; [discriminate | vm_compute; reflexivity]|].
  split; [vm_compute; reflexivity|].
  split; [split; [discriminate | vm_compute; reflexivity]|].
  split; [vm_compute; reflexivity|].
  vm_compute. discriminate.
Qed.

(** ** The page loops *)

Lemma decode_table_error char replace_errors text e :
  Reference.decode_table char replace_errors text = Raise e ->
  e = UnicodeDecodeError.
Proof.
  induction text as [|b rest IH]; simpl; [discriminate|].
  destruct (char b); [|destruct replace_errors].
  - destruct (Reference.decode_table char replace_errors rest);
      [discriminate | intros H; injection H as <-; auto].
  - destruct (Reference.decode_table char true rest);
      [discriminate | intros H; injection H as <-; auto].
  - intros H. injection H as <-. reflexivity.
Qed.

Lemma reference_decode_replace_exceptions name text e :
  Reference.decode_replace name text = Raise e -> is_Exception e = true.
Proof.
  unfold Reference.decode_replace.
  repeat match goal with
         | |- (if ?b then _ else _) = _ -> _ => destruct b
         end;
    try discriminate;
    try (intros H; apply decode_table_error in H; subst e; reflexivity).
  intros H. injection H as <-. reflexivity.
Qed.

(** C8, as amended. The processed text is built page after page, in the
    order of the input, each page adding a block that depends on nothing
    but its own text and its position [n], counted from one: the line
    [=== Page n ===], then the processed text of the page. In
    [research_converter_page] a page whose extracted text is empty adds
    nothing, and no marker, while it still counts in the numbering. In
    [process_for_research] every chunk adds its block. *)
Theorem pages_marked_in_input_order :
  (forall isprintable chardet_detect decode decode_replace isword pages,
     exists raw_text,
       App.process_pages isprintable chardet_detect decode decode_replace
                         isword pages
       = Return
           (List.concat
              (map (fun ip =>
                      match snd ip with
                      | [] => []
                      | _ :: _ =>
                          marked_block (fst ip)
                            (page_result isprintable chardet_detect decode
                                         decode_replace isword (snd ip))
                      end) (numbered pages)),
            raw_text)) /\
  (forall decode_replace text_chunks encodings,
     (forall name text e, decode_replace name text = Raise e ->
                          is_Exception e = true) ->
     (List.length text_chunks <= List.length encodings)%nat ->
     Whitepaper.EncodingDetector.process_for_research decode_replace
       text_chunks encodings
     = Return
         (List.concat
            (map (fun ic =>
                    marked_block (fst ic)
                      (chunk_body decode_replace (snd ic)
                                  (nth (fst ic - 1) encodings None)))
                 (numbered text_chunks)))).
Proof.
  split.
  - intros. unfold App.process_pages, numbered.
    destruct (page_loop_text isprintable chardet_detect decode decode_replace
                             isword pages 1%nat ([], [])) as [raw H].
    exists raw. exact H.
  - intros decode_replace text_chunks encodings Hexc Hlen.
    unfold Whitepaper.EncodingDetector.process_for_research, numbered.
    destruct (chunk_loop_text decode_replace Hexc encodings text_chunks
                              0%nat ([], None)) as [enc H]; [exact Hlen|].
    rewrite H. reflexivity.
Qed.

Lemma pages_marked_in_input_order_witness :
  (forall name text e, Reference.decode_replace name text = Raise e ->
                       is_Exception e = true) /\
  (List.length [chunk_of (lit "one"); chunk_of (lit "two")]
   <= List.length [Some "ascii"%string; None])%nat /\
  Whitepaper.EncodingDetector.process_for_research Reference.decode_replace
    [chunk_of (lit "one"); chunk_of (lit "two")] [Some "ascii"%string; None]
  = Return (marked_block 1 (lit "one") ++ marked_block 2 (lit "two")).
Proof.
  assert (Hlen : (List.length [chunk_of (lit "one"); chunk_of (lit "two")]
                  <= List.length [Some "ascii"%string; None])%nat)
    by (simpl; lia).
  refine (conj reference_decode_replace_exceptions (conj Hlen _)).
  rewrite (proj2 pages_marked_in_input_order Reference.decode_replace
                 [chunk_of (lit "one"); chunk_of (lit "two")]
                 [Some "ascii"%string; None]
                 reference_decode_replace_exceptions Hlen).
  vm_compute. reflexivity.
Defined.

(** C8, as stated, fails in [research_converter_page]: of three pages the
    second of which has no text, the first and the third are written,
    under the markers of pages 1 and 3, and nothing stands for page 2. *)
Lemma empty_page_has_no_marker :
  let pages := [lit "a"; []; lit "b"] in
  exists raw_text,
    Reference.process_pages pages
    = Return (marked_block 1 (lit "a") ++ marked_block 3 (lit "b"), raw_text)
    /\ str_in (App.page_marker 2)
              (marked_block 1 (lit "a") ++ marked_block 3 (lit "b")) = false
    /\ marked_block 1 (lit "a") ++ marked_block 3 (lit "b")
       <> List.concat
            (map (fun ip =>
                    marked_block (fst ip)
                      (page_result Reference.isprintable
                         Reference.chardet_detect Reference.decode
                         Reference.decode_replace Reference.isword (snd ip)))
                 (numbered pages)).
Proof.
  intros pages. eexists. split; [vm_compute; reflexivity|].
  split; [vm_compute; reflexivity|]. vm_compute. discriminate.
Qed.

(** ** [translate_to_english] *)

(** C9. When the call of the model, or the reading of its reply, raises
    an error derived from [Exception], the function prints the error and
    returns the text it was given, unchanged; such a failure never leaves
    the function as an exception. *)
Theorem translate_to_english_returns_text_on_failure :
  forall text m,
    let failure e :=
      App.generate_content m (App.translation_prompt text) = Raise e \/
      exists response,
        App.generate_content m (App.translation_prompt text) = Return response
        /\ App.response_text response = Raise e in
    (forall e, failure e -> is_Exception e = true ->
               App.translate_to_english text m
               = ([lit "Translation error: " ++ exn_str e], Return text)) /\
    ((forall e, failure e -> is_Exception e = true) ->
     exists out, snd (App.translate_to_english text m) = Return out).
Proof.
  intros text m failure. unfold App.translate_to_english. split.
  - intros e [H|(response & H & Hr)] He; rewrite H; cbn [bind];
      [|rewrite Hr]; rewrite He; reflexivity.
  - intros Hall.
    destruct (App.generate_content m (App.translation_prompt text))
      as [response|e] eqn:H; cbn [bind].
    + destruct (App.response_text response) as [translated|e] eqn:Hr.
      * eexists. reflexivity.
      * rewrite (Hall e); [eexists; reflexivity|].
        right. exists response. split; [reflexivity | exact Hr].
    + rewrite (Hall e); [eexists; reflexivity | now left].
Qed.

Lemma translate_to_english_returns_text_on_failure_witness :
  (App.generate_content failing_model (App.translation_prompt (lit "namaste"))
   = Raise (External true (lit "503 service unavailable"))) /\
  is_Exception (External true (lit "503 service unavailable")) = true /\
  App.translate_to_english (lit "namaste") failing_model
  = ([lit "Translation error: 503 service unavailable"],
     Return (lit "namaste")).
Proof.
  assert (H : App.generate_content failing_model
                (App.translation_prompt (lit "namaste"))
              = Raise (External true (lit "503 service unavailable")))
    by reflexivity.
  refine (conj H (conj eq_refl _)).
  exact (proj1 (translate_to_english_returns_text_on_failure
                  (lit "namaste") failing_model)
               (External true (lit "503 service unavailable"))
               (or_introl H) eq_refl).
Defined.

(** ** [ContentExporters.clean_text] of whitepaper/exporters.py *)

Section SanitizerFacts.

Import Whitepaper.ContentExporters.

Variable chardet_detect : bytes -> App.detection.
Variable decode_replace : string -> bytes -> result str.

Let clean := clean_text chardet_detect decode_replace.

(** The two lines after the decode of a [bytes] argument. *)
Let downgrade (text : str) : str :=
  filter (fun char => char <? 256)
         (fold_left (fun text kv => replace text (fst kv) (snd kv))
                    replacements text).

Lemma clean_text_str s : clean (Str s) = Return (downgrade s).
Proof. reflexivity. Qed.

Lemma clean_text_bytes b :
  clean (Bytes b)
  = (text <- decode_replace
               (Whitepaper.or_utf8 (App.encoding (chardet_detect b))) b ;;
     Return (downgrade text)).
Proof. reflexivity. Qed.

Lemma downgrade_latin1 text : Forall (fun c => c < 256) (downgrade text).
Proof.
  apply Forall_forall. intros c Hc. unfold downgrade in Hc.
  apply filter_In in Hc as [_ Hc]. apply Z.ltb_lt in Hc. exact Hc.
Qed.

Lemma clean_text_latin1 text out :
  clean text = Return out -> Forall (fun c => c < 256) out.
Proof.
  destruct text as [s|b].
  - rewrite clean_text_str. intros H. injection H as <-.
    apply downgrade_latin1.
  - rewrite clean_text_bytes.
    destruct (decode_replace _ b) as [text|e]; cbn [bind]; [|discriminate].
    intros H. injection H as <-. apply downgrade_latin1.
Qed.

Lemma replacements_values_ascii :
  Forall (fun kv : str * str => Forall (fun c => 0 <= c < 128) (snd kv))
         replacements.
Proof.
  apply Forall_forall. intros [k v] Hkv. apply Forall_forall. intros c Hc.
  assert (H : forallb (fun kv : str * str =>
                         forallb (fun c => (0 <=? c) && (c <? 128)) (snd kv))
                      replacements = true)
    by (vm_compute; reflexivity).
  rewrite forallb_forall in H. specialize (H (k, v) Hkv). cbn [snd] in H, Hc.
  rewrite forallb_forall in H. specialize (H c Hc). cbv beta in H.
  apply andb_true_iff in H as [H1 H2].
  apply Z.leb_le in H1. apply Z.ltb_lt in H2. lia.
Qed.

End SanitizerFacts.

(** C4. Whatever [clean_text] returns holds no character of code point
    256 or more: the values of its table are ASCII, and the last line
    keeps the characters below 256 only. On a [str] it always returns. *)
Theorem clean_text_output_is_latin1 :
  forall chardet_detect decode_replace,
    let clean :=
      Whitepaper.ContentExporters.clean_text chardet_detect decode_replace in
    (forall text out, clean text = Return out ->
                      Forall (fun c => c < 256) out) /\
    (forall s, exists out, clean (Str s) = Return out) /\
    Forall (fun kv => Forall (fun c => 0 <= c < 128) (snd kv))
           Whitepaper.ContentExporters.replacements /\
    clean (Str (lit "caf" ++ [0xE9])) = Return (lit "caf" ++ [0xE9]) /\
    clean (Str (lit "5 " ++ [0x20AC; 0x2014; 0x93E; 0x3A9]))
    = Return (lit "5 EUR--Ohm").
Proof.
  intros chardet_detect decode_replace clean.
  split; [exact (clean_text_latin1 chardet_detect decode_replace)|].
  split; [intros s; eexists; apply clean_text_str|].
  split; [exact replacements_values_ascii|].
  unfold clean. rewrite !clean_text_str.
  split; f_equal; vm_compute; reflexivity.
Qed.

Lemma clean_text_output_is_latin1_witness :
  Whitepaper.ContentExporters.clean_text Reference.chardet_detect
    Reference.decode_replace (Bytes (lit "Caf" ++ [0xC3; 0xA9; 0xE2; 0x82; 0xAC]))
  = Return (lit "Caf" ++ [0xE9] ++ lit "EUR") /\
  Forall (fun c => c < 256) (lit "Caf" ++ [0xE9] ++ lit "EUR").
Proof.
  assert (H : Whitepaper.ContentExporters.clean_text Reference.chardet_detect
                Reference.decode_replace
                (Bytes (lit "Caf" ++ [0xC3; 0xA9; 0xE2; 0x82; 0xAC]))
              = Return (lit "Caf" ++ [0xE9] ++ lit "EUR"))
    by (vm_compute; reflexivity).
  split; [exact H|].
  exact (proj1 (clean_text_output_is_latin1 Reference.chardet_detect
                  Reference.decode_replace) _ _ H).
Defined.

(** * Further properties of the code *)

(** ** The UTF-8 round trip of [decode_indic_text] *)

Section Utf8Facts.

Lemma utf8_scan_char c rest :
  code_point c -> surrogate c = false ->
  utf8_scan (utf8_encode_char c ++ rest) = Some c :: utf8_scan rest.
Proof.
  unfold code_point, surrogate, utf8_encode_char. intros Hc Hs.
  destruct (c <? 0x80) eqn:E1.
  - cbv iota. cbn [List.app utf8_scan]. rewrite E1. reflexivity.
  - apply Z.ltb_ge in E1. destruct (c <? 0x800) eqn:E2.
    + apply Z.ltb_lt in E2. cbv iota. cbn [List.app utf8_scan].
      assert (H0 : (0xC0 + c / 64 <? 0x80) = false)
        by (apply Z.ltb_ge; Z.div_mod_to_equations; lia).
      assert (H1 : (0xC2 <=? 0xC0 + c / 64) && (0xC0 + c / 64 <=? 0xDF) = true)
        by (apply andb_true_iff; split; apply Z.leb_le;
            Z.div_mod_to_equations; lia).
      assert (H2 : continuation (0x80 + c mod 64) = true)
        by (unfold continuation; apply andb_true_iff; split; apply Z.leb_le;
            Z.div_mod_to_equations; lia).
      rewrite H0, H1, H2. do 2 f_equal. Z.div_mod_to_equations. lia.
    + apply Z.ltb_ge in E2. rewrite Hs.
      destruct (c <? 0x10000) eqn:E3.
      * apply Z.ltb_lt in E3. cbv iota. cbn [List.app utf8_scan].
        apply andb_false_iff in Hs.
        assert (Hs' : c < 0xD800 \/ 0xDFFF < c)
          by (destruct Hs as [Hs|Hs]; [apply Z.leb_gt in Hs | apply Z.leb_gt in Hs];
              lia).
        assert (H0 : (0xE0 + c / 4096 <? 0x80) = false)
          by (apply Z.ltb_ge; Z.div_mod_to_equations; lia).
        assert (H1 : (0xC2 <=? 0xE0 + c / 4096) && (0xE0 + c / 4096 <=? 0xDF)
                     = false)
          by (apply andb_false_iff; right; apply Z.leb_gt;
              Z.div_mod_to_equations; lia).
        assert (H2 : (0xE0 <=? 0xE0 + c / 4096) && (0xE0 + c / 4096 <=? 0xEF)
                     = true)
          by (apply andb_true_iff; split; apply Z.leb_le;
              Z.div_mod_to_equations; lia).
        assert (H3 : second_ok (0xE0 + c / 4096) (0x80 + (c / 64) mod 64)
                     = true).
        { unfold second_ok, continuation.
          repeat (apply andb_true_iff; split);
            try (apply Z.leb_le; Z.div_mod_to_equations; lia);
            apply negb_true_iff; apply andb_false_iff.
          - destruct (Z.eq_dec (c / 4096) 0) as [Q|Q];
              [right; apply Z.ltb_ge | left; apply Z.eqb_neq];
              Z.div_mod_to_equations; lia.
          - destruct (Z.eq_dec (c / 4096) 13) as [Q|Q];
              [right; apply Z.leb_gt | left; apply Z.eqb_neq];
              Z.div_mod_to_equations; lia.
          - left. apply Z.eqb_neq. Z.div_mod_to_equations. lia.
          - left. apply Z.eqb_neq. Z.div_mod_to_equations. lia. }
        assert (H4 : continuation (0x80 + c mod 64) = true)
          by (unfold continuation; apply andb_true_iff; split; apply Z.leb_le;
              Z.div_mod_to_equations; lia).
        rewrite H0, H1, H2, H3, H4. do 2 f_equal.
        Z.div_mod_to_equations. lia.
      * apply Z.ltb_ge in E3. cbv iota. cbn [List.app utf8_scan].
        assert (H0 : (0xF0 + c / 262144 <? 0x80) = false)
          by (apply Z.ltb_ge; Z.div_mod_to_equations; lia).
        assert (H1 : (0xC2 <=? 0xF0 + c / 262144)
                     && (0xF0 + c / 262144 <=? 0xDF) = false)
          by (apply andb_false_iff; right; apply Z.leb_gt;
              Z.div_mod_to_equations; lia).
        assert (H2 : (0xE0 <=? 0xF0 + c / 262144)
                     && (0xF0 + c / 262144 <=? 0xEF) = false)
          by (apply andb_false_iff; right; apply Z.leb_gt;
              Z.div_mod_to_equations; lia).
        assert (H3 : (0xF0 <=? 0xF0 + c / 262144)
                     && (0xF0 + c / 262144 <=? 0xF4) = true)
          by (apply andb_true_iff; split; apply Z.leb_le;
              Z.div_mod_to_equations; lia).
        assert (H4 : second_ok (0xF0 + c / 262144) (0x80 + (c / 4096) mod 64)
                     = true).
        { unfold second_ok, continuation.
          repeat (apply andb_true_iff; split);
            try (apply Z.leb_le; Z.div_mod_to_equations; lia);
            apply negb_true_iff; apply andb_false_iff.
          - left. apply Z.eqb_neq. Z.div_mod_to_equations. lia.
          - left. apply Z.eqb_neq. Z.div_mod_to_equations. lia.
          - destruct (Z.eq_dec (c / 262144) 0) as [Q|Q];
              [right; apply Z.ltb_ge | left; apply Z.eqb_neq];
              Z.div_mod_to_equations; lia.
          - destruct (Z.eq_dec (c / 262144) 4) as [Q|Q];
              [right; apply Z.leb_gt | left; apply Z.eqb_neq];
              Z.div_mod_to_equations; lia. }
        assert (H5 : continuation (0x80 + (c / 64) mod 64) = true)
          by (unfold continuation; apply andb_true_iff; split; apply Z.leb_le;
              Z.div_mod_to_equations; lia).
        assert (H6 : continuation (0x80 + c mod 64) = true)
          by (unfold continuation; apply andb_true_iff; split; apply Z.leb_le;
              Z.div_mod_to_equations; lia).
        rewrite H0, H1, H2, H3, H4, H5, H6. do 2 f_equal.
        Z.div_mod_to_equations. lia.
Qed.

Lemma utf8_encode_surrogate c : surrogate c = true -> utf8_encode_char c = [].
Proof.
  unfold surrogate, utf8_encode_char. intros H. rewrite H.
  apply andb_true_iff in H as [H1 H2]. apply Z.leb_le in H1.
  assert (E1 : (c <? 0x80) = false) by (apply Z.ltb_ge; lia).
  assert (E2 : (c <? 0x800) = false) by (apply Z.ltb_ge; lia).
  now rewrite E1, E2.
Qed.

Lemma utf8_scan_encode s :
  Forall code_point s ->
  utf8_scan (utf8_encode_ignore s)
  = map Some (filter (fun c => negb (surrogate c)) s).
Proof.
  induction 1 as [|c s Hc _ IH]; [reflexivity|].
  unfold utf8_encode_ignore in *. cbn [flat_map filter].
  destruct (surrogate c) eqn:E; cbn [negb].
  - rewrite (utf8_encode_surrogate c E). exact IH.
  - rewrite (utf8_scan_char c _ Hc E), IH. reflexivity.
Qed.

(** Encoded as the code encodes, and decoded again, a text comes back
    without its surrogates, and no byte of it is ill-formed. *)
Lemma utf8_round_trip s :
  Forall code_point s ->
  utf8_decode_replace (utf8_encode_ignore s)
  = filter (fun c => negb (surrogate c)) s /\
  utf8_decode (utf8_encode_ignore s)
  = Return (filter (fun c => negb (surrogate c)) s).
Proof.
  intros H.
  assert (E : utf8_decode_replace (utf8_encode_ignore s)
              = filter (fun c => negb (surrogate c)) s).
  { unfold utf8_decode_replace. rewrite (utf8_scan_encode s H), map_map.
    apply map_id. }
  split; [exact E|]. unfold utf8_decode. rewrite E.
  rewrite (utf8_scan_encode s H).
  assert (F : forall l : list Z,
            forallb (fun item : option Z =>
                       match item with Some _ => true | None => false end)
                    (map Some l) = true)
    by (induction l as [|x l IHl]; [reflexivity | exact IHl]).
  rewrite F. reflexivity.
Qed.

Lemma apply_replacements_code_points text :
  Forall code_point text -> Forall code_point (App.apply_replacements text).
Proof.
  assert (Hv : forall kv, In kv App.replacements ->
                          Forall code_point (snd kv)).
  { intros kv Hkv. apply Forall_forall. intros c Hc.
    assert (H : forallb (fun kv : str * str =>
                           forallb (fun c => (0 <=? c) && (c <=? 0x10FFFF))
                                   (snd kv)) App.replacements = true)
      by (vm_compute; reflexivity).
    rewrite forallb_forall in H. specialize (H kv Hkv). cbv beta in H.
    rewrite forallb_forall in H. specialize (H c Hc). cbv beta in H.
    apply andb_true_iff in H as [H1 H2].
    apply Z.leb_le in H1. apply Z.leb_le in H2. split; assumption. }
  unfold App.apply_replacements. revert text.
  induction App.replacements as [|kv rest IH]; intros text Ht; [exact Ht|].
  cbn [fold_left]. apply IH.
  - intros kv' Hkv'. apply Hv. now right.
  - apply replace_Forall; [exact Ht | apply Hv; now left].
Qed.

Lemma repair_code_points text :
  Forall code_point text -> Forall code_point (App.repair text).
Proof.
  intros H. unfold App.repair.
  destruct (App.is_indic text);
    [now apply apply_replacements_code_points | exact H].
Qed.

End Utf8Facts.

(** X1. The last resort of [decode_indic_text] loses nothing: the bytes
    it decodes with replacement are the UTF-8 encoding made at line 875 or
    901, so when the ISCII attempt, the detector and every candidate of
    the list return nothing, the function returns the repaired text itself,
    without the surrogates the encoding dropped, and writes no U+FFFD. *)
Theorem last_resort_returns_repaired_text :
  forall isprintable chardet_detect decode decode_replace text,
    let encoded := utf8_encode_ignore (App.repair text) in
    Forall code_point text ->
    (App.is_indic text = true ->
     snd (App.iscii_attempt isprintable decode_replace
                            (Str (App.repair text))) = None) ->
    App.try_chardet chardet_detect decode encoded = None ->
    (forall B, In B App.encodings_to_try ->
               rejected isprintable decode B encoded) ->
    App.decode_indic_text isprintable chardet_detect decode decode_replace
                          (Str text)
    = Return (filter (fun c => negb (surrogate c)) (App.repair text)).
Proof.
  intros isprintable chardet_detect decode decode_replace text encoded
         Hcp Hiscii Hdet Hrej.
  rewrite decode_indic_text_str. fold encoded. unfold App.decode_chain.
  rewrite Hdet, (try_encodings_none _ _ _ _ Hrej).
  unfold encoded.
  rewrite (proj1 (utf8_round_trip _ (repair_code_points text Hcp))).
  destruct (App.is_indic text); [rewrite Hiscii|]; reflexivity.
Qed.

Lemma last_resort_returns_repaired_text_witness :
  Forall code_point [0x1B; 0xD800; 1; 1] /\
  App.try_chardet Reference.chardet_detect Reference.decode [0x1B; 1; 1]
  = None /\
  (forall B, In B App.encodings_to_try ->
             rejected Reference.isprintable Reference.decode B [0x1B; 1; 1]) /\
  Reference.decode_indic_text (Str [0x1B; 0xD800; 1; 1])
  = Return [0x1B; 1; 1].
Proof.
  assert (Hcp : Forall code_point [0x1B; 0xD800; 1; 1]).
  { apply Forall_forall. intros c Hc. unfold code_point. simpl in Hc.
    repeat (destruct Hc as [<-|Hc]; [lia|]). destruct Hc. }
  assert (Hdet : App.try_chardet Reference.chardet_detect Reference.decode
                                 [0x1B; 1; 1] = None)
    by (vm_compute; reflexivity).
  assert (Hrej : forall B, In B App.encodings_to_try ->
                   rejected Reference.isprintable Reference.decode B
                            [0x1B; 1; 1]).
  { intros B HB decoded Hd. unfold App.encodings_to_try in HB. simpl in HB.
    repeat (destruct HB as [<-|HB];
            [vm_compute in Hd; try discriminate Hd;
             injection Hd as <-; vm_compute; discriminate|]).
    destruct HB. }
  refine (conj Hcp (conj Hdet (conj Hrej _))).
  refine (last_resort_returns_repaired_text Reference.isprintable
            Reference.chardet_detect Reference.decode Reference.decode_replace
            [0x1B; 0xD800; 1; 1] Hcp _ Hdet Hrej).
  intros H. vm_compute in H. discriminate H.
Defined.

(** X2. With a codec registry whose [utf-8] is the UTF-8 codec, a text
    whose repaired form has a printable ratio above 0.8 comes back as that
    repaired form (surrogates dropped) whenever the ISCII attempt and the
    detector return nothing: [utf-8] is the first candidate of the list
    and decodes the bytes the function encoded itself. *)
Theorem utf8_candidate_returns_repaired_text :
  forall isprintable chardet_detect decode decode_replace text,
    let repaired := filter (fun c => negb (surrogate c)) (App.repair text) in
    Forall code_point text ->
    (forall b, decode "utf-8"%string b = utf8_decode b) ->
    (App.is_indic text = true ->
     snd (App.iscii_attempt isprintable decode_replace
                            (Str (App.repair text))) = None) ->
    App.try_chardet chardet_detect decode
                    (utf8_encode_ignore (App.repair text)) = None ->
    ~ low_ratio isprintable repaired ->
    App.decode_indic_text isprintable chardet_detect decode decode_replace
                          (Str text)
    = Return repaired.
Proof.
  intros isprintable chardet_detect decode decode_replace text repaired
         Hcp Hutf8 Hiscii Hdet Hratio.
  rewrite decode_indic_text_str. unfold App.decode_chain. rewrite Hdet.
  change App.encodings_to_try
    with ([] ++ "utf-8"%string :: skipn 1 App.encodings_to_try).
  rewrite (try_encodings_first isprintable decode [] "utf-8"%string _
             (utf8_encode_ignore (App.repair text)) repaired).
  - destruct (App.is_indic text); [rewrite Hiscii|]; reflexivity.
  - intros B [].
  - rewrite Hutf8.
    exact (proj2 (utf8_round_trip _ (repair_code_points text Hcp))).
  - exact (ratio_ok_of_not_low _ _ Hratio).
Qed.

Lemma utf8_candidate_returns_repaired_text_witness :
  Forall code_point (lit "caf" ++ [0xE9; 0xC9]) /\
  App.repair (lit "caf" ++ [0xE9; 0xC9]) = lit "caf" ++ [0x948; 0x93E] /\
  Reference.decode_indic_text (Str (lit "caf" ++ [0xE9; 0xC9]))
  = Return (lit "caf" ++ [0x948; 0x93E]).
Proof.
  assert (Hcp : Forall code_point (lit "caf" ++ [0xE9; 0xC9])).
  { apply Forall_forall. intros c Hc. unfold code_point. simpl in Hc.
    repeat (destruct Hc as [<-|Hc]; [lia|]). destruct Hc. }
  split; [exact Hcp|]. split; [vm_compute; reflexivity|].
  refine (utf8_candidate_returns_repaired_text Reference.isprintable
            Reference.chardet_detect Reference.decode Reference.decode_replace
            (lit "caf" ++ [0xE9; 0xC9]) Hcp _ _ _ _).
  - intros b. reflexivity.
  - intros _. vm_compute. reflexivity.
  - vm_compute. reflexivity.
  - unfold low_ratio. vm_compute. intros H. apply H. reflexivity.
Defined.

(** ** More on [normalize_text] *)

Section NormalFormFacts.

Local Arguments isspace : simpl never.

Lemma ws_ok_no_double_space b s : ws_ok b s -> str_in [SP; SP] s = false.
Proof.
  revert b. induction s as [|c s IH]; intros b H; [reflexivity|].
  cbn [str_in]. apply orb_false_iff. split.
  - cbn [starts_with]. destruct (SP =? c) eqn:E; [|reflexivity].
    apply Z.eqb_eq in E. subst c. simpl in H.
    change (isspace SP) with true in H. cbv iota in H.
    destruct H as (_ & _ & H). destruct s as [|d s]; [reflexivity|].
    cbn [starts_with]. destruct (SP =? d) eqn:E'; [|reflexivity].
    apply Z.eqb_eq in E'. subst d. simpl in H.
    change (isspace SP) with true in H. cbv iota in H.
    destruct H as (_ & H & _). discriminate H.
  - simpl in H. destruct (isspace c); [destruct H as (_ & _ & H)|]; eauto.
Qed.

Lemma ws_ok_intro s : forall b,
  (forall c, In c s -> isspace c = true -> c = SP) ->
  str_in [SP; SP] s = false ->
  (b = true -> isspace (hd 0 s) = false) ->
  ws_ok b s.
Proof.
  induction s as [|c s IH]; intros b Hsp Hdd Hhd; [exact I|].
  cbn [str_in] in Hdd. apply orb_false_iff in Hdd as [Hd1 Hd2].
  cbn [ws_ok]. destruct (isspace c) eqn:E.
  - assert (Hc : c = SP) by (apply Hsp; [now left | exact E]).
    split; [exact Hc|]. split.
    + destruct b; [|reflexivity]. cbn [hd] in Hhd.
      rewrite (Hhd eq_refl) in E. discriminate E.
    + apply IH; [intros d Hd; apply Hsp; now right | exact Hd2 |].
      intros _. subst c. destruct s as [|d s]; [reflexivity|].
      cbn [hd]. cbn [starts_with] in Hd1. rewrite Z.eqb_refl in Hd1.
      cbn [andb] in Hd1. rewrite andb_true_r in Hd1.
      destruct (isspace d) eqn:Ed; [|reflexivity].
      assert (d = SP) by (apply Hsp; [right; now left | exact Ed]).
      subst d. rewrite Z.eqb_refl in Hd1. discriminate Hd1.
  - apply IH; [intros d Hd; apply Hsp; now right | exact Hd2 |].
    intros Hf. discriminate Hf.
Qed.

Lemma lstrip_fixed s : isspace (hd 0 s) = false -> lstrip s = s.
Proof.
  destruct s as [|c s]; [reflexivity|]. cbn [hd lstrip]. now intros ->.
Qed.

Lemma rstrip_fixed s : isspace (last s 0) = false -> rstrip s = s.
Proof.
  induction s as [|c s IH]; [reflexivity|]. intros H. cbn [rstrip].
  destruct s as [|d s].
  - cbn [rstrip]. cbn [last] in H. now rewrite H.
  - rewrite IH; [reflexivity|]. exact H.
Qed.

Lemma strip_fixed s :
  isspace (hd 0 s) = false -> isspace (last s 0) = false -> strip s = s.
Proof.
  intros Hh Hl. unfold strip. rewrite (lstrip_fixed s Hh).
  now apply rstrip_fixed.
Qed.

Lemma filter_length_le (f : Z -> bool) s :
  (List.length (filter f s) <= List.length s)%nat.
Proof.
  induction s as [|c s IH]; simpl; [lia|]. destruct (f c); simpl; lia.
Qed.

End NormalFormFacts.

(** X3. The form of a normalised text: every character is printable;
    its only whitespace is the space, never two in a row, never first or
    last; it holds no newline, no tab and no U+00C2. *)
Theorem normalize_text_normal_form :
  forall isprintable, printable_agrees isprintable ->
  forall x,
    let y := App.normalize_text isprintable x in
    Forall (fun c => isprintable c = true) y /\
    (forall c, In c y -> isspace c = true -> c = SP) /\
    str_in [SP; SP] y = false /\
    isspace (hd 0 y) = false /\ isspace (last y 0) = false /\
    ~ In NL y /\ ~ In TAB y /\ ~ In 0xC2 y.
Proof.
  intros isprintable Ha x y.
  pose proof (normalize_text_ws_ok isprintable x) as Hw. fold y in Hw.
  assert (Hst : strip y = y) by apply normalize_text_stripped.
  split; [exact (normalize_text_printable isprintable Ha x)|].
  split; [intros c Hc Hs; exact (ws_ok_In isprintable false y c Hw Hc Hs)|].
  split; [exact (ws_ok_no_double_space false y Hw)|].
  split; [rewrite <- Hst; apply strip_head|].
  split; [rewrite <- Hst; apply strip_last|].
  split; [exact (ws_ok_no_newline isprintable false y Hw)|].
  split.
  - intros Hin. pose proof (ws_ok_In isprintable false y TAB Hw Hin eq_refl). discriminate.
  - unfold y. rewrite normalize_text_trims. intros Hin.
    apply strip_In in Hin. apply sub_ws_from_In in Hin as [Hin|[Hin _]];
      [discriminate Hin|].
    apply replace_In in Hin as [Hin|Hin];
      [|simpl in Hin; destruct Hin as [Hin|[]]; discriminate Hin].
    apply (replace_In_text isprintable) in Hin;
      [|discriminate | intros z Hz; apply in_or_app; now left].
    revert Hin. apply replace_single_gone. intros [].
Qed.

Lemma normalize_text_normal_form_witness :
  printable_agrees Reference.isprintable /\
  str_in [SP; SP]
         (Reference.normalize_text ([0xC2; TAB] ++ lit " a  b " ++ [NL; 7]))
  = false /\
  Reference.normalize_text ([0xC2; TAB] ++ lit " a  b " ++ [NL; 7]) = lit "a b".
Proof.
  refine (conj reference_printable_agrees (conj _ _)).
  - exact (proj1 (proj2 (proj2 (normalize_text_normal_form
             Reference.isprintable reference_printable_agrees
             ([0xC2; TAB] ++ lit " a  b " ++ [NL; 7]))))).
  - vm_compute. reflexivity.
Defined.

(** X4. A text already in that form, and free of the artifact patterns,
    is returned as it is. *)
Theorem normalize_text_identity_on_clean_text :
  forall isprintable y,
    Forall (fun c => isprintable c = true) y ->
    (forall c, In c y -> isspace c = true -> c = SP) ->
    str_in [SP; SP] y = false ->
    isspace (hd 0 y) = false -> isspace (last y 0) = false ->
    artifact_free y ->
    App.normalize_text isprintable y = y.
Proof.
  intros isprintable y Hp Hsp Hdd Hh Hl Hf.
  apply normalize_text_fixed; [exact Hp | | | exact Hf].
  - apply ws_ok_intro; [exact Hsp | exact Hdd | discriminate].
  - now apply strip_fixed.
Qed.

Lemma normalize_text_identity_on_clean_text_witness :
  App.normalize_text Reference.isprintable (lit "Hello World") = lit "Hello World".
Proof.
  apply normalize_text_identity_on_clean_text.
  - apply Forall_forall. intros c Hc. simpl in Hc.
    repeat (destruct Hc as [<-|Hc]; [reflexivity|]). destruct Hc.
  - intros c Hc Hs. simpl in Hc.
    repeat (destruct Hc as [<-|Hc]; [try discriminate Hs; reflexivity|]).
    destruct Hc.
  - vm_compute. reflexivity.
  - vm_compute. reflexivity.
  - vm_compute. reflexivity.
  - intros p Hp. simpl in Hp.
    destruct Hp as [<-|[<-|[<-|[<-|[]]]]]; vm_compute; reflexivity.
Defined.

(** X5. [normalize_text] never lengthens a text, and writes no character
    that was not in it but the space, the apostrophe, the quotation mark
    and the copyright sign. *)
Theorem normalize_text_never_longer :
  forall isprintable x,
    (List.length (App.normalize_text isprintable x) <= List.length x)%nat /\
    (forall c, In c (App.normalize_text isprintable x) ->
               In c x \/ In c [SP; 39; 34; 0xA9]).
Proof.
  intros isprintable x. rewrite normalize_text_trims.
  set (keep := fun char => isprintable char || str_in [char] [NL; TAB]).
  set (t0 := re_sub_ws (filter keep x)).
  assert (L0 : (List.length t0 <= List.length x)%nat).
  { unfold t0, re_sub_ws.
    pose proof (sub_ws_from_length false (filter keep x)).
    pose proof (filter_length_le keep x). lia. }
  assert (I0 : forall c, In c t0 -> In c x \/ In c [SP; 39; 34; 0xA9]).
  { intros c Hc. apply sub_ws_from_In in Hc as [->|[Hc _]];
      [right; now left|].
    apply filter_In in Hc as [Hc _]. now left. }
  set (t1 := replace t0 [0xE2; 0x20AC; 0x2122] (lit "'")).
  set (t2 := replace t1 [0xE2; 0x20AC; 0x153] [34]).
  set (t3 := replace t2 [0xE2; 0x20AC] [34]).
  set (t4 := replace t3 [0xC2] []).
  set (t5 := replace t4 (lit "deg" ++ [0xFC]) (lit "deg")).
  set (t6 := replace t5 (lit "(c)") [0xA9]).
  assert (L1 : (List.length t1 <= List.length t0)%nat)
    by (apply replace_length; [discriminate | simpl; lia]).
  assert (L2 : (List.length t2 <= List.length t1)%nat)
    by (apply replace_length; [discriminate | simpl; lia]).
  assert (L3 : (List.length t3 <= List.length t2)%nat)
    by (apply replace_length; [discriminate | simpl; lia]).
  assert (L4 : (List.length t4 <= List.length t3)%nat)
    by (apply replace_length; [discriminate | simpl; lia]).
  assert (L5 : (List.length t5 <= List.length t4)%nat)
    by (apply replace_length; [discriminate | simpl; lia]).
  assert (L6 : (List.length t6 <= List.length t5)%nat)
    by (apply replace_length; [discriminate | simpl; lia]).
  assert (I6 : forall c, In c t6 -> In c x \/ In c [SP; 39; 34; 0xA9]).
  { intros c Hc.
    apply replace_In in Hc as [Hc|Hc];
      [|right; simpl in Hc; simpl; tauto].
    apply (replace_In_text isprintable) in Hc;
      [|discriminate | intros z Hz; apply in_or_app; now left].
    apply replace_In in Hc as [Hc|Hc]; [|destruct Hc].
    apply replace_In in Hc as [Hc|Hc];
      [|right; simpl in Hc; simpl; tauto].
    apply replace_In in Hc as [Hc|Hc];
      [|right; simpl in Hc; simpl; tauto].
    apply replace_In in Hc as [Hc|Hc];
      [|right; simpl in Hc; simpl; tauto].
    now apply I0. }
  split.
  - pose proof (strip_length (re_sub_ws t6)).
    pose proof (sub_ws_from_length false t6). unfold re_sub_ws in *. lia.
  - intros c Hc. apply strip_In in Hc.
    apply sub_ws_from_In in Hc as [->|[Hc _]]; [right; now left|].
    now apply I6.
Qed.

Lemma normalize_text_never_longer_witness :
  In SP (Reference.normalize_text (lit "a" ++ [TAB] ++ lit "b")) /\
  (In SP (lit "a" ++ [TAB] ++ lit "b") \/ In SP [SP; 39; 34; 0xA9]).
Proof.
  assert (H : In SP (Reference.normalize_text (lit "a" ++ [TAB] ++ lit "b")))
    by (vm_compute; right; left; reflexivity).
  refine (conj H _).
  exact (proj2 (normalize_text_never_longer Reference.isprintable
                  (lit "a" ++ [TAB] ++ lit "b")) SP H).
Defined.

(** ** The exporters *)

Section ExporterFacts.

Local Arguments isspace : simpl never.

Lemma clean_text_space_only isword text c :
  In c (App.ContentExporters.clean_text isword text) ->
  isspace c = true -> c = SP.
Proof.
  intros H Hs. apply strip_In in H. apply filter_In in H as [H _].
  apply sub_ws_from_In in H as [H|[_ H]]; [exact H | congruence].
Qed.

Lemma clean_text_no_newline isword text :
  ~ In NL (App.ContentExporters.clean_text isword text).
Proof.
  intros H. pose proof (clean_text_space_only isword text NL H eq_refl).
  discriminate.
Qed.

Lemma split_single_no_sep d s : forall piece,
  In piece (split_from [d] 0 s) -> ~ In d piece.
Proof.
  induction s as [|c s IH]; intros piece H.
  - simpl in H. destruct H as [<-|[]]. intros [].
  - cbn [split_from] in H. rewrite starts_with_single in H.
    destruct (d =? c) eqn:E.
    + cbn [List.length Nat.pred] in H. destruct H as [<-|H]; [intros []|].
      now apply IH.
    + apply Z.eqb_neq in E.
      destruct (split_from [d] 0 s) as [|p ps] eqn:S.
      * destruct H as [<-|[]]. intros [H|[]]. congruence.
      * destruct H as [<-|H].
        -- intros [H|H]; [congruence|]. revert H. apply IH. now left.
        -- apply IH. now right.
Qed.

Lemma fold_replace_In items : forall text c,
  In c (fold_left (fun text (kv : str * str) => replace text (fst kv) (snd kv))
                  items text) ->
  In c text \/ exists kv, In kv items /\ In c (snd kv).
Proof.
  induction items as [|kv rest IH]; intros text c H; [now left|].
  cbn [fold_left] in H. apply IH in H as [H|(kv' & Hkv' & H)].
  - apply replace_In in H as [H|H]; [now left|].
    right. exists kv. split; [now left | exact H].
  - right. exists kv'. split; [now right | exact H].
Qed.

End ExporterFacts.

(** X6. [export_as_html] of app.py writes the cleaned content on one
    line: [clean_text] leaves no newline, so the replacement of newlines
    by [<br>] at line 409 changes nothing. *)
Theorem export_as_html_writes_cleaned_content :
  forall isword content filename_base,
    ~ In NL (App.ContentExporters.clean_text isword content) /\
    App.html_template isword content filename_base
    = App.html_part_1 ++ filename_base ++ App.html_part_2 ++ filename_base
        ++ App.html_part_3 ++ App.ContentExporters.clean_text isword content
        ++ App.html_part_4.
Proof.
  intros isword content filename_base.
  split; [apply clean_text_no_newline|].
  unfold App.html_template.
  rewrite (replace_absent _ [10] (lit "<br>"));
    [reflexivity | discriminate |].
  apply str_in_single_false. apply clean_text_no_newline.
Qed.

(** X7. Every line that [export_as_pdf] of whitepaper/exporters.py hands
    to [pdf.multi_cell] is made of characters below 256, holds no newline,
    is not blank and does not start, once stripped, with [style], [/*] or
    [*/]. *)
Theorem pdf_cells_are_latin1_lines :
  forall chardet_detect decode_replace content cell,
    In cell (Whitepaper.ContentExporters.pdf_cells chardet_detect
               decode_replace content) ->
    Forall (fun c => c < 256) cell /\ ~ In NL cell /\
    App.nonblank cell = true /\
    startswith_any (strip cell) [lit "style"; lit "/*"; lit "*/"] = false.
Proof.
  intros chardet_detect decode_replace content cell H.
  unfold Whitepaper.ContentExporters.pdf_cells in H.
  apply in_flat_map in H as (line & Hline & H).
  unfold Whitepaper.ContentExporters.pdf_cell in H.
  rewrite clean_text_str in H.
  match type of H with
  | In _ (if ?b then _ else _) => destruct b eqn:E; [|destruct H]
  end.
  destruct H as [<-|[]]. apply andb_true_iff in E as [E1 E2].
  apply negb_true_iff in E2.
  split; [apply (clean_text_latin1 chardet_detect decode_replace (Str line));
          apply clean_text_str|].
  split; [|split; assumption].
  intros Hin. apply filter_In in Hin as [Hin _].
  apply fold_replace_In in Hin as [Hin|(kv & Hkv & Hin)].
  - exact (split_single_no_sep NL content line Hline Hin).
  - assert (Hv : forallb (fun kv : str * str =>
                            negb (existsb (Z.eqb NL) (snd kv)))
                         Whitepaper.ContentExporters.replacements = true)
      by (vm_compute; reflexivity).
    rewrite forallb_forall in Hv. specialize (Hv kv Hkv). cbv beta in Hv.
    apply negb_true_iff in Hv.
    assert (Hx : existsb (Z.eqb NL) (snd kv) = true)
      by (apply existsb_exists; exists NL; split; [exact Hin | reflexivity]).
    destruct kv as [k v]. cbn [snd] in Hv, Hx. rewrite Hx in Hv.
    discriminate Hv.
Qed.

Lemma pdf_cells_are_latin1_lines_witness :
  Whitepaper.ContentExporters.pdf_cells Reference.chardet_detect
    Reference.decode_replace
    (lit "Caf" ++ [0xE9; 0x2014; 0x93E; NL; NL] ++ lit "  " ++ [NL]
         ++ lit " style x" ++ [NL] ++ lit "5 " ++ [0x20AC])
  = [lit "Caf" ++ [0xE9] ++ lit "--"; lit "5 EUR"] /\
  Forall (fun c => c < 256) (lit "5 EUR").
Proof.
  assert (H : Whitepaper.ContentExporters.pdf_cells Reference.chardet_detect
                Reference.decode_replace
                (lit "Caf" ++ [0xE9; 0x2014; 0x93E; NL; NL] ++ lit "  " ++ [NL]
                     ++ lit " style x" ++ [NL] ++ lit "5 " ++ [0x20AC])
              = [lit "Caf" ++ [0xE9] ++ lit "--"; lit "5 EUR"])
    by (vm_compute; reflexivity).
  split; [exact H|].
  refine (proj1 (pdf_cells_are_latin1_lines Reference.chardet_detect
                   Reference.decode_replace _ (lit "5 EUR") _)).
  rewrite H. right. left. reflexivity.
Defined.

(** X8. The sanitizer of whitepaper/exporters.py returns unchanged a text
    of characters below 256 that holds none of the ten Latin-1 signs its
    table rewrites, nor the long key of that table. *)
Theorem sanitizer_identity_on_plain_latin1 :
  forall chardet_detect decode_replace text,
    Forall (fun c => c < 256) text ->
    (forall k, In k latin1_keys -> str_in k text = false) ->
    Whitepaper.ContentExporters.clean_text chardet_detect decode_replace
                                           (Str text)
    = Return text.
Proof.
  intros chardet_detect decode_replace text Hl Hk.
  rewrite clean_text_str. f_equal.
  assert (Hfold : fold_left (fun text (kv : str * str) =>
                               replace text (fst kv) (snd kv))
                            Whitepaper.ContentExporters.replacements text
                  = text).
  { assert (Hcls : forallb (fun kv : str * str =>
                              str_eqb (fst kv) [34] && str_eqb (snd kv) [34]
                              || existsb (str_eqb (fst kv)) latin1_keys
                              || (negb (str_eqb (fst kv) [])
                                  && existsb (fun c => 256 <=? c) (fst kv)))
                           Whitepaper.ContentExporters.replacements = true)
      by (vm_compute; reflexivity).
    rewrite forallb_forall in Hcls.
    induction Whitepaper.ContentExporters.replacements as [|[k v] rest IH];
      [reflexivity|].
    cbn [fold_left fst snd].
    assert (Hkv : replace text k v = text).
    { specialize (Hcls (k, v) (or_introl eq_refl)). cbn [fst snd] in Hcls.
      apply orb_true_iff in Hcls as [Hcls|Hcls];
        [apply orb_true_iff in Hcls as [Hcls|Hcls]|].
      - apply andb_true_iff in Hcls as [H1 H2].
        apply str_eqb_eq in H1. apply str_eqb_eq in H2. subst k v.
        rewrite replace_single_map. rewrite <- (map_id text) at 2.
        apply map_ext. intros x. destruct (x =? 34) eqn:E; [|reflexivity].
        apply Z.eqb_eq in E. now subst x.
      - apply existsb_exists in Hcls as (k' & Hk' & E).
        apply str_eqb_eq in E. subst k'.
        assert (Hne : k <> []).
        { intros ->. specialize (Hk [] Hk'). destruct text; discriminate Hk. }
        apply replace_absent; [exact Hne | now apply Hk].
      - apply andb_true_iff in Hcls as [Hne Hbig].
        apply replace_absent.
        + intros ->. discriminate Hne.
        + destruct (str_in k text) eqn:S; [|reflexivity]. exfalso.
          apply existsb_exists in Hbig as (c & Hc & Hge).
          apply Z.leb_le in Hge.
          assert (Hin : In c text).
          { clear - S Hc. induction text as [|x t IHt].
            - destruct k; [destruct Hc | discriminate S].
            - cbn [str_in] in S. apply orb_true_iff in S as [S|S].
              + exact (starts_with_incl k (x :: t) S c Hc).
              + right. now apply IHt. }
          rewrite Forall_forall in Hl. specialize (Hl c Hin). lia. }
    rewrite Hkv. apply IH. intros kv Hin. apply Hcls. now right. }
  rewrite Hfold. apply filter_fixed.
  eapply Forall_impl; [|exact Hl]. intros c Hc. now apply Z.ltb_lt.
Qed.

Lemma sanitizer_identity_on_plain_latin1_witness :
  Whitepaper.ContentExporters.clean_text Reference.chardet_detect
    Reference.decode_replace (Str (lit "Caf" ++ [0xE9] ++ lit ": 5 < 7!"))
  = Return (lit "Caf" ++ [0xE9] ++ lit ": 5 < 7!").
Proof.
  apply sanitizer_identity_on_plain_latin1.
  - apply Forall_forall. intros c Hc. simpl in Hc.
    repeat (destruct Hc as [<-|Hc]; [lia|]). destruct Hc.
  - intros k Hk. unfold latin1_keys in Hk. simpl in Hk.
    repeat (destruct Hk as [<-|Hk]; [vm_compute; reflexivity|]).
    destruct Hk.
Defined.

(** ** [show_encoding_details] *)

Section PatternFacts.

Lemma high_bit_octet b :
  octet b -> negb (Z.land b 0x80 =? 0) = negb (b <? 128).
Proof.
  intros Hb. unfold octet in Hb.
  assert (H : forallb (fun n => Bool.eqb (negb (Z.land (Z.of_nat n) 0x80 =? 0))
                                         (negb (Z.of_nat n <? 128)))
                      (seq 0 256) = true) by (vm_compute; reflexivity).
  rewrite forallb_forall in H. specialize (H (Z.to_nat b)).
  rewrite Z2Nat.id in H by lia. apply Bool.eqb_prop. apply H.
  apply in_seq. lia.
Qed.

Lemma firstn_incl {A} n (l : list A) x : In x (firstn n l) -> In x l.
Proof.
  revert l. induction n as [|n IH]; intros [|a l] H; try destruct H.
  - now left.
  - right. now apply IH.
Qed.

Lemma all_low_iff_no_high l :
  Forall octet l ->
  forallb (fun b => b <? 128) l
  = negb (existsb (fun b => negb (Z.land b 0x80 =? 0)) l).
Proof.
  induction 1 as [|b l Hb _ IH]; [reflexivity|].
  cbn [forallb existsb]. rewrite IH, (high_bit_octet b Hb).
  destruct (b <? 128); reflexivity.
Qed.

End PatternFacts.

(** X9. Of the flags [show_encoding_details] returns for a [bytes]
    object, ['ASCII'] is the negation of ['UTF-8']: the first is set when
    none of the first hundred bytes is 128 or more, the second when one
    is. *)
Theorem encoding_flags_complementary :
  forall text_bytes,
    Forall octet text_bytes ->
    let found := App.show_encoding_details text_bytes in
    App.pattern_ascii found = negb (App.pattern_utf8 found) /\
    (App.pattern_ascii found = true <->
     forall b, In b (firstn 100 text_bytes) -> b < 128).
Proof.
  intros text_bytes H found. subst found.
  cbn [App.show_encoding_details App.pattern_ascii App.pattern_utf8].
  split.
  - apply all_low_iff_no_high. apply Forall_forall. intros b Hb.
    rewrite Forall_forall in H. apply H. exact (firstn_incl _ _ _ Hb).
  - rewrite forallb_forall. split; intros Hall b Hb.
    + apply Z.ltb_lt. now apply Hall.
    + apply Z.ltb_lt. now apply Hall.
Qed.

Lemma encoding_flags_complementary_witness :
  Forall octet [72; 105; 0xE0; 0xA4; 0x85] /\
  App.pattern_ascii (App.show_encoding_details [72; 105; 0xE0; 0xA4; 0x85])
  = negb (App.pattern_utf8
            (App.show_encoding_details [72; 105; 0xE0; 0xA4; 0x85])).
Proof.
  assert (H : Forall octet [72; 105; 0xE0; 0xA4; 0x85]).
  { apply Forall_forall. intros c Hc. unfold octet. simpl in Hc.
    repeat (destruct Hc as [<-|Hc]; [lia|]). destruct Hc. }
  refine (conj H _).
  exact (proj1 (encoding_flags_complementary [72; 105; 0xE0; 0xA4; 0x85] H)).
Defined.

(** ** [extract_text_from_pdf] and [process_for_research] together *)

Section ExtractFacts.

Import Whitepaper.EncodingDetector.

Variable chardet_detect : bytes -> App.detection.

Lemma extract_loop_texts texts : forall acc,
  extract_loop chardet_detect (map Return texts) acc
  = Return (fst acc ++ map (extracted_chunk chardet_detect)
                           (filter has_text texts),
            snd acc ++ map (extracted_encoding chardet_detect)
                           (filter has_text texts)).
Proof.
  induction texts as [|page_text rest IH]; intros acc.
  - cbn [map filter extract_loop]. rewrite !app_nil_r. now destruct acc.
  - cbn [map extract_loop bind filter]. destruct page_text as [|c page_text].
    + cbn [has_text]. apply IH.
    + cbn [has_text]. rewrite IH. cbn [fst snd map].
      rewrite <- !app_assoc. reflexivity.
Qed.

Lemma extract_loop_raise before e after : forall acc,
  extract_loop chardet_detect (map Return before ++ Raise e :: after) acc
  = Raise e.
Proof.
  induction before as [|page_text rest IH]; intros acc.
  - reflexivity.
  - cbn [map List.app extract_loop bind]. destruct page_text; apply IH.
Qed.

Lemma combine_map_snd {A B C} (f : B -> C) (l : list A) : forall l',
  combine l (map f l') = map (fun p => (fst p, f (snd p))) (combine l l').
Proof.
  induction l as [|a l IH]; intros [|b l']; try reflexivity.
  cbn [map combine fst snd]. now rewrite IH.
Qed.

Lemma combine_seq_nth_error {A} (l : list A) : forall k i x,
  In (i, x) (combine (seq k (List.length l)) l) ->
  (k <= i)%nat /\ nth_error l (i - k) = Some x.
Proof.
  induction l as [|a l IH]; intros k i x H; [destruct H|].
  cbn [List.length seq combine] in H. destruct H as [H|H].
  - injection H as <- <-. split; [lia|]. now rewrite Nat.sub_diag.
  - apply IH in H as [Hle Hn]. split; [lia|].
    replace (i - k)%nat with (S (i - S k)) by lia. exact Hn.
Qed.

End ExtractFacts.

(** X10. [extract_text_from_pdf] of encoding_detector.py returns one
    chunk and one encoding name for each page whose text is not empty, in
    the order of the pages; the chunk holds the text, its UTF-8 bytes and
    what the detector says of them. An error of the reader or of any page
    that derives from [Exception] makes the result [(None, None)],
    whatever was read before. *)
Theorem extract_text_from_pdf_chunks :
  forall chardet_detect,
    (forall texts,
       Whitepaper.EncodingDetector.extract_text_from_pdf chardet_detect
         (Return (map Return texts))
       = Return (Some (map (extracted_chunk chardet_detect)
                           (filter has_text texts),
                       map (extracted_encoding chardet_detect)
                           (filter has_text texts)))) /\
    (forall before e after,
       Whitepaper.EncodingDetector.extract_text_from_pdf chardet_detect
         (Return (map Return before ++ Raise e :: after))
       = if is_Exception e then Return None else Raise e) /\
    (forall e,
       Whitepaper.EncodingDetector.extract_text_from_pdf chardet_detect
         (Raise e)
       = if is_Exception e then Return None else Raise e).
Proof.
  intros chardet_detect. split; [|split].
  - intros texts. unfold Whitepaper.EncodingDetector.extract_text_from_pdf.
    cbn [bind]. rewrite extract_loop_texts. reflexivity.
  - intros before e after.
    unfold Whitepaper.EncodingDetector.extract_text_from_pdf.
    cbn [bind]. rewrite extract_loop_raise. reflexivity.
  - intros e. reflexivity.
Qed.

(** X11. The text [process_for_research] makes of what
    [extract_text_from_pdf] returns: the pages with text follow one
    another, each under a marker that counts the pages with text, so that
    a page after an empty one is not marked with its number in the
    document. Decoding errors that derive from [Exception] do not stop
    it. *)
Theorem extracted_pages_numbered_by_rank :
  forall chardet_detect decode_replace texts,
    (forall name text e, decode_replace name text = Raise e ->
                         is_Exception e = true) ->
    exists text_chunks encodings,
      Whitepaper.EncodingDetector.extract_text_from_pdf chardet_detect
        (Return (map Return texts))
      = Return (Some (text_chunks, encodings)) /\
      Whitepaper.EncodingDetector.process_for_research decode_replace
        text_chunks encodings
      = Return
          (List.concat
             (map (fun it =>
                     marked_block (fst it)
                       (chunk_body decode_replace
                          (extracted_chunk chardet_detect (snd it))
                          (extracted_encoding chardet_detect (snd it))))
                  (numbered (filter has_text texts)))).
Proof.
  intros chardet_detect decode_replace texts Hexc.
  exists (map (extracted_chunk chardet_detect) (filter has_text texts)).
  exists (map (extracted_encoding chardet_detect) (filter has_text texts)).
  split.
  - unfold Whitepaper.EncodingDetector.extract_text_from_pdf.
    cbn [bind]. rewrite extract_loop_texts. reflexivity.
  - set (kept := filter has_text texts).
    unfold Whitepaper.EncodingDetector.process_for_research.
    destruct (chunk_loop_text decode_replace Hexc
                (map (extracted_encoding chardet_detect) kept)
                (map (extracted_chunk chardet_detect) kept)
                0%nat ([], None)) as [enc H].
    { rewrite !length_map. simpl. lia. }
    rewrite H. cbn [bind fst List.app]. f_equal. f_equal.
    unfold numbered. rewrite length_map, combine_map_snd, map_map.
    apply map_ext_in. intros [i page_text] Hin. cbn [fst snd].
    apply combine_seq_nth_error in Hin as [Hle Hn].
    f_equal. f_equal.
    apply nth_error_nth. now apply map_nth_error.
Qed.

Lemma extracted_pages_numbered_by_rank_witness :
  exists text_chunks encodings,
    Whitepaper.EncodingDetector.extract_text_from_pdf Reference.chardet_detect
      (Return (map Return [lit "one"; []; lit "three"]))
    = Return (Some (text_chunks, encodings)) /\
    Whitepaper.EncodingDetector.process_for_research Reference.decode_replace
      text_chunks encodings
    = Return (marked_block 1 (lit "one") ++ marked_block 2 (lit "three")).
Proof.
  destruct (extracted_pages_numbered_by_rank Reference.chardet_detect
              Reference.decode_replace [lit "one"; []; lit "three"]
              reference_decode_replace_exceptions)
    as (text_chunks & encodings & H1 & H2).
  exists text_chunks, encodings. split; [exact H1|].
  rewrite H2. vm_compute. reflexivity.
Defined.

(** ** [clean_markdown] and the documents of the two PDF exports *)

Section MarkdownFacts.

Local Arguments isspace : simpl never.

Lemma strip_headings_from_fixed s : forall line_start,
  ~ In 35 s -> strip_headings_from (AtText line_start) s = s.
Proof.
  induction s as [|c s IH]; intros line_start H; [reflexivity|].
  cbn [strip_headings_from].
  destruct (c =? 35) eqn:E.
  - apply Z.eqb_eq in E. exfalso. apply H. left. now rewrite E.
  - cbn [andb]. rewrite IH; [reflexivity|]. intros Hin. apply H. now right.
Qed.

Lemma unwrap_from_fixed delim s :
  (forall t, starts_with delim t = true -> In 42 t) ->
  ~ In 42 s -> unwrap_from delim 0 0 0 s = s.
Proof.
  intros Hd. induction s as [|c s IH]; intros H; [reflexivity|].
  cbn [unwrap_from].
  destruct (starts_with delim (c :: s)) eqn:E.
  - exfalso. apply H. now apply Hd.
  - rewrite IH; [reflexivity|]. intros Hin. apply H. now right.
Qed.

Lemma markers_filter_In text c :
  In c (filter (fun c => negb (existsb (Z.eqb c) (lit "#*_~`"))) text) ->
  In c text /\ ~ In c markdown_markers.
Proof.
  intros H. apply filter_In in H as [H1 H2]. split; [exact H1|].
  intros Hin. apply negb_true_iff in H2.
  assert (Hx : existsb (Z.eqb c) (lit "#*_~`") = true).
  { apply existsb_exists. exists c. split; [exact Hin | apply Z.eqb_refl]. }
  rewrite Hx in H2. discriminate H2.
Qed.

Lemma clean_markdown_marker_free text : marker_free (App.clean_markdown text).
Proof.
  intros c H. unfold App.clean_markdown in H.
  now apply markers_filter_In in H.
Qed.

Lemma clean_markdown_fixed text :
  marker_free text -> App.clean_markdown text = text.
Proof.
  intros H. unfold App.clean_markdown.
  assert (H35 : ~ In 35 text)
    by (intros Hin; apply (H 35 Hin); left; reflexivity).
  assert (H42 : ~ In 42 text)
    by (intros Hin; apply (H 42 Hin); right; left; reflexivity).
  unfold strip_headings. rewrite (strip_headings_from_fixed text true H35).
  unfold unwrap.
  rewrite (unwrap_from_fixed (lit "**") text);
    [|intros t Ht; apply (starts_with_incl _ _ Ht); left; reflexivity
     |exact H42].
  rewrite (unwrap_from_fixed (lit "*") text);
    [|intros t Ht; apply (starts_with_incl _ _ Ht); left; reflexivity
     |exact H42].
  apply filter_fixed. apply Forall_forall. intros c Hc.
  apply negb_true_iff. destruct (existsb _ _) eqn:E; [|reflexivity].
  exfalso. apply existsb_exists in E as (m & Hm & E).
  apply Z.eqb_eq in E. subst m. exact (H c Hc Hm).
Qed.

Lemma story_loop_started paragraphs : forall story,
  story <> [] ->
  App.story_loop paragraphs story
  = story ++ flat_map body_paragraph (filter App.nonblank paragraphs).
Proof.
  induction paragraphs as [|p rest IH]; intros story Hne.
  - cbn [App.story_loop filter flat_map]. now rewrite app_nil_r.
  - cbn [App.story_loop filter]. destruct (App.nonblank p).
    + destruct story as [|f story]; [congruence|].
      rewrite IH.
      * cbn [flat_map]. unfold body_paragraph at 2.
        rewrite <- !app_assoc. reflexivity.
      * intros Hnil. apply app_eq_nil in Hnil as [_ Hnil]. discriminate Hnil.
    + now apply IH.
Qed.

Lemma blog_loop_closed paragraphs : forall content,
  App.blog_loop paragraphs content
  = content ++ flat_map body_paragraph (filter App.nonblank paragraphs).
Proof.
  induction paragraphs as [|p rest IH]; intros content.
  - cbn [App.blog_loop filter flat_map]. now rewrite app_nil_r.
  - cbn [App.blog_loop filter]. destruct (App.nonblank p).
    + rewrite IH. cbn [flat_map]. unfold body_paragraph at 2.
      rewrite <- !app_assoc. reflexivity.
    + apply IH.
Qed.

End MarkdownFacts.

(** X12. What [clean_markdown] returns holds none of the characters
    [#], [*], [_], [~] and the backquote, and cleaning it again changes
    nothing. *)
Theorem clean_markdown_idempotent :
  forall text,
    marker_free (App.clean_markdown text) /\
    App.clean_markdown (App.clean_markdown text) = App.clean_markdown text.
Proof.
  intros text. split; [apply clean_markdown_marker_free|].
  apply clean_markdown_fixed. apply clean_markdown_marker_free.
Qed.

(** X13. [clean_markdown] returns unchanged a text that holds none of the
    five characters: none of its four substitutions touches anything
    else, whitespace and newlines included. *)
Theorem clean_markdown_identity_without_markers :
  forall text, marker_free text -> App.clean_markdown text = text.
Proof.
  exact clean_markdown_fixed.
Qed.

Lemma clean_markdown_identity_without_markers_witness :
  App.clean_markdown (lit "Title" ++ [NL; NL] ++ lit " 1. a-b (c)  !" ++ [NL])
  = lit "Title" ++ [NL; NL] ++ lit " 1. a-b (c)  !" ++ [NL].
Proof.
  apply clean_markdown_identity_without_markers.
  intros c Hc Hm. simpl in Hc.
  repeat (destruct Hc as [<-|Hc];
          [simpl in Hm;
           repeat (destruct Hm as [Hm|Hm]; [discriminate Hm|]); exact Hm|]).
  exact Hc.
Defined.

(** X14. The document [export_as_pdf] of app.py builds: the paragraphs
    of the content that are not blank, each followed by a spacer; the
    first of them, not the first paragraph, is set as the title. The
    document of the blog page is the topic as title, then the paragraphs
    of the cleaned post that are not blank as body. *)
Theorem pdf_documents_hold_nonblank_paragraphs :
  forall content topic blog_content,
    App.export_as_pdf_story content
    = match filter App.nonblank (str_split content [NL; NL]) with
      | [] => []
      | title :: rest =>
          App.Paragraph title App.title_style :: App.Spacer 1 12
            :: flat_map body_paragraph rest
      end /\
    App.blog_pdf_content topic blog_content
    = App.Paragraph topic App.title_style :: App.Spacer 1 12
        :: flat_map body_paragraph
             (filter App.nonblank
                     (str_split (App.clean_markdown blog_content) [NL; NL])).
Proof.
  intros content topic blog_content. split.
  - unfold App.export_as_pdf_story.
    induction (str_split content [NL; NL]) as [|p rest IH];
      [reflexivity|].
    cbn [App.story_loop filter]. destruct (App.nonblank p).
    + cbn [List.app]. rewrite story_loop_started by discriminate.
      reflexivity.
    + exact IH.
  - unfold App.blog_pdf_content. rewrite blog_loop_closed. reflexivity.
Qed.

(** ** The search tool of tools.py *)

Section SearchFacts.

Import Whitepaper.ResearchTools.

Variable lower : str -> str.
Variable chain_run : str -> str -> result str.
Variable full_text : str.
Variable page_texts : list (nat * str).

Hypothesis only_exceptions :
  forall query context e, chain_run query context = Raise e ->
                          is_Exception e = true.

Lemma usable_nonempty answer : usable lower answer = true -> answer <> [].
Proof.
  destruct answer; [discriminate|]. intros _. discriminate.
Qed.

Lemma search_pages_results query items : forall results,
  Forall (fun r => r <> []) results ->
  match search_pages lower chain_run query items results with
  | Return found => Forall (fun r => r <> []) found
  | Raise e => is_Exception e = true
  end.
Proof.
  induction items as [|[page_num page_text] rest IH]; intros results H.
  - exact H.
  - cbn [search_pages].
    destruct (chain_run _ page_text) as [page_result|e] eqn:E.
    + cbn [bind]. apply IH. destruct (usable lower page_result); [|exact H].
      apply Forall_app. split; [exact H|]. constructor; [|constructor].
      intros Hnil. apply (f_equal (@List.length Z)) in Hnil.
      rewrite length_app in Hnil. vm_compute in Hnil. discriminate Hnil.
    + cbn [bind]. exact (only_exceptions _ _ _ E).
Qed.

Lemma str_join_nonempty sep piece pieces :
  piece <> [] -> str_join sep (piece :: pieces) <> [].
Proof.
  intros H. cbn [str_join]. destruct pieces; [exact H|].
  intros Hnil. apply app_eq_nil in Hnil as [Hnil _]. contradiction.
Qed.

Lemma search_answers query :
  exists answer,
    search lower chain_run full_text page_texts query = Return answer /\
    (answer = [] ->
     full_text = [] /\
     startswith_any (lower query)
                    [lit "extract all"; lit "get all"; lit "find all"] = true).
Proof.
  unfold search.
  destruct (startswith_any (lower query) _) eqn:Eq.
  - exists full_text. split; [reflexivity|]. intros ->. now split.
  - destruct (chain_run query full_text) as [answer|e] eqn:E.
    + cbn [bind]. destruct (usable lower answer) eqn:U.
      * exists answer. split; [reflexivity|]. intros Hnil.
        exfalso. exact (usable_nonempty answer U Hnil).
      * pose proof (search_pages_results query page_texts (@nil str)
                      (Forall_nil _)) as Hp.
        destruct (search_pages lower chain_run query page_texts [])
          as [found|e] eqn:P.
        -- cbn [bind]. destruct found as [|r found].
           ++ eexists. split; [reflexivity|]. intros Hnil.
              vm_compute in Hnil. discriminate Hnil.
           ++ eexists. split; [reflexivity|]. intros Hnil. exfalso.
              inversion Hp as [|? ? Hr _]. subst.
              exact (str_join_nonempty _ _ _ Hr Hnil).
        -- cbn [bind]. rewrite Hp. eexists. split; [reflexivity|].
           intros Hnil. apply (f_equal (@List.length Z)) in Hnil.
           rewrite length_app in Hnil. vm_compute in Hnil.
           discriminate Hnil.
    + cbn [bind]. rewrite (only_exceptions _ _ _ E).
      eexists. split; [reflexivity|].
      intros Hnil. apply (f_equal (@List.length Z)) in Hnil.
      rewrite length_app in Hnil. vm_compute in Hnil. discriminate Hnil.
Qed.

End SearchFacts.

Section LoadFacts.

Import Whitepaper.ResearchTools.

Lemma load_page_section acc p :
  fst (load_page acc p)
  = fst acc ++ (if App.nonblank (page_content p) then page_section p else []).
Proof.
  unfold load_page, App.nonblank, page_section, page_number.
  destruct (strip (page_content p)); cbn [fst].
  - now rewrite app_nil_r.
  - reflexivity.
Qed.

Lemma load_pages_from pages : forall acc,
  fst (fold_left load_page pages acc)
  = fst acc ++ List.concat
                 (map page_section
                      (filter (fun p => App.nonblank (page_content p)) pages)).
Proof.
  induction pages as [|p rest IH]; intros acc.
  - cbn [fold_left filter map List.concat]. now rewrite app_nil_r.
  - cbn [fold_left filter]. rewrite IH, load_page_section.
    destruct (App.nonblank (page_content p)).
    + cbn [map List.concat]. now rewrite <- app_assoc.
    + now rewrite app_nil_r.
Qed.

Lemma page_texts_set_keys d k v :
  map fst (page_texts_set d k v)
  = if existsb (Nat.eqb k) (map fst d) then map fst d else map fst d ++ [k].
Proof.
  induction d as [|[k' v'] d IH]; [reflexivity|].
  cbn [page_texts_set map fst existsb].
  rewrite (Nat.eqb_sym k k'). destruct (Nat.eqb k' k) eqn:E.
  - reflexivity.
  - cbn [orb map fst]. rewrite IH.
    destruct (existsb (Nat.eqb k) (map fst d)); reflexivity.
Qed.

Lemma page_texts_set_NoDup d k v :
  NoDup (map fst d) -> NoDup (map fst (page_texts_set d k v)).
Proof.
  intros H. rewrite page_texts_set_keys.
  destruct (existsb (Nat.eqb k) (map fst d)) eqn:E; [exact H|].
  apply NoDup_app; [exact H | constructor; [intros [] | constructor] |].
  intros a Ha [Hk|[]]. subst a.
  assert (Hx : existsb (Nat.eqb k) (map fst d) = true)
    by (apply existsb_exists; exists k; split;
        [exact Ha | apply Nat.eqb_refl]).
  rewrite Hx in E. discriminate E.
Qed.

Lemma page_texts_set_In d k v n t :
  In (n, t) (page_texts_set d k v) -> (n, t) = (k, v) \/ In (n, t) d.
Proof.
  induction d as [|[k' v'] d IH]; cbn [page_texts_set].
  - intros [H|[]]. left. now symmetry.
  - destruct (Nat.eqb k' k) eqn:E.
    + intros [H|H].
      * apply Nat.eqb_eq in E. subst k'. left. now symmetry.
      * right. now right.
    + intros [H|H].
      * right. now left.
      * apply IH in H as [H|H]; [now left | right; now right].
Qed.

Lemma load_pages_entries pages : forall acc,
  NoDup (map fst (snd acc)) ->
  NoDup (map fst (snd (fold_left load_page pages acc))) /\
  forall n t,
    In (n, t) (snd (fold_left load_page pages acc)) ->
    In (n, t) (snd acc) \/
    exists p, In p pages /\ n = page_number p /\
              t = strip (page_content p) /\ t <> [].
Proof.
  induction pages as [|p rest IH]; intros acc Hnd.
  - cbn [fold_left]. split; [exact Hnd|]. intros n t H. now left.
  - cbn [fold_left].
    assert (Hnd' : NoDup (map fst (snd (load_page acc p)))).
    { unfold load_page. destruct (strip (page_content p)); [exact Hnd|].
      cbn [snd]. now apply page_texts_set_NoDup. }
    destruct (IH (load_page acc p) Hnd') as [H1 H2].
    split; [exact H1|]. intros n t H. apply H2 in H as [H|(q & Hq & H)].
    + unfold load_page in H.
      destruct (strip (page_content p)) as [|c text] eqn:S;
        [now left|].
      cbn [snd] in H. apply page_texts_set_In in H as [H|H]; [|now left].
      injection H as -> ->. right. exists p.
      split; [now left|]. unfold page_number. rewrite S.
      split; [reflexivity|]. split; [reflexivity | discriminate].
    + right. exists q. split; [now right | exact H].
Qed.

End LoadFacts.

(** X15. The tool [search] of tools.py always answers when the chain
    raises nothing but errors that derive from [Exception]: with the whole
    text, with what the chain found, with the findings page by page, with
    the sentence that nothing was found, or with the message of the
    error. The answer is empty only when the whole text was asked for and
    the document has none. *)
Theorem search_always_answers :
  forall lower chain_run full_text page_texts query,
    (forall query context e, chain_run query context = Raise e ->
                             is_Exception e = true) ->
    exists answer,
      Whitepaper.ResearchTools.search lower chain_run full_text page_texts
                                      query
      = Return answer /\
      (answer = [] ->
       full_text = [] /\
       startswith_any (lower query)
                      [lit "extract all"; lit "get all"; lit "find all"]
       = true).
Proof.
  intros lower chain_run full_text page_texts query H.
  exact (search_answers lower chain_run full_text page_texts H query).
Qed.

Lemma search_always_answers_witness :
  exists answer,
    Whitepaper.ResearchTools.search (fun s => s)
      (fun _ _ => Raise (External true (lit "quota exceeded")))
      (lit "text") [(1%nat, lit "text")] (lit "methods")
    = Return answer /\
    answer = lit "Error processing PDF: quota exceeded".
Proof.
  destruct (search_always_answers (fun s => s)
              (fun _ _ => Raise (External true (lit "quota exceeded")))
              (lit "text") [(1%nat, lit "text")] (lit "methods"))
    as (answer & H & _).
  - intros query context e He. injection He as <-. reflexivity.
  - exists answer. split; [exact H|].
    vm_compute in H. injection H as <-. reflexivity.
Defined.

(** X16. What [create_pdf_search_tool] keeps of the loaded pages:
    [full_text] is made of the pages whose stripped content is not empty,
    in order, each under the marker of its metadata number plus one;
    [page_texts] has one entry for each number, and every entry is the
    number and the stripped, non-empty content of a loaded page. *)
Theorem load_pages_keeps_pages_with_text :
  forall pages,
    fst (Whitepaper.ResearchTools.load_pages pages)
    = List.concat
        (map page_section
             (filter (fun p => App.nonblank
                                 (Whitepaper.ResearchTools.page_content p))
                     pages)) /\
    NoDup (map fst (snd (Whitepaper.ResearchTools.load_pages pages))) /\
    forall n t,
      In (n, t) (snd (Whitepaper.ResearchTools.load_pages pages)) ->
      exists p, In p pages /\ n = page_number p /\
                t = strip (Whitepaper.ResearchTools.page_content p) /\
                t <> [].
Proof.
  intros pages. unfold Whitepaper.ResearchTools.load_pages.
  split; [apply (load_pages_from pages ([], []))|].
  destruct (load_pages_entries pages ([], []) (NoDup_nil _)) as [H1 H2].
  split; [exact H1|]. intros n t H.
  apply H2 in H as [[]|H]. exact H.
Qed.

Lemma load_pages_keeps_pages_with_text_witness :
  let pages :=
    [{| Whitepaper.ResearchTools.metadata_page := Some 0%nat;
        Whitepaper.ResearchTools.page_content := lit " a " |};
     {| Whitepaper.ResearchTools.metadata_page := Some 1%nat;
        Whitepaper.ResearchTools.page_content := lit "  " |};
     {| Whitepaper.ResearchTools.metadata_page := Some 2%nat;
        Whitepaper.ResearchTools.page_content := lit "b" ++ [NL] |}] in
  In (3%nat, lit "b") (snd (Whitepaper.ResearchTools.load_pages pages)) /\
  exists p, In p pages /\ 3%nat = page_number p /\
            lit "b" = strip (Whitepaper.ResearchTools.page_content p) /\
            lit "b" <> [].
Proof.
  intros pages.
  assert (H : In (3%nat, lit "b")
                 (snd (Whitepaper.ResearchTools.load_pages pages)))
    by (vm_compute; right; left; reflexivity).
  refine (conj H _).
  exact (proj2 (proj2 (load_pages_keeps_pages_with_text pages))
               3%nat (lit "b") H).
Defined.

(** ** Round trips and fixed points *)

Section SettleFacts.

Local Arguments isspace : simpl never.

Variable isword : Z -> bool.

Let clean := App.ContentExporters.clean_text isword.
Let kept := App.ContentExporters.kept isword.

Lemma kept_space : kept SP = true.
Proof.
  unfold kept, App.ContentExporters.kept.
  change (isspace SP) with true. now rewrite orb_true_r.
Qed.

(** On a text of kept characters the second substitution deletes
    nothing. *)
Lemma clean_text_of_kept y :
  (forall c, In c y -> kept c = true) ->
  clean y = strip (re_sub_ws y).
Proof.
  intros H. unfold clean, App.ContentExporters.clean_text.
  f_equal. apply filter_fixed. apply Forall_forall. intros c Hc.
  apply sub_ws_from_In in Hc as [->|[Hc _]]; [apply kept_space | now apply H].
Qed.

Lemma clean_text_fixed z :
  (forall c, In c z -> kept c = true) ->
  ws_ok false z -> strip z = z -> clean z = z.
Proof.
  intros Hk Hw Hs. rewrite (clean_text_of_kept z Hk).
  unfold re_sub_ws. now rewrite (sub_ws_from_fixed false z Hw).
Qed.

Lemma clean_text_twice_fixed text : clean (clean (clean text)) = clean (clean text).
Proof.
  apply clean_text_fixed.
  - intros c Hc. exact (clean_text_In isword _ c Hc).
  - rewrite (clean_text_of_kept (clean text)).
    + unfold strip. apply rstrip_ok. apply (lstrip_ok false).
      apply sub_ws_from_ok.
    + intros c Hc. exact (clean_text_In isword _ c Hc).
  - apply clean_text_stripped.
Qed.

End SettleFacts.

(** X17. [ContentExporters.clean_text] of app.py reaches a fixed point
    at its second application, and not always at its first: deleting a
    character between two spaces leaves the two spaces. *)
Theorem clean_text_settles_at_second_application :
  (forall isword text,
     App.ContentExporters.clean_text isword
       (App.ContentExporters.clean_text isword
          (App.ContentExporters.clean_text isword text))
     = App.ContentExporters.clean_text isword
         (App.ContentExporters.clean_text isword text)) /\
  Reference.clean_text (lit "a @ b") = lit "a  b" /\
  Reference.clean_text (Reference.clean_text (lit "a @ b")) = lit "a b".
Proof.
  split; [exact clean_text_twice_fixed|].
  split; vm_compute; reflexivity.
Qed.

(** X18. The body [process_for_research] writes for a chunk of
    [extract_text_from_pdf] is the text of the page without its
    surrogates, whenever the codec listed for the chunk reads the bytes of
    the chunk as UTF-8 does; this is so for UTF-8 itself, which is also
    the codec taken when the detector names none. *)
Theorem chunk_body_is_page_text :
  forall chardet_detect decode_replace page_text,
    Forall code_point page_text ->
    decode_replace
      (Whitepaper.or_utf8 (extracted_encoding chardet_detect page_text))
      (utf8_encode_ignore page_text)
    = Return (utf8_decode_replace (utf8_encode_ignore page_text)) ->
    chunk_body decode_replace (extracted_chunk chardet_detect page_text)
               (extracted_encoding chardet_detect page_text)
    = filter (fun c => negb (surrogate c)) page_text.
Proof.
  intros chardet_detect decode_replace page_text Hcp Hdec.
  unfold chunk_body, extracted_chunk.
  cbn [Whitepaper.EncodingDetector.chunk_bytes
       Whitepaper.EncodingDetector.chunk_text].
  rewrite Hdec. exact (proj1 (utf8_round_trip page_text Hcp)).
Qed.

Lemma chunk_body_is_page_text_witness :
  chunk_body Reference.decode_replace
    (extracted_chunk Reference.chardet_detect
                     ([0x928; 0x92E; 0x938; 0x94D; 0x924; 0x947; 0xD800]
                        ++ lit " 42"))
    (extracted_encoding Reference.chardet_detect
                        ([0x928; 0x92E; 0x938; 0x94D; 0x924; 0x947; 0xD800]
                           ++ lit " 42"))
  = [0x928; 0x92E; 0x938; 0x94D; 0x924; 0x947] ++ lit " 42".
Proof.
  rewrite (chunk_body_is_page_text Reference.chardet_detect
             Reference.decode_replace
             ([0x928; 0x92E; 0x938; 0x94D; 0x924; 0x947; 0xD800]
                ++ lit " 42")).
  - vm_compute. reflexivity.
  - apply Forall_forall. intros c Hc. unfold code_point. simpl in Hc.
    repeat (destruct Hc as [<-|Hc]; [lia|]). destruct Hc.
  - vm_compute. reflexivity.
Defined.

(** ** The page of the blog post and the byte displays *)

Section DisplayFacts.

Lemma str_join_In sep pieces c :
  In c (str_join sep pieces) ->
  In c sep \/ exists piece, In piece pieces /\ In c piece.
Proof.
  induction pieces as [|p rest IH]; [intros []|].
  cbn [str_join]. destruct rest as [|q rest].
  - intros H. right. exists p. split; [now left | exact H].
  - intros H. apply in_app_or in H as [H|H].
    + right. exists p. split; [now left | exact H].
    + apply in_app_or in H as [H|H]; [now left|].
      apply IH in H as [H|(piece & Hp & H)]; [now left|].
      right. exists piece. split; [now right | exact H].
Qed.

Lemma str_join_length k pieces :
  Forall (fun p => List.length p = k) pieces ->
  List.length (str_join [SP] pieces)
  = ((k + 1) * List.length pieces - 1)%nat.
Proof.
  induction 1 as [|p rest Hp Hrest IH]; [cbn [str_join List.length]; lia|].
  cbn [str_join]. destruct rest as [|q rest].
  - cbn [List.length]. lia.
  - rewrite !length_app, IH, Hp. cbn [List.length]. nia.
Qed.

Lemma existsb_eqb_In c l : existsb (Z.eqb c) l = true -> In c l.
Proof.
  intros H. apply existsb_exists in H as (d & Hd & E).
  apply Z.eqb_eq in E. now subst d.
Qed.

Lemma octet_table (P : Z -> bool) b :
  forallb (fun n => P (Z.of_nat n)) (seq 0 256) = true ->
  octet b -> P b = true.
Proof.
  intros H Hb. unfold octet in Hb. rewrite forallb_forall in H.
  specialize (H (Z.to_nat b)). rewrite Z2Nat.id in H by lia.
  apply H. apply in_seq. lia.
Qed.

Lemma format_02x_digits b c :
  octet b -> In c (App.format_02x b) -> In c (lit "0123456789abcdef").
Proof.
  intros Hb Hc.
  pose proof (octet_table
                (fun b => forallb (fun c => existsb (Z.eqb c)
                                                   (lit "0123456789abcdef"))
                                  (App.format_02x b)) b) as H.
  cbv beta in H. specialize (H ltac:(vm_compute; reflexivity) Hb).
  rewrite forallb_forall in H. specialize (H c Hc).
  apply existsb_exists in H as (d & Hd & E). apply Z.eqb_eq in E.
  now subst d.
Qed.

Lemma format_08b_digits b c :
  octet b -> In c (App.format_08b b) -> In c (lit "01").
Proof.
  intros Hb Hc.
  pose proof (octet_table
                (fun b => forallb (fun c => existsb (Z.eqb c) (lit "01"))
                                  (App.format_08b b)) b) as H.
  cbv beta in H. specialize (H ltac:(vm_compute; reflexivity) Hb).
  rewrite forallb_forall in H. specialize (H c Hc).
  apply existsb_exists in H as (d & Hd & E). apply Z.eqb_eq in E.
  now subst d.
Qed.

End DisplayFacts.

(** X19. The body of the page the blog writer makes of a post, the
    cleaned post with [<br>] for each newline, holds no newline and none
    of the characters [#], [*], [_], [~] and the backquote. *)
Theorem blog_html_body_has_no_markup :
  forall topic blog_content,
    let body := replace (App.clean_markdown blog_content) [NL] (lit "<br>") in
    App.blog_html_content topic blog_content
    = lit "<html><head></head><body><h1>" ++ topic ++ lit "</h1><div>"
        ++ body ++ lit "</div></body></html>" /\
    ~ In NL body /\ marker_free body.
Proof.
  intros topic blog_content body. split; [reflexivity|]. split.
  - apply replace_single_gone. simpl.
    intros H. repeat (destruct H as [H|H]; [discriminate H|]). exact H.
  - intros c Hc Hm. apply replace_In in Hc as [Hc|Hc].
    + exact (clean_markdown_marker_free blog_content c Hc Hm).
    + simpl in Hc, Hm.
      repeat (destruct Hc as [<-|Hc];
              [repeat (destruct Hm as [Hm|Hm]; [discriminate Hm|]);
               exact Hm|]).
      exact Hc.
Qed.


